(** * Portsmouth zoning analysis: zoning-compliance evaluation and metrics

    A shallow embedding of the analysis core of the repository
    (rule tables, land-use classifier, violation evaluator, the zone
    metrics and violation aggregators, the comparative layer) together
    with the properties established about it.

    Modelling conventions.
    - Python numbers (the [int]s of the rule tables, the [float]s of the
      property records) are rationals [Q]: a float is the rational it
      stands for.  Comparisons between an [int] and a [float] are exact
      in Python, so every branch taken by the evaluator is the branch
      taken here.  The arithmetic of the first part of the file is the
      exact one; where a result depends on the rounding of the floats,
      as the sums of acres of the zone metrics aggregator do, the code
      is embedded a second time in [Float], whose operations round to
      binary64 as the interpreter's do.
    - A Python [dict] read with [d[k]] or [d.get(k)] is a record whose
      fields are [field]s: the key may be absent, present with [None],
      or present with a value.
    - Exceptions are values of [outcome]: a function either [Returns] a
      result or [Raises] a [KeyError], [TypeError] or
      [ZeroDivisionError].
    - Insertion-ordered dictionaries built by the code are association
      lists in insertion order.
    - Strings are byte strings; [upper] is [str.upper] on ASCII text. *)

From Stdlib Require Import ZArith QArith Qround Qabs Qpower String Ascii List Bool Lia Lqa.
From Stdlib Require Import DecimalString.
Import ListNotations.

Local Open Scope string_scope.
Local Open Scope list_scope.

(** ** Exceptions and dictionary access *)

Inductive exn : Type :=
| KeyError (key : string)
| TypeError
| ZeroDivisionError.

Inductive outcome (A : Type) : Type :=
| Returns (a : A)
| Raises (e : exn).

Arguments Returns {A} a.
Arguments Raises {A} e.

Definition bind {A B : Type} (c : outcome A) (k : A -> outcome B) : outcome B :=
  match c with
  | Returns a => k a
  | Raises e => Raises e
  end.

Notation "x <- c ;; k" := (bind c (fun x => k))
  (at level 61, c at next level, right associativity).

(** A key of a Python dict: absent, bound to [None], or bound to a value. *)
Inductive field (A : Type) : Type :=
| Absent
| Null
| Val (a : A).

Arguments Absent {A}.
Arguments Null {A}.
Arguments Val {A} a.

(** [d[key]] *)
Definition subscript {A : Type} (key : string) (f : field A) : outcome (option A) :=
  match f with
  | Absent => Raises (KeyError key)
  | Null => Returns None
  | Val a => Returns (Some a)
  end.

(** [d.get(key)] *)
Definition get {A : Type} (f : field A) : option A :=
  match f with
  | Val a => Some a
  | _ => None
  end.

(** [d.get(key, default)] *)
Definition get_default {A : Type} (f : field A) (default : A) : option A :=
  match f with
  | Absent => Some default
  | Null => None
  | Val a => Some a
  end.

(** An arithmetic operation or an ordering comparison on [None] raises. *)
Definition number (v : option Q) : outcome Q :=
  match v with
  | Some q => Returns q
  | None => Raises TypeError
  end.

(** ** Numbers *)

Definition Qlt_bool (x y : Q) : bool := negb (Qle_bool y x).

(** [x / y] *)
Definition py_div (x y : Q) : outcome Q :=
  if Qeq_bool y 0 then Raises ZeroDivisionError else Returns (x / y)%Q.

(** Rounding to the nearest integer, ties to the even one: the rule of
    [round] and of the [f] format. *)
Definition round_half_even (q : Q) : Z :=
  let f := Qfloor q in
  let d := (q - inject_Z f)%Q in
  if Qlt_bool d (1 # 2) then f
  else if Qlt_bool (1 # 2) d then (f + 1)%Z
  else if Z.even f then f else (f + 1)%Z.

Definition pow10 (ndigits : nat) : Z := (10 ^ Z.of_nat ndigits)%Z.

(** [round(q, ndigits)], as an exact decimal ([Float.round] is the float
    that Python returns). *)
Definition round (q : Q) (ndigits : nat) : Q :=
  (inject_Z (round_half_even (q * inject_Z (pow10 ndigits))) / inject_Z (pow10 ndigits))%Q.

(** [str(n)] for an [int]. *)
Definition str_int (n : Z) : string := NilZero.string_of_int (Z.to_int n).

Fixpoint zeros (n : nat) : string :=
  match n with
  | O => ""
  | S n' => String "0" (zeros n')
  end.

Definition pad_left (width : nat) (s : string) : string :=
  zeros (width - String.length s) ++ s.

(** [f"{q:.<ndigits>f}"] *)
Definition format_fixed (q : Q) (ndigits : nat) : string :=
  let r := Z.abs (round_half_even (q * inject_Z (pow10 ndigits))) in
  let sign := if Qlt_bool q 0 then "-" else "" in
  let whole := str_int (r / pow10 ndigits) in
  match ndigits with
  | O => sign ++ whole
  | _ => sign ++ whole ++ "." ++ pad_left ndigits (str_int (r mod pow10 ndigits))
  end.

(** ** Strings *)

Definition upper_ascii (c : ascii) : ascii :=
  let n := nat_of_ascii c in
  if andb (Nat.leb 97 n) (Nat.leb n 122) then ascii_of_nat (n - 32) else c.

(** [s.upper()] *)
Fixpoint upper (s : string) : string :=
  match s with
  | EmptyString => EmptyString
  | String c s' => String (upper_ascii c) (upper s')
  end.

(** [key in s] for strings. *)
Fixpoint contains (key s : string) : bool :=
  if String.prefix key s then true
  else match s with
       | EmptyString => false
       | String _ s' => contains key s'
       end.

(** [x in l] for a list of strings. *)
Definition mem (x : string) (l : list string) : bool :=
  existsb (String.eqb x) l.

(** ** Dictionaries as association lists in insertion order *)

Fixpoint lookup {V : Type} (k : string) (d : list (string * V)) : option V :=
  match d with
  | [] => None
  | (k', v) :: d' => if String.eqb k k' then Some v else lookup k d'
  end.

(** [d[k] = f(d[k])] on a [defaultdict] whose factory yields [default]:
    an existing key keeps its position, a new key goes last. *)
Fixpoint update {V : Type} (default : V) (k : string) (f : V -> V)
    (d : list (string * V)) : list (string * V) :=
  match d with
  | [] => [(k, f default)]
  | (k', v) :: d' =>
      if String.eqb k k' then (k', f v) :: d'
      else (k', v) :: update default k f d'
  end.


(** ** Data model *)

(** One entry of a [ZONING_RULES] table.  [None] is the table's [None]. *)
Record ZoneRule : Type := mkRule {
  name : string;
  min_lot_size_sqft : option Z;
  min_frontage_ft : option Z;
  max_lot_coverage_pct : option Z;
  min_open_space_pct : option Z;
  front_setback_ft : option Z;
  side_setback_ft : option Z;
  rear_setback_ft : option Z;
  allowed_uses : list string
}.

(** A property dict as built by [extract_property_info]. *)
Record Property : Type := mkProperty {
  parcel_id : field string;
  address : field string;
  owner : field string;
  zoning : field string;
  land_use_desc : field string;
  total_value : field Q;
  land_value : field Q;
  parcel_area_acres : field Q;
  parcel_area_sqft : field Q;
  building_footprint_sqft : field Q;
  lot_coverage_pct : field Q
}.

(** A violation dict; the keys a violation does not carry are [None]. *)
Module Violation.
Record t : Type := mk {
  type : string;
  severity : string;
  description : string;
  deficit : option Q;
  excess_pct : option Q;
  current_use : option string;
  allowed_uses : option (list string)
}.
End Violation.

(** Python truth value of an optional integer: [None] and [0] are false. *)
Definition truthy (v : option Z) : bool :=
  match v with
  | Some m => negb (Z.eqb m 0)
  | None => false
  end.

(** ** Land-use classifier *)

(** The [for key, value in LAND_USE_CLASSIFICATIONS.items()] loop. *)
Fixpoint classify_scan (table : list (string * string)) (land_use_upper : string)
    : string :=
  match table with
  | [] => "other"
  | (key, value) :: rest =>
      if contains key land_use_upper then value
      else classify_scan rest land_use_upper
  end.

Definition classify_land_use_with (table : list (string * string))
    (land_use_desc : option string) : string :=
  match land_use_desc with
  | None => "unknown"
  | Some "" => "unknown"
  | Some desc => classify_scan table (upper desc)
  end.

(** ** portsmouth_zoning_rules.py *)

Module Rules.

Definition ZONING_RULES : list (string * ZoneRule) :=
  [ ("SRB", mkRule "Single Residence B" (Some 7500) (Some 100) (Some 25) (Some 30)
              (Some 30) (Some 10) (Some 20) ["single_family"; "accessory_dwelling"]);
    ("SRA", mkRule "Single Residence A" (Some 15000) (Some 125) (Some 20) (Some 40)
              (Some 35) (Some 15) (Some 25) ["single_family"; "accessory_dwelling"]);
    ("GRA", mkRule "General Residence A" (Some 5000) (Some 50) (Some 50) (Some 20)
              (Some 20) (Some 10) (Some 20)
              ["single_family"; "two_family"; "multi_family"; "accessory_dwelling"]);
    ("M", mkRule "Municipal" None None None None None None None
              ["municipal"; "public"]);
    ("R", mkRule "Residential" (Some 10000) (Some 100) (Some 30) (Some 30)
              (Some 30) (Some 15) (Some 25) ["single_family"; "accessory_dwelling"]);
    ("G1", mkRule "General Business 1" (Some 5000) (Some 50) (Some 70) (Some 10)
              (Some 10) (Some 0) (Some 10)
              ["commercial"; "retail"; "office"; "mixed_use"]);
    ("NRP", mkRule "Natural Resource Protection" (Some 43560) (Some 150) (Some 10)
              (Some 70) (Some 50) (Some 25) (Some 50)
              ["conservation"; "agriculture"; "single_family"]) ]%Z.

Definition LAND_USE_CLASSIFICATIONS : list (string * string) :=
  [ ("SINGLE FAM", "single_family");
    ("TWO FAM", "two_family");
    ("MULTI FAM", "multi_family");
    ("CONDO", "multi_family");
    ("APARTMENT", "multi_family");
    ("COMMERCIAL", "commercial");
    ("RETAIL", "retail");
    ("OFFICE", "office");
    ("INDUSTRIAL", "industrial");
    ("MUNICIPAL", "municipal");
    ("VACANT", "vacant");
    ("MIXED USE", "mixed_use") ].

Definition classify_land_use : option string -> string :=
  classify_land_use_with LAND_USE_CLASSIFICATIONS.

End Rules.

(** ** portsmouth_zoning_rules_corrected.py *)

Module RulesCorrected.

Definition ZONING_RULES : list (string * ZoneRule) :=
  [ ("R", mkRule "Residential" (Some 217800) None (Some 5) (Some 75)
              (Some 50) (Some 20) (Some 40) ["single_family"; "accessory_dwelling"]);
    ("SRA", mkRule "Single Residence A" (Some 43560) (Some 150) (Some 10) (Some 50)
              (Some 30) (Some 20) (Some 40) ["single_family"; "accessory_dwelling"]);
    ("SRB", mkRule "Single Residence B" (Some 15000) (Some 100) (Some 20) (Some 40)
              (Some 30) (Some 10) (Some 30) ["single_family"; "accessory_dwelling"]);
    ("GRA", mkRule "General Residence A" (Some 7500) (Some 100) (Some 25) (Some 30)
              (Some 15) (Some 10) (Some 20)
              ["single_family"; "two_family"; "multi_family"; "accessory_dwelling"]);
    ("GRB", mkRule "General Residence B" (Some 5000) (Some 80) (Some 30) (Some 25)
              (Some 5) (Some 10) (Some 25)
              ["single_family"; "two_family"; "multi_family"; "accessory_dwelling"]);
    ("GRC", mkRule "General Residence C" (Some 3500) (Some 70) (Some 35) (Some 20)
              (Some 5) (Some 10) (Some 20)
              ["single_family"; "two_family"; "multi_family"; "accessory_dwelling"]);
    ("MRO", mkRule "Mixed Residential Office" (Some 7500) (Some 100) (Some 40)
              (Some 25) (Some 5) (Some 10) (Some 15)
              ["single_family"; "two_family"; "multi_family"; "office"; "mixed_use"]);
    ("MRB", mkRule "Mixed Residential Business" (Some 7500) (Some 100) (Some 40)
              (Some 25) (Some 5) (Some 10) (Some 15)
              ["single_family"; "two_family"; "multi_family"; "commercial"; "mixed_use"]);
    ("GA/MH", mkRule "Garden Apartment/Mobile Home Park" (Some 217800) None (Some 20)
              (Some 50) (Some 30) (Some 25) (Some 25) ["multi_family"; "mobile_home"]);
    ("B", mkRule "Business" (Some 20000) (Some 100) (Some 35) (Some 15)
              (Some 20) (Some 15) (Some 15)
              ["commercial"; "retail"; "office"; "mixed_use"]);
    ("GB", mkRule "General Business" (Some 43560) (Some 200) (Some 30) (Some 20)
              (Some 30) (Some 30) (Some 50)
              ["commercial"; "retail"; "office"; "mixed_use"]);
    ("G1", mkRule "General Business 1" (Some 43560) (Some 200) (Some 30) (Some 20)
              (Some 30) (Some 30) (Some 50)
              ["commercial"; "retail"; "office"; "mixed_use"]);
    ("G2", mkRule "General Business 2" (Some 43560) (Some 200) (Some 30) (Some 20)
              (Some 30) (Some 30) (Some 50)
              ["commercial"; "retail"; "office"; "mixed_use"]);
    ("WB", mkRule "Waterfront Business" (Some 20000) (Some 100) (Some 30) (Some 20)
              (Some 30) (Some 30) (Some 20)
              ["commercial"; "retail"; "office"; "marine"]);
    ("I", mkRule "Industrial" (Some 87120) (Some 200) (Some 50) (Some 20)
              (Some 70) (Some 50) (Some 50) ["industrial"; "manufacturing"]);
    ("WI", mkRule "Waterfront Industrial" (Some 87120) (Some 200) (Some 50) (Some 20)
              (Some 70) (Some 50) (Some 50) ["industrial"; "manufacturing"; "marine"]);
    ("OR", mkRule "Office Research" (Some 130680) (Some 300) (Some 30) (Some 30)
              (Some 50) (Some 75) (Some 50) ["office"; "research"; "technology"]);
    ("M", mkRule "Municipal" None None None None None None None
              ["municipal"; "public"]);
    ("NRP", mkRule "Natural Resource Protection" (Some 217800) (Some 150) (Some 10)
              (Some 70) (Some 50) (Some 25) (Some 50)
              ["conservation"; "agriculture"; "single_family"]) ]%Z.

Definition LAND_USE_CLASSIFICATIONS : list (string * string) :=
  [ ("SINGLE FAM", "single_family");
    ("TWO FAM", "two_family");
    ("MULTI FAM", "multi_family");
    ("CONDO", "multi_family");
    ("APARTMENT", "multi_family");
    ("COMMERCIAL", "commercial");
    ("RETAIL", "retail");
    ("OFFICE", "office");
    ("INDUSTRIAL", "industrial");
    ("MUNICIPAL", "municipal");
    ("VACANT", "vacant");
    ("MIXED USE", "mixed_use") ].

Definition classify_land_use : option string -> string :=
  classify_land_use_with LAND_USE_CLASSIFICATIONS.

End RulesCorrected.

(** ** Violation evaluator *)

(** The three violation dicts appended by [check_zoning_violations]. *)
Definition undersized_lot (area : Q) (min_lot : Z) : Violation.t :=
  {| Violation.type := "undersized_lot";
     Violation.severity := "major";
     Violation.description :=
       "Lot size " ++ format_fixed area 0 ++ " sqft is below minimum "
       ++ str_int min_lot ++ " sqft";
     Violation.deficit := Some (inject_Z min_lot - area)%Q;
     Violation.excess_pct := None;
     Violation.current_use := None;
     Violation.allowed_uses := None |}.

Definition excess_lot_coverage (coverage : Q) (max_cov : Z) : Violation.t :=
  {| Violation.type := "excess_lot_coverage";
     Violation.severity := "major";
     Violation.description :=
       "Lot coverage " ++ format_fixed coverage 1 ++ "% exceeds maximum "
       ++ str_int max_cov ++ "%";
     Violation.deficit := None;
     Violation.excess_pct := Some (coverage - inject_Z max_cov)%Q;
     Violation.current_use := None;
     Violation.allowed_uses := None |}.

Definition incompatible_use (rules : ZoneRule) (land_use : string) : Violation.t :=
  {| Violation.type := "incompatible_use";
     Violation.severity := "critical";
     Violation.description :=
       "Land use '" ++ land_use ++ "' not allowed in " ++ name rules ++ " zone";
     Violation.deficit := None;
     Violation.excess_pct := None;
     Violation.current_use := Some land_use;
     Violation.allowed_uses := Some (allowed_uses rules) |}.

(** [# Check lot size] *)
Definition check_lot_size (rules : ZoneRule) (property : Property)
    : outcome (list Violation.t) :=
  match min_lot_size_sqft rules with
  | Some min_lot =>
      if truthy (Some min_lot) then
        a <- subscript "parcel_area_sqft" (parcel_area_sqft property) ;;
        area <- number a ;;
        if Qlt_bool area (inject_Z min_lot)
        then Returns [undersized_lot area min_lot]
        else Returns []
      else Returns []
  | None => Returns []
  end.

(** [# Check lot coverage], reading the coverage with
    [property.get('lot_coverage_pct', 0)]. *)
Definition check_lot_coverage (rules : ZoneRule) (property : Property)
    : outcome (list Violation.t) :=
  match max_lot_coverage_pct rules with
  | Some max_cov =>
      if truthy (Some max_cov) then
        c <- number (get_default (lot_coverage_pct property) 0%Q) ;;
        if Qlt_bool 0 c then
          a <- subscript "lot_coverage_pct" (lot_coverage_pct property) ;;
          coverage <- number a ;;
          if Qlt_bool (inject_Z max_cov) coverage
          then Returns [excess_lot_coverage coverage max_cov]
          else Returns []
        else Returns []
      else Returns []
  | None => Returns []
  end.

(** [# Check lot coverage], reading the coverage with
    [property['lot_coverage_pct']] (analyze_with_violations.py). *)
Definition check_lot_coverage_subscript (rules : ZoneRule) (property : Property)
    : outcome (list Violation.t) :=
  match max_lot_coverage_pct rules with
  | Some max_cov =>
      if truthy (Some max_cov) then
        a <- subscript "lot_coverage_pct" (lot_coverage_pct property) ;;
        coverage <- number a ;;
        if Qlt_bool 0 coverage then
          if Qlt_bool (inject_Z max_cov) coverage
          then Returns [excess_lot_coverage coverage max_cov]
          else Returns []
        else Returns []
      else Returns []
  | None => Returns []
  end.

(** [# Check land use compatibility] *)
Definition check_land_use (rules : ZoneRule) (land_use : string) : list Violation.t :=
  match allowed_uses rules with
  | [] => []
  | _ :: _ =>
      if negb (String.eqb land_use "unknown") && negb (String.eqb land_use "vacant")
      then if negb (mem land_use (allowed_uses rules))
           then [incompatible_use rules land_use]
           else []
      else []
  end.

(** [check_zoning_violations], over the rule table and classifier its
    module imports and with the coverage check of its file. *)
Definition check_zoning_violations_with
    (ZONING_RULES : list (string * ZoneRule))
    (classify_land_use : option string -> string)
    (coverage_check : ZoneRule -> Property -> outcome (list Violation.t))
    (property : Property) : outcome (list Violation.t) :=
  match get (zoning property) with
  | None => Returns []
  | Some zone =>
      if String.eqb zone "" then Returns []
      else match lookup zone ZONING_RULES with
           | None => Returns []
           | Some rules =>
               let land_use :=
                 classify_land_use (get_default (land_use_desc property) "") in
               size <- check_lot_size rules property ;;
               coverage <- coverage_check rules property ;;
               Returns (size ++ coverage ++ check_land_use rules land_use)
           end
  end.

(** reanalyze_with_corrected_rules.py (and, verbatim,
    generate_comparative_report.py and generate_corrected_full_report.py) *)
Module Reanalyze.
Definition check_zoning_violations : Property -> outcome (list Violation.t) :=
  check_zoning_violations_with RulesCorrected.ZONING_RULES
    RulesCorrected.classify_land_use check_lot_coverage.
End Reanalyze.

(** analyze_with_violations.py *)
Module AnalyzeWithViolations.
Definition check_zoning_violations : Property -> outcome (list Violation.t) :=
  check_zoning_violations_with Rules.ZONING_RULES
    Rules.classify_land_use check_lot_coverage_subscript.
End AnalyzeWithViolations.

(** ** Loops that may raise *)

(** [for x in l: st = step(st, x)], stopping at the first exception. *)
Fixpoint for_each {S A : Type} (step : S -> A -> outcome S) (l : list A) (st : S)
    : outcome S :=
  match l with
  | [] => Returns st
  | x :: l' => st' <- step st x ;; for_each step l' st'
  end.

(** [{k: f(v) for k, v in d.items()}], stopping at the first exception. *)
Fixpoint map_items {A B : Type} (f : A -> outcome B) (d : list (string * A))
    : outcome (list (string * B)) :=
  match d with
  | [] => Returns []
  | (k, v) :: d' =>
      v' <- f v ;;
      rest <- map_items f d' ;;
      Returns ((k, v') :: rest)
  end.

(** [d[k]] on a [defaultdict] whose factory yields [default], read only. *)
Definition lookup_default {V : Type} (default : V) (k : string) (d : list (string * V))
    : V :=
  match lookup k d with
  | Some v => v
  | None => default
  end.

(** The guard [if not prop or not prop.get('zoning'): continue] of every
    aggregation loop: the zone of a record that is kept.  An element of
    the collection is [None] for a null (or empty) record. *)
Definition zone_of (prop : option Property) : option string :=
  match prop with
  | None => None
  | Some p =>
      match get (zoning p) with
      | None => None
      | Some zone => if String.eqb zone "" then None else Some zone
      end
  end.

(** ** Zone metrics aggregator
    ([calculate_metrics] of analyze_portsmouth_zoning.py and
    [calculate_zone_metrics] of the report generators, which are the
    same function)

    Here the sums and the quotients are the exact ones, which is what
    the entries, the counts and the keys read depend on; [Float], further
    down, is the same function with the float operations, for the
    figures that depend on rounding. *)

Module ZoneData.
Record t : Type := mk {
  total_acres : Q;
  total_value : Q;
  parcel_count : nat;
  land_uses : list (string * nat)
}.
Definition empty : t := mk 0 0 0 [].
End ZoneData.

Module ZoneMetrics.
Record t : Type := mk {
  total_acres : Q;
  percent_of_land : Q;
  total_value : Q;
  revenue_density : Q;
  parcel_count : nat;
  land_uses : list (string * nat)
}.
End ZoneMetrics.

Module Metrics.
Record t : Type := mk {
  total_acres : Q;
  zones : list (string * ZoneMetrics.t);
  most_revenue_dense_zone : option (string * Q)
}.
End Metrics.

(** [s or default] for an optional string. *)
Definition str_or (s : option string) (default : string) : string :=
  match s with
  | None => default
  | Some "" => default
  | Some v => v
  end.

(** Body of the accumulation loop of [calculate_metrics]. *)
Definition metrics_step (st : list (string * ZoneData.t) * Q) (prop : option Property)
    : outcome (list (string * ZoneData.t) * Q) :=
  match prop, zone_of prop with
  | Some p, Some zone =>
      let (zone_data, total_acres) := st in
      a <- subscript "parcel_area_acres" (parcel_area_acres p) ;;
      v <- subscript "total_value" (total_value p) ;;
      d <- subscript "land_use_desc" (land_use_desc p) ;;
      let land_use := str_or d "Unknown" in
      acres <- number a ;;
      value <- number v ;;
      Returns
        (update ZoneData.empty zone
           (fun data =>
              ZoneData.mk (ZoneData.total_acres data + acres)
                          (ZoneData.total_value data + value)
                          (ZoneData.parcel_count data + 1)
                          (update 0%nat land_use (fun n => (n + 1)%nat)
                                  (ZoneData.land_uses data)))
           zone_data,
         (total_acres + acres)%Q)
  | _, _ => Returns st
  end.

(** The accumulation loop: the per-zone accumulators and the running
    grand total of acres. *)
Definition accumulate_metrics (properties : list (option Property))
    : outcome (list (string * ZoneData.t) * Q) :=
  for_each metrics_step properties ([], 0%Q).

(** [e if b > 0 else 0] *)
Definition if_positive (b : Q) (e : outcome Q) : outcome Q :=
  if Qlt_bool 0 b then e else Returns 0%Q.

(** Body of the [for zone, data in zone_data.items()] loop. *)
Definition zone_result (total_acres : Q) (data : ZoneData.t) : outcome ZoneMetrics.t :=
  pct_of_land <-
    if_positive total_acres
      (q <- py_div (ZoneData.total_acres data) total_acres ;; Returns (q * 100)%Q) ;;
  revenue_density <-
    if_positive (ZoneData.total_acres data)
      (py_div (ZoneData.total_value data) (ZoneData.total_acres data)) ;;
  Returns
    {| ZoneMetrics.total_acres := round (ZoneData.total_acres data) 2;
       ZoneMetrics.percent_of_land := round pct_of_land 2;
       ZoneMetrics.total_value := ZoneData.total_value data;
       ZoneMetrics.revenue_density := round revenue_density 2;
       ZoneMetrics.parcel_count := ZoneData.parcel_count data;
       ZoneMetrics.land_uses := ZoneData.land_uses data |}.

(** [max(items, key=key)]: the first item of maximal key. *)
Fixpoint max_by {A : Type} (key : A -> Q) (best : A) (l : list A) : A :=
  match l with
  | [] => best
  | x :: l' => max_by key (if Qlt_bool (key best) (key x) then x else best) l'
  end.

Definition most_dense (zones : list (string * ZoneMetrics.t)) : option (string * Q) :=
  match zones with
  | [] => None
  | z :: rest =>
      let most_dense_zone :=
        max_by (fun x => ZoneMetrics.revenue_density (snd x)) z rest in
      Some (fst most_dense_zone,
            round (ZoneMetrics.revenue_density (snd most_dense_zone)) 2)
  end.

Definition calculate_metrics (properties : list (option Property)) : outcome Metrics.t :=
  st <- accumulate_metrics properties ;;
  let (zone_data, total_acres) := st in
  zones <- map_items (zone_result total_acres) zone_data ;;
  Returns
    {| Metrics.total_acres := total_acres;
       Metrics.zones := zones;
       Metrics.most_revenue_dense_zone := most_dense zones |}.

Definition calculate_zone_metrics : list (option Property) -> outcome Metrics.t :=
  calculate_metrics.

(** ** Violation aggregator *)

Module Example.
Record t : Type := mk {
  address : option string;
  parcel_id : option string;
  violations : list Violation.t
}.
End Example.

Module ZoneViolations.
Record t : Type := mk {
  total_parcels : nat;
  parcels_with_violations : nat;
  violations_by_type : list (string * nat);
  examples : list Example.t
}.
Definition empty : t := mk 0 0 [] [].
End ZoneViolations.

Module Analysis.
Record t : Type := mk {
  violations_by_zone : list (string * ZoneViolations.t);
  all_violations : list (Property * list Violation.t)
}.
End Analysis.

Definition add_parcel (s : ZoneViolations.t) : ZoneViolations.t :=
  ZoneViolations.mk (ZoneViolations.total_parcels s + 1)
    (ZoneViolations.parcels_with_violations s)
    (ZoneViolations.violations_by_type s) (ZoneViolations.examples s).

Definition add_violating_parcel (s : ZoneViolations.t) : ZoneViolations.t :=
  ZoneViolations.mk (ZoneViolations.total_parcels s)
    (ZoneViolations.parcels_with_violations s + 1)
    (ZoneViolations.violations_by_type s) (ZoneViolations.examples s).

Definition add_violation_type (type : string) (s : ZoneViolations.t) : ZoneViolations.t :=
  ZoneViolations.mk (ZoneViolations.total_parcels s)
    (ZoneViolations.parcels_with_violations s)
    (update 0%nat type (fun n => (n + 1)%nat) (ZoneViolations.violations_by_type s))
    (ZoneViolations.examples s).

Definition add_example (e : Example.t) (s : ZoneViolations.t) : ZoneViolations.t :=
  ZoneViolations.mk (ZoneViolations.total_parcels s)
    (ZoneViolations.parcels_with_violations s)
    (ZoneViolations.violations_by_type s) (ZoneViolations.examples s ++ [e]).

(** [for v in violations: violations_by_zone[zone]['violations_by_type'][v['type']] += 1] *)
Definition count_types (zone : string) (violations : list Violation.t)
    (by_zone : list (string * ZoneViolations.t)) : list (string * ZoneViolations.t) :=
  fold_left
    (fun d v => update ZoneViolations.empty zone (add_violation_type (Violation.type v)) d)
    violations by_zone.

(** [# Store example (limit to <cap> per zone)] *)
Definition store_example (cap : nat) (zone : string) (p : Property)
    (violations : list Violation.t) (by_zone : list (string * ZoneViolations.t))
    : outcome (list (string * ZoneViolations.t)) :=
  if Nat.ltb (List.length
                (ZoneViolations.examples (lookup_default ZoneViolations.empty zone by_zone)))
             cap
  then
    a <- subscript "address" (address p) ;;
    i <- subscript "parcel_id" (parcel_id p) ;;
    Returns (update ZoneViolations.empty zone (add_example (Example.mk a i violations))
               by_zone)
  else Returns by_zone.

(** Body of the loop of [analyze_properties] / [analyze_violations]. *)
Definition analyze_step
    (check_zoning_violations : Property -> outcome (list Violation.t)) (cap : nat)
    (st : Analysis.t) (prop : option Property) : outcome Analysis.t :=
  match prop, zone_of prop with
  | Some p, Some zone =>
      let by_zone :=
        update ZoneViolations.empty zone add_parcel (Analysis.violations_by_zone st) in
      violations <- check_zoning_violations p ;;
      match violations with
      | [] => Returns (Analysis.mk by_zone (Analysis.all_violations st))
      | _ :: _ =>
          let by_zone := update ZoneViolations.empty zone add_violating_parcel by_zone in
          let by_zone := count_types zone violations by_zone in
          by_zone <- store_example cap zone p violations by_zone ;;
          Returns (Analysis.mk by_zone (Analysis.all_violations st ++ [(p, violations)]))
      end
  | _, _ => Returns st
  end.

(** The aggregation loop over an example cap and an evaluator. *)
Definition analyze_with
    (check_zoning_violations : Property -> outcome (list Violation.t)) (cap : nat)
    (properties : list (option Property)) : outcome Analysis.t :=
  for_each (analyze_step check_zoning_violations cap) properties (Analysis.mk [] []).

(** analyze_with_violations.py: [if len(...) < 5] *)
Definition analyze_properties : list (option Property) -> outcome Analysis.t :=
  analyze_with AnalyzeWithViolations.check_zoning_violations 5.

(** reanalyze_with_corrected_rules.py: [if len(...) < 10] *)
Definition analyze_violations : list (option Property) -> outcome Analysis.t :=
  analyze_with Reanalyze.check_zoning_violations 10.

(** ** Comparative layer (generate_comparative_report.py) *)

(** The number of a count, as it enters a division. *)
Definition of_count (n : nat) : Q := inject_Z (Z.of_nat n).

Module GroupStats.
Record t : Type := mk {
  total_acres : Q;
  total_parcels : nat;
  total_value : Q;
  violations : nat;
  undersized_lots : nat;
  incompatible_uses : nat
}.
Definition empty : t := mk 0 0 0 0 0 0.
End GroupStats.

(** Body of the [for zone in single_family_zones] and
    [for zone in multi_family_zones] loops. *)
Definition add_zone (metrics : Metrics.t) (violations_analysis : Analysis.t)
    (stats : GroupStats.t) (zone : string) : GroupStats.t :=
  let stats :=
    match lookup zone (Metrics.zones metrics) with
    | Some m =>
        GroupStats.mk
          (GroupStats.total_acres stats + ZoneMetrics.total_acres m)
          (GroupStats.total_parcels stats + ZoneMetrics.parcel_count m)
          (GroupStats.total_value stats + ZoneMetrics.total_value m)
          (GroupStats.violations stats) (GroupStats.undersized_lots stats)
          (GroupStats.incompatible_uses stats)
    | None => stats
    end in
  match lookup zone (Analysis.violations_by_zone violations_analysis) with
  | Some vdata =>
      GroupStats.mk
        (GroupStats.total_acres stats) (GroupStats.total_parcels stats)
        (GroupStats.total_value stats)
        (GroupStats.violations stats + ZoneViolations.parcels_with_violations vdata)
        (GroupStats.undersized_lots stats
         + lookup_default 0%nat "undersized_lot" (ZoneViolations.violations_by_type vdata))
        (GroupStats.incompatible_uses stats
         + lookup_default 0%nat "incompatible_use" (ZoneViolations.violations_by_type vdata))
  | None => stats
  end.

Definition group_stats (metrics : Metrics.t) (violations_analysis : Analysis.t)
    (zones : list string) : GroupStats.t :=
  fold_left (add_zone metrics violations_analysis) zones GroupStats.empty.

Definition single_family_zones : list string := ["R"; "SRA"; "SRB"].
Definition multi_family_zones : list string := ["GRA"; "GRB"; "GRC"].

(** [stats['revenue_density']], [stats['violation_rate']] and
    [stats['parcels_per_acre']]. *)
Definition group_revenue_density (stats : GroupStats.t) : outcome Q :=
  if_positive (GroupStats.total_acres stats)
    (py_div (GroupStats.total_value stats) (GroupStats.total_acres stats)).

Definition group_violation_rate (stats : GroupStats.t) : outcome Q :=
  if_positive (of_count (GroupStats.total_parcels stats))
    (q <- py_div (of_count (GroupStats.violations stats))
                 (of_count (GroupStats.total_parcels stats)) ;;
     Returns (q * 100)%Q).

Definition group_parcels_per_acre (stats : GroupStats.t) : outcome Q :=
  if_positive (GroupStats.total_acres stats)
    (py_div (of_count (GroupStats.total_parcels stats)) (GroupStats.total_acres stats)).

(** The figures that the text of [generate_residential_comparison]
    embeds, computed in the order in which the function evaluates them.
    [value_factor] is the factor printed on the total-property-value
    line: [value_ratio] when it exceeds 1, else [1/value_ratio]. *)
Module Comparison.
Record t : Type := mk {
  sf_stats : GroupStats.t;
  mf_stats : GroupStats.t;
  sf_revenue_density : Q;
  mf_revenue_density : Q;
  sf_violation_rate : Q;
  mf_violation_rate : Q;
  sf_parcels_per_acre : Q;
  mf_parcels_per_acre : Q;
  land_ratio : Q;
  value_ratio : Q;
  density_ratio : Q;
  parcel_density_ratio : Q;
  value_factor : Q;
  sf_pct : Q;
  mf_pct : Q
}.
End Comparison.

Definition generate_residential_comparison (metrics : Metrics.t)
    (violations_analysis : Analysis.t) : outcome Comparison.t :=
  let sf_stats := group_stats metrics violations_analysis single_family_zones in
  let mf_stats := group_stats metrics violations_analysis multi_family_zones in
  sf_revenue_density <- group_revenue_density sf_stats ;;
  mf_revenue_density <- group_revenue_density mf_stats ;;
  sf_violation_rate <- group_violation_rate sf_stats ;;
  mf_violation_rate <- group_violation_rate mf_stats ;;
  sf_parcels_per_acre <- group_parcels_per_acre sf_stats ;;
  mf_parcels_per_acre <- group_parcels_per_acre mf_stats ;;
  land_ratio <-
    if_positive (GroupStats.total_acres mf_stats)
      (py_div (GroupStats.total_acres sf_stats) (GroupStats.total_acres mf_stats)) ;;
  value_ratio <-
    if_positive (GroupStats.total_value mf_stats)
      (py_div (GroupStats.total_value sf_stats) (GroupStats.total_value mf_stats)) ;;
  density_ratio <-
    if_positive sf_revenue_density (py_div mf_revenue_density sf_revenue_density) ;;
  parcel_density_ratio <-
    if_positive sf_parcels_per_acre (py_div mf_parcels_per_acre sf_parcels_per_acre) ;;
  value_factor <-
    (if Qlt_bool 1 value_ratio then Returns value_ratio else py_div 1 value_ratio) ;;
  let total_residential_acres :=
    (GroupStats.total_acres sf_stats + GroupStats.total_acres mf_stats)%Q in
  sf_pct <-
    if_positive total_residential_acres
      (q <- py_div (GroupStats.total_acres sf_stats) total_residential_acres ;;
       Returns (q * 100)%Q) ;;
  mf_pct <-
    if_positive total_residential_acres
      (q <- py_div (GroupStats.total_acres mf_stats) total_residential_acres ;;
       Returns (q * 100)%Q) ;;
  Returns
    (Comparison.mk sf_stats mf_stats sf_revenue_density mf_revenue_density
       sf_violation_rate mf_violation_rate sf_parcels_per_acre mf_parcels_per_acre
       land_ratio value_ratio density_ratio parcel_density_ratio value_factor
       sf_pct mf_pct).

(** ** Infrastructure burden (infrastructure_burden_analysis.py) *)

Module InfraData.
Record t : Type := mk {
  total_acres : Q;
  total_value : Q;
  parcel_count : nat;
  total_frontage_required : Q;
  avg_lot_size : Q
}.
Definition empty : t := mk 0 0 0 0 0.
End InfraData.

Module InfraMetrics.
Record t : Type := mk {
  zone_name : string;
  total_acres : Q;
  parcel_count : nat;
  total_value : Q;
  avg_lot_size_sqft : Q;
  avg_lot_size_acres : Q;
  parcels_per_acre : Q;
  revenue_per_parcel : Q;
  revenue_per_acre : Q;
  min_frontage_ft : option Z;
  min_lot_size_sqft : option Z;
  estimated_linear_infrastructure_ft : Q;
  est_infrastructure_cost_per_parcel : Q;
  density_factor : Q;
  fiscal_sustainability_ratio : Q
}.
End InfraMetrics.

Definition infrastructure_step (zone_data : list (string * InfraData.t))
    (prop : option Property) : outcome (list (string * InfraData.t)) :=
  match prop, zone_of prop with
  | Some p, Some zone =>
      a <- subscript "parcel_area_acres" (parcel_area_acres p) ;;
      v <- subscript "total_value" (total_value p) ;;
      acres <- number a ;;
      value <- number v ;;
      Returns
        (update InfraData.empty zone
           (fun data =>
              InfraData.mk (InfraData.total_acres data + acres)
                           (InfraData.total_value data + value)
                           (InfraData.parcel_count data + 1)
                           (InfraData.total_frontage_required data)
                           (InfraData.avg_lot_size data))
           zone_data)
  | _, _ => Returns zone_data
  end.

(** [x * k if x else 0] for an optional integer [x]. *)
Definition times_if_set (x : option Z) (k : Q) : Q :=
  match x with
  | Some m => if truthy (Some m) then (inject_Z m * k)%Q else 0%Q
  | None => 0%Q
  end.

(** [fiscal_ratio]: lines 84-87. *)
Definition fiscal_ratio (revenue_per_parcel est_infrastructure_cost_per_parcel : Q)
    : outcome Q :=
  if_positive est_infrastructure_cost_per_parcel
    (py_div revenue_per_parcel est_infrastructure_cost_per_parcel).

(** Body of the second loop; [None] is [continue]. *)
Definition zone_infrastructure (ZONING_RULES : list (string * ZoneRule))
    (zone : string) (data : InfraData.t) : outcome (option InfraMetrics.t) :=
  match lookup zone ZONING_RULES with
  | None => Returns None
  | Some rules =>
      let parcels := InfraData.parcel_count data in
      let acres := InfraData.total_acres data in
      let value := InfraData.total_value data in
      if Nat.eqb parcels 0 || Qeq_bool acres 0 then Returns None
      else
        avg_lot_acres <- py_div acres (of_count parcels) ;;
        let avg_lot_sqft := (avg_lot_acres * 43560)%Q in
        revenue_per_parcel <- py_div value (of_count parcels) ;;
        revenue_per_acre <- py_div value acres ;;
        let min_frontage := min_frontage_ft rules in
        let min_lot_size := min_lot_size_sqft rules in
        let estimated_linear_infrastructure :=
          times_if_set min_frontage (of_count parcels) in
        let est_infrastructure_cost_per_parcel := times_if_set min_frontage 500 in
        parcels_per_acre <- py_div (of_count parcels) acres ;;
        density_factor <- if_positive parcels_per_acre (py_div 1 parcels_per_acre) ;;
        fiscal <- fiscal_ratio revenue_per_parcel est_infrastructure_cost_per_parcel ;;
        Returns
          (Some
             {| InfraMetrics.zone_name := name rules;
                InfraMetrics.total_acres := round acres 2;
                InfraMetrics.parcel_count := parcels;
                InfraMetrics.total_value := value;
                InfraMetrics.avg_lot_size_sqft := round avg_lot_sqft 0;
                InfraMetrics.avg_lot_size_acres := round avg_lot_acres 3;
                InfraMetrics.parcels_per_acre := round parcels_per_acre 2;
                InfraMetrics.revenue_per_parcel := round revenue_per_parcel 0;
                InfraMetrics.revenue_per_acre := round revenue_per_acre 0;
                InfraMetrics.min_frontage_ft := min_frontage;
                InfraMetrics.min_lot_size_sqft := min_lot_size;
                InfraMetrics.estimated_linear_infrastructure_ft :=
                  estimated_linear_infrastructure;
                InfraMetrics.est_infrastructure_cost_per_parcel :=
                  est_infrastructure_cost_per_parcel;
                InfraMetrics.density_factor := round density_factor 3;
                InfraMetrics.fiscal_sustainability_ratio := round fiscal 2 |})
  end.

Fixpoint infrastructure_results (ZONING_RULES : list (string * ZoneRule))
    (zone_data : list (string * InfraData.t))
    : outcome (list (string * InfraMetrics.t)) :=
  match zone_data with
  | [] => Returns []
  | (zone, data) :: rest =>
      r <- zone_infrastructure ZONING_RULES zone data ;;
      results <- infrastructure_results ZONING_RULES rest ;;
      Returns (match r with
               | Some m => (zone, m) :: results
               | None => results
               end)
  end.

Definition calculate_infrastructure_metrics (properties : list (option Property))
    : outcome (list (string * InfraMetrics.t)) :=
  zone_data <- for_each infrastructure_step properties [] ;;
  infrastructure_results RulesCorrected.ZONING_RULES zone_data.

(** ** Binary floating point

    A Python [float] is an IEEE 754 binary64 number: every arithmetic
    operation returns the exact result rounded to the nearest number
    with a 53-bit significand, ties to the even one.  [fl] is that
    rounding, on the rational value of the exact result.  The exponent
    range is not bounded: overflow to infinity (beyond 2^1024) and
    gradual underflow (below 2^-1022) are outside this model; a sum of
    two binary64 numbers that falls in the subnormal range is exact, so
    that additions are not affected by the second restriction. *)

(** The integer [e] with [2^e <= |x| < 2^(e+1)], for [x <> 0]. *)
Definition ilog2 (x : Q) : Z :=
  let e := (Z.log2 (Z.abs (Qnum x)) - Z.log2 (Zpos (Qden x)))%Z in
  if Qle_bool (2 ^ e) (Qabs x) then e else (e - 1)%Z.

(** The binary64 number nearest to [x]. *)
Definition fl (x : Q) : Q :=
  if Qeq_bool x 0 then 0%Q
  else
    let e := (ilog2 x - 52)%Z in
    Qred (inject_Z (round_half_even (x / 2 ^ e)) * 2 ^ e).

(** The unit roundoff [2^-53]: the relative error of one operation. *)
Definition unit_roundoff : Q := 1 # 9007199254740992.

Module Float.

(** [x + y] *)
Definition add (x y : Q) : Q := fl (x + y).

(** [x * y] *)
Definition mul (x y : Q) : Q := fl (x * y).

(** [x / y] *)
Definition div (x y : Q) : outcome Q :=
  if Qeq_bool y 0 then Raises ZeroDivisionError else Returns (fl (x / y)).

(** [round(x, ndigits)] on a float: the binary64 number nearest to the
    decimal that [x] rounds to (ties of the exact value to even). *)
Definition round (x : Q) (ndigits : nat) : Q := fl (round x ndigits).

(** *** The zone metrics aggregator on floats
    ([calculate_metrics] / [calculate_zone_metrics], with the
    arithmetic of the interpreter: the acres and the values of the
    records are floats, as [extract_property_info] builds them) *)

(** Body of the accumulation loop of [calculate_metrics]. *)
Definition metrics_step (st : list (string * ZoneData.t) * Q) (prop : option Property)
    : outcome (list (string * ZoneData.t) * Q) :=
  match prop, zone_of prop with
  | Some p, Some zone =>
      let (zone_data, total_acres) := st in
      a <- subscript "parcel_area_acres" (parcel_area_acres p) ;;
      v <- subscript "total_value" (total_value p) ;;
      d <- subscript "land_use_desc" (land_use_desc p) ;;
      let land_use := str_or d "Unknown" in
      acres <- number a ;;
      value <- number v ;;
      Returns
        (update ZoneData.empty zone
           (fun data =>
              ZoneData.mk (add (ZoneData.total_acres data) acres)
                          (add (ZoneData.total_value data) value)
                          (ZoneData.parcel_count data + 1)
                          (update 0%nat land_use (fun n => (n + 1)%nat)
                                  (ZoneData.land_uses data)))
           zone_data,
         add total_acres acres)
  | _, _ => Returns st
  end.

Definition accumulate_metrics (properties : list (option Property))
    : outcome (list (string * ZoneData.t) * Q) :=
  for_each metrics_step properties ([], 0%Q).

(** Body of the [for zone, data in zone_data.items()] loop. *)
Definition zone_result (total_acres : Q) (data : ZoneData.t) : outcome ZoneMetrics.t :=
  pct_of_land <-
    if_positive total_acres
      (q <- div (ZoneData.total_acres data) total_acres ;; Returns (mul q 100)) ;;
  revenue_density <-
    if_positive (ZoneData.total_acres data)
      (div (ZoneData.total_value data) (ZoneData.total_acres data)) ;;
  Returns
    {| ZoneMetrics.total_acres := round (ZoneData.total_acres data) 2;
       ZoneMetrics.percent_of_land := round pct_of_land 2;
       ZoneMetrics.total_value := ZoneData.total_value data;
       ZoneMetrics.revenue_density := round revenue_density 2;
       ZoneMetrics.parcel_count := ZoneData.parcel_count data;
       ZoneMetrics.land_uses := ZoneData.land_uses data |}.

Definition most_dense (zones : list (string * ZoneMetrics.t)) : option (string * Q) :=
  match zones with
  | [] => None
  | z :: rest =>
      let most_dense_zone :=
        max_by (fun x => ZoneMetrics.revenue_density (snd x)) z rest in
      Some (fst most_dense_zone,
            round (ZoneMetrics.revenue_density (snd most_dense_zone)) 2)
  end.

Definition calculate_metrics (properties : list (option Property)) : outcome Metrics.t :=
  st <- accumulate_metrics properties ;;
  let (zone_data, total_acres) := st in
  zones <- map_items (zone_result total_acres) zone_data ;;
  Returns
    {| Metrics.total_acres := total_acres;
       Metrics.zones := zones;
       Metrics.most_revenue_dense_zone := most_dense zones |}.

Definition calculate_zone_metrics : list (option Property) -> outcome Metrics.t :=
  calculate_metrics.

End Float.

(** ** Vocabulary of the statements *)

(** [key] occurs in [s] as a substring. *)
Definition occurs (key s : string) : Prop :=
  exists before after : string, s = (before ++ key ++ after)%string.

(** The violations of one type in a violation list. *)
Definition of_type (type : string) (vs : list Violation.t) : list Violation.t :=
  filter (fun v => String.eqb (Violation.type v) type) vs.

(** The evaluator's input domain: the two derived numeric fields it
    reads are present and numeric. *)
Definition evaluator_domain (p : Property) : Prop :=
  (exists area, parcel_area_sqft p = Val area)
  /\ (exists coverage, lot_coverage_pct p = Val coverage).

(** A rule whose set thresholds are not zero, so that Python's truth
    test on them coincides with "is set". *)
Definition thresholds_nonzero (rules : ZoneRule) : bool :=
  match min_lot_size_sqft rules with
  | Some m => truthy (Some m)
  | None => true
  end
  && match max_lot_coverage_pct rules with
     | Some m => truthy (Some m)
     | None => true
     end.

(** *** Counts of the violation aggregator, stated on the collection *)

(** What the evaluator finds on a record ([[]] where it raises). *)
Definition violations_of (check : Property -> outcome (list Violation.t))
    (p : Property) : list Violation.t :=
  match check p with
  | Returns vs => vs
  | Raises _ => []
  end.

(** The record is kept by the aggregation loops and belongs to [zone]. *)
Definition in_zone (zone : string) (prop : option Property) : bool :=
  match zone_of prop with
  | Some z => String.eqb z zone
  | None => false
  end.

Definition found (check : Property -> outcome (list Violation.t))
    (prop : option Property) : list Violation.t :=
  match prop with
  | Some p => violations_of check p
  | None => []
  end.

Definition is_empty {A : Type} (l : list A) : bool :=
  match l with
  | [] => true
  | _ :: _ => false
  end.

(** Number of records of [zone]. *)
Definition count_parcels (zone : string) (props : list (option Property)) : nat :=
  list_sum (map (fun prop => if in_zone zone prop then 1 else 0)%nat props).

(** Number of records of [zone] with at least one violation. *)
Definition count_violating (check : Property -> outcome (list Violation.t))
    (zone : string) (props : list (option Property)) : nat :=
  list_sum
    (map (fun prop =>
            if in_zone zone prop && negb (is_empty (found check prop))
            then 1 else 0)%nat
         props).

(** Number of violations of [type] among the records of [zone]. *)
Definition count_of_type (check : Property -> outcome (list Violation.t))
    (zone type : string) (props : list (option Property)) : nat :=
  list_sum
    (map (fun prop =>
            if in_zone zone prop
            then List.length (of_type type (found check prop)) else 0%nat)
         props).

(** The aggregator's input domain: on every record it keeps, the
    evaluator returns and the two display keys exist (possibly null). *)
Definition aggregator_domain (check : Property -> outcome (list Violation.t))
    (prop : option Property) : Prop :=
  match prop, zone_of prop with
  | Some p, Some _ =>
      (exists vs, check p = Returns vs)
      /\ address p <> Absent /\ parcel_id p <> Absent
  | _, _ => True
  end.

(** [res] has one entry per zone that occurs in [props]; each entry's
    counts are those of the whole collection and its examples list
    holds at most [cap] elements. *)
Definition summarises (check : Property -> outcome (list Violation.t)) (cap : nat)
    (props : list (option Property)) (res : Analysis.t) : Prop :=
  forall zone,
    match lookup zone (Analysis.violations_by_zone res) with
    | Some s =>
        (List.length (ZoneViolations.examples s) <= cap)%nat
        /\ ZoneViolations.total_parcels s = count_parcels zone props
        /\ ZoneViolations.parcels_with_violations s = count_violating check zone props
        /\ (forall type,
              lookup_default 0%nat type (ZoneViolations.violations_by_type s)
              = count_of_type check zone type props)
    | None => count_parcels zone props = 0%nat
    end.

(** The entry of a record's zone after the loop body has run on it. *)
Definition entry_after (cap : nat) (a i : option string) (vs : list Violation.t)
    (s : ZoneViolations.t) : ZoneViolations.t :=
  let s := add_parcel s in
  match vs with
  | [] => s
  | _ :: _ =>
      let s := fold_left (fun s v => add_violation_type (Violation.type v) s) vs
                 (add_violating_parcel s) in
      if Nat.ltb (List.length (ZoneViolations.examples s)) cap
      then add_example (Example.mk a i vs) s
      else s
  end.

(** What the loop adds to a state: the invariant of the aggregation loop,
    relative to the state [st] it starts from. *)
Definition loop_adds (check : Property -> outcome (list Violation.t)) (cap : nat)
    (props : list (option Property)) (st st' : Analysis.t) : Prop :=
  forall zone,
    let s := lookup_default ZoneViolations.empty zone (Analysis.violations_by_zone st) in
    match lookup zone (Analysis.violations_by_zone st') with
    | Some s' =>
        ((List.length (ZoneViolations.examples s) <= cap)%nat ->
         (List.length (ZoneViolations.examples s') <= cap)%nat)
        /\ ZoneViolations.total_parcels s'
           = (ZoneViolations.total_parcels s + count_parcels zone props)%nat
        /\ ZoneViolations.parcels_with_violations s'
           = (ZoneViolations.parcels_with_violations s
              + count_violating check zone props)%nat
        /\ (forall type,
              lookup_default 0%nat type (ZoneViolations.violations_by_type s')
              = (lookup_default 0%nat type (ZoneViolations.violations_by_type s)
                 + count_of_type check zone type props)%nat)
    | None =>
        lookup zone (Analysis.violations_by_zone st) = None
        /\ count_parcels zone props = 0%nat
    end.

(** *** Sums of the zone metrics aggregator, stated on the collection *)

(** The metrics aggregator's input domain: every record it keeps
    carries its acres and its value as numbers and has a land-use key. *)
Definition metrics_domain (prop : option Property) : Prop :=
  match prop, zone_of prop with
  | Some p, Some _ =>
      (exists acres, parcel_area_acres p = Val acres)
      /\ (exists value, total_value p = Val value)
      /\ land_use_desc p <> Absent
  | _, _ => True
  end.

(** The acres a record brings to the aggregation (0 if it is skipped). *)
Definition acres_of (prop : option Property) : Q :=
  match prop, zone_of prop with
  | Some p, Some _ =>
      match parcel_area_acres p with
      | Val acres => acres
      | _ => 0%Q
      end
  | _, _ => 0%Q
  end.

Definition Qsum (l : list Q) : Q := fold_right Qplus 0%Q l.

(** The acres of all the records that are kept. *)
Definition kept_acres (props : list (option Property)) : Q :=
  Qsum (map acres_of props).

(** Sum over all zones of the accumulated acres, before rounding. *)
Definition accumulated_acres (zone_data : list (string * ZoneData.t)) : Q :=
  Qsum (map (fun kv => ZoneData.total_acres (snd kv)) zone_data).

(** Sum over all zones of the reported [total_acres]. *)
Definition reported_acres (res : Metrics.t) : Q :=
  Qsum (map (fun kv => ZoneMetrics.total_acres (snd kv)) (Metrics.zones res)).

(** *** Shape of the violations and of the records *)

(** A violation dict as the evaluator builds it: the severity that goes
    with its type, its own payload keys and no others, and a payload
    that says by how much the rule is broken. *)
Definition well_formed (v : Violation.t) : Prop :=
  (Violation.type v = "undersized_lot" /\ Violation.severity v = "major"
   /\ (exists d, Violation.deficit v = Some d /\ (0 < d)%Q)
   /\ Violation.excess_pct v = None /\ Violation.current_use v = None
   /\ Violation.allowed_uses v = None)
  \/ (Violation.type v = "excess_lot_coverage" /\ Violation.severity v = "major"
      /\ (exists e, Violation.excess_pct v = Some e /\ (0 < e)%Q)
      /\ Violation.deficit v = None /\ Violation.current_use v = None
      /\ Violation.allowed_uses v = None)
  \/ (Violation.type v = "incompatible_use" /\ Violation.severity v = "critical"
      /\ (exists use uses,
            Violation.current_use v = Some use
            /\ Violation.allowed_uses v = Some uses
            /\ uses <> [] /\ ~ In use uses
            /\ use <> "unknown" /\ use <> "vacant")
      /\ Violation.deficit v = None /\ Violation.excess_pct v = None).

(** The record [p] with its ['lot_coverage_pct'] key replaced. *)
Definition with_coverage (p : Property) (coverage : field Q) : Property :=
  mkProperty (parcel_id p) (address p) (owner p) (zoning p) (land_use_desc p)
    (total_value p) (land_value p) (parcel_area_acres p) (parcel_area_sqft p)
    (building_footprint_sqft p) coverage.

(** The two coverage checks of the source. *)
Definition coverage_check_of_source
    (cc : ZoneRule -> Property -> outcome (list Violation.t)) : Prop :=
  cc = check_lot_coverage \/ cc = check_lot_coverage_subscript.

(** *** Lists of the violation aggregator, stated on the collection *)

(** The record passes the guard of the aggregation loops. *)
Definition kept (prop : option Property) : bool :=
  match zone_of prop with
  | Some _ => true
  | None => false
  end.

(** The records with at least one violation, in the order of the
    collection, each with what the evaluator found. *)
Definition violating (check : Property -> outcome (list Violation.t))
    (props : list (option Property)) : list (Property * list Violation.t) :=
  flat_map
    (fun prop =>
       match prop with
       | Some p =>
           if kept prop && negb (is_empty (violations_of check p))
           then [(p, violations_of check p)] else []
       | None => []
       end)
    props.

(** The example entries of the violating records of [zone], in the
    order of the collection. *)
Definition zone_examples (check : Property -> outcome (list Violation.t))
    (zone : string) (props : list (option Property)) : list Example.t :=
  flat_map
    (fun prop =>
       match prop with
       | Some p =>
           if in_zone zone prop && negb (is_empty (violations_of check p))
           then [Example.mk (get (address p)) (get (parcel_id p))
                   (violations_of check p)]
           else []
       | None => []
       end)
    props.

(** Sum of a count over the zones of [violations_by_zone]. *)
Definition sum_over_zones (count : ZoneViolations.t -> nat)
    (by_zone : list (string * ZoneViolations.t)) : nat :=
  list_sum (map (fun kv => count (snd kv)) by_zone).

(** *** Rounding errors of the zone metrics aggregator on floats *)

(** The sum of the absolute acres of the records that are kept. *)
Definition abs_acres (props : list (option Property)) : Q :=
  Qsum (map (fun prop => Qabs (acres_of prop)) props).

(** Sum over all zones of the absolute accumulated acres. *)
Definition accumulated_abs (zone_data : list (string * ZoneData.t)) : Q :=
  Qsum (map (fun kv => Qabs (ZoneData.total_acres (snd kv))) zone_data).

(** [(1 + unit_roundoff)^n - 1]: the relative error that [n] float
    operations in a row can build up. *)
Fixpoint gamma (n : nat) : Q :=
  match n with
  | O => 0%Q
  | S n' => ((1 + unit_roundoff) * gamma n' + unit_roundoff)%Q
  end.

(** The state of the accumulation loop after [n] records of absolute
    acres [A] and of exact acres [S]: both the zone accumulators and the
    running total are within [gamma n * A] of [S]. *)
Definition within (n : nat) (A S : Q) (st : list (string * ZoneData.t) * Q) : Prop :=
  (accumulated_abs (fst st) <= (1 + gamma n) * A)%Q
  /\ (Qabs (accumulated_acres (fst st) - S) <= gamma n * A)%Q
  /\ (Qabs (snd st) <= (1 + gamma n) * A)%Q
  /\ (Qabs (snd st - S) <= gamma n * A)%Q.

(** * Properties *)

(** ** Numbers and strings *)

Lemma Qlt_bool_iff (x y : Q) : Qlt_bool x y = true <-> (x < y)%Q.
Proof.
  unfold Qlt_bool. rewrite negb_true_iff.
  split; intro H.
  - apply Qnot_le_lt. intro Hle. apply Qle_bool_iff in Hle. congruence.
  - destruct (Qle_bool y x) eqn:E; [|reflexivity].
    apply Qle_bool_iff in E. exfalso. apply (Qlt_not_le _ _ H E).
Qed.

Lemma Qlt_bool_false_iff (x y : Q) : Qlt_bool x y = false <-> (y <= x)%Q.
Proof.
  unfold Qlt_bool. rewrite negb_false_iff. apply Qle_bool_iff.
Qed.

Lemma prefix_iff (key s : string) :
  String.prefix key s = true <-> exists after : string, s = (key ++ after)%string.
Proof.
  revert key. induction s as [|c' s IH]; intros [|c key]; simpl.
  - split; [intros _; exists ""; reflexivity | reflexivity].
  - split; [discriminate | intros [after H]; discriminate].
  - split; [intros _; eexists; reflexivity | reflexivity].
  - destruct (ascii_dec c c') as [->|Hne].
    + rewrite IH. split; intros [after H]; exists after.
      * now rewrite H.
      * now inversion H.
    + split; [discriminate | intros [after H]; inversion H; congruence].
Qed.

Lemma contains_unfold (key s : string) :
  contains key s =
  if String.prefix key s then true
  else match s with
       | EmptyString => false
       | String _ s' => contains key s'
       end.
Proof. destruct s; reflexivity. Qed.

Lemma contains_iff (key s : string) : contains key s = true <-> occurs key s.
Proof.
  induction s as [|c s IH]; rewrite contains_unfold;
    match goal with |- context [String.prefix ?k ?t] =>
      destruct (String.prefix k t) eqn:E end.
  - split; [|reflexivity]. intros _.
    apply prefix_iff in E. destruct E as [after E].
    exists "", after. exact E.
  - split; [discriminate|]. intros [before [after H]].
    destruct before; simpl in H.
    + assert (String.prefix key "" = true) by (apply prefix_iff; eauto).
      congruence.
    + discriminate.
  - split; [|reflexivity]. intros _.
    apply prefix_iff in E. destruct E as [after E].
    exists "", after. exact E.
  - rewrite IH. split.
    + intros [before [after H]]. exists (String c before), after.
      simpl. now rewrite H.
    + intros [before [after H]]. destruct before as [|c' before]; simpl in H.
      * assert (String.prefix key (String c s) = true)
          by (apply prefix_iff; eauto).
        congruence.
      * inversion H. exists before, after. reflexivity.
Qed.

Lemma mem_iff (x : string) (l : list string) : mem x l = true <-> In x l.
Proof.
  unfold mem. rewrite existsb_exists. split.
  - intros [y [Hin Heq]]. apply String.eqb_eq in Heq. now subst.
  - intros Hin. exists x. split; [assumption | apply String.eqb_refl].
Qed.

Lemma lookup_In {V : Type} (k : string) (d : list (string * V)) (v : V) :
  lookup k d = Some v -> In (k, v) d.
Proof.
  induction d as [|[k' v'] d IH]; simpl; [discriminate|].
  destruct (String.eqb k k') eqn:E.
  - intros H. inversion H. apply String.eqb_eq in E. subst. now left.
  - intros H. right. now apply IH.
Qed.

(** ** Land-use classifier *)

Lemma classify_scan_first (before after : list (string * string))
    (key value u : string) :
  (forall k v, In (k, v) before -> ~ occurs k u) ->
  occurs key u ->
  classify_scan (before ++ (key, value) :: after) u = value.
Proof.
  induction before as [|[k v] before IH]; intros Hnone Hocc; simpl.
  - apply contains_iff in Hocc. now rewrite Hocc.
  - destruct (contains k u) eqn:E.
    + exfalso. apply (Hnone k v); [now left | now apply contains_iff].
    + apply IH; [|assumption]. intros k' v' Hin. apply (Hnone k' v'). now right.
Qed.

Lemma classify_scan_none (table : list (string * string)) (u : string) :
  (forall k v, In (k, v) table -> ~ occurs k u) ->
  classify_scan table u = "other".
Proof.
  induction table as [|[k v] table IH]; intros Hnone; simpl; [reflexivity|].
  destruct (contains k u) eqn:E.
  - exfalso. apply (Hnone k v); [now left | now apply contains_iff].
  - apply IH. intros k' v' Hin. apply (Hnone k' v'). now right.
Qed.

(** C5. [classify_land_use] is a total function that answers 'unknown'
    for a null or empty description; otherwise the category of the first
    key, in the order of LAND_USE_CLASSIFICATIONS, that occurs in the
    uppercased description; and 'other' when no key occurs. *)
Theorem classify_land_use_first_key :
  RulesCorrected.classify_land_use None = "unknown"
  /\ RulesCorrected.classify_land_use (Some "") = "unknown"
  /\ (forall desc before key value after,
        desc <> "" ->
        RulesCorrected.LAND_USE_CLASSIFICATIONS = before ++ (key, value) :: after ->
        (forall k v, In (k, v) before -> ~ occurs k (upper desc)) ->
        occurs key (upper desc) ->
        RulesCorrected.classify_land_use (Some desc) = value)
  /\ (forall desc,
        desc <> "" ->
        (forall k v, In (k, v) RulesCorrected.LAND_USE_CLASSIFICATIONS ->
                     ~ occurs k (upper desc)) ->
        RulesCorrected.classify_land_use (Some desc) = "other").
Proof.
  repeat split.
  - intros desc before key value after Hne Htab Hnone Hocc.
    unfold RulesCorrected.classify_land_use, classify_land_use_with.
    destruct desc as [|c desc]; [congruence|].
    rewrite Htab. now apply classify_scan_first.
  - intros desc Hne Hnone.
    unfold RulesCorrected.classify_land_use, classify_land_use_with.
    destruct desc as [|c desc]; [congruence|].
    now apply classify_scan_none.
Qed.

(** C5 on a description in which two keys occur: COMMERCIAL comes
    before VACANT in the table, so the answer is 'commercial'; and on a
    description in which no key occurs. *)
Lemma classify_land_use_first_key_witness :
  RulesCorrected.classify_land_use (Some "Vacant commercial lot") = "commercial"
  /\ RulesCorrected.classify_land_use (Some "Church") = "other".
Proof.
  destruct classify_land_use_first_key as [_ [_ [Hfirst Hother]]].
  split.
  - apply (Hfirst "Vacant commercial lot"
             [("SINGLE FAM", "single_family"); ("TWO FAM", "two_family");
              ("MULTI FAM", "multi_family"); ("CONDO", "multi_family");
              ("APARTMENT", "multi_family")]
             "COMMERCIAL" "commercial"
             [("RETAIL", "retail"); ("OFFICE", "office");
              ("INDUSTRIAL", "industrial"); ("MUNICIPAL", "municipal");
              ("VACANT", "vacant"); ("MIXED USE", "mixed_use")]).
    + discriminate.
    + reflexivity.
    + intros k v Hin Hocc. apply contains_iff in Hocc.
      repeat (destruct Hin as [Hin | Hin];
              [inversion Hin; subst; vm_compute in Hocc; discriminate|]).
      destruct Hin.
    + apply contains_iff. reflexivity.
  - apply Hother; [discriminate|].
    intros k v Hin Hocc. apply contains_iff in Hocc.
    repeat (destruct Hin as [Hin | Hin];
            [inversion Hin; subst; vm_compute in Hocc; discriminate|]).
    destruct Hin.
Defined.

(** ** Violation evaluator *)

Lemma bind_returns {A B : Type} (c : outcome A) (k : A -> outcome B) (b : B) :
  bind c k = Returns b -> exists a, c = Returns a /\ k a = Returns b.
Proof. destruct c as [a|e]; simpl; [eauto | discriminate]. Qed.

Lemma of_type_app (type : string) (xs ys : list Violation.t) :
  of_type type (xs ++ ys) = of_type type xs ++ of_type type ys.
Proof. apply filter_app. Qed.

Lemma check_lot_size_shape (rules : ZoneRule) (p : Property) (vs : list Violation.t) :
  check_lot_size rules p = Returns vs ->
  vs = [] \/ exists area min_lot, vs = [undersized_lot area min_lot].
Proof.
  unfold check_lot_size.
  destruct (min_lot_size_sqft rules) as [m|]; [|intros H; inversion H; now left].
  destruct (truthy (Some m)); [|intros H; inversion H; now left].
  destruct (parcel_area_sqft p) as [| |a]; simpl; try discriminate.
  destruct (Qlt_bool a (inject_Z m)); intros H; inversion H; eauto.
Qed.

Lemma check_lot_coverage_shape (rules : ZoneRule) (p : Property) (vs : list Violation.t) :
  check_lot_coverage rules p = Returns vs ->
  vs = [] \/ exists coverage max_cov, vs = [excess_lot_coverage coverage max_cov].
Proof.
  unfold check_lot_coverage.
  destruct (max_lot_coverage_pct rules) as [m|]; [|intros H; inversion H; now left].
  destruct (truthy (Some m)); [|intros H; inversion H; now left].
  destruct (lot_coverage_pct p) as [| |c]; simpl; try discriminate.
  - cbn. intros H; inversion H; now left.
  - destruct (Qlt_bool 0 c); simpl; [|intros H; inversion H; now left].
    destruct (Qlt_bool (inject_Z m) c); intros H; inversion H; eauto.
Qed.

Lemma check_lot_coverage_subscript_shape (rules : ZoneRule) (p : Property)
    (vs : list Violation.t) :
  check_lot_coverage_subscript rules p = Returns vs ->
  vs = [] \/ exists coverage max_cov, vs = [excess_lot_coverage coverage max_cov].
Proof.
  unfold check_lot_coverage_subscript.
  destruct (max_lot_coverage_pct rules) as [m|]; [|intros H; inversion H; now left].
  destruct (truthy (Some m)); [|intros H; inversion H; now left].
  destruct (lot_coverage_pct p) as [| |c]; simpl; try discriminate.
  destruct (Qlt_bool 0 c); simpl; [|intros H; inversion H; now left].
  destruct (Qlt_bool (inject_Z m) c); intros H; inversion H; eauto.
Qed.

Lemma check_land_use_shape (rules : ZoneRule) (land_use : string) :
  check_land_use rules land_use = []
  \/ check_land_use rules land_use = [incompatible_use rules land_use].
Proof.
  unfold check_land_use.
  destruct (allowed_uses rules); [now left|].
  destruct (negb (land_use =? "unknown") && negb (land_use =? "vacant"));
    [|now left].
  destruct (negb (mem land_use _)); [now right | now left].
Qed.

(** The evaluator on a record whose zone is a key of the rule table. *)
Lemma check_known_zone (T : list (string * ZoneRule)) (cl : option string -> string)
    (cc : ZoneRule -> Property -> outcome (list Violation.t))
    (p : Property) (zone : string) (rules : ZoneRule) :
  get (zoning p) = Some zone -> zone <> "" -> lookup zone T = Some rules ->
  check_zoning_violations_with T cl cc p =
  (size <- check_lot_size rules p ;;
   coverage <- cc rules p ;;
   Returns (size ++ coverage
            ++ check_land_use rules (cl (get_default (land_use_desc p) "")))).
Proof.
  intros Hz Hne Hl. unfold check_zoning_violations_with. rewrite Hz.
  destruct (String.eqb zone "") eqn:E.
  - apply String.eqb_eq in E. contradiction.
  - now rewrite Hl.
Qed.

(** The evaluator on a record outside the rule table. *)
Lemma check_unknown_zone (T : list (string * ZoneRule)) (cl : option string -> string)
    (cc : ZoneRule -> Property -> outcome (list Violation.t)) (p : Property) :
  get (zoning p) = None \/ get (zoning p) = Some ""
  \/ (exists zone, get (zoning p) = Some zone /\ lookup zone T = None) ->
  check_zoning_violations_with T cl cc p = Returns [].
Proof.
  unfold check_zoning_violations_with.
  intros [H | [H | [zone [H Hl]]]]; rewrite H; try reflexivity.
  destruct (String.eqb zone ""); [reflexivity | now rewrite Hl].
Qed.

(** Whatever the evaluator returns is made of at most one violation of
    each check, in the order size, coverage, use. *)
Lemma check_returns_shape (T : list (string * ZoneRule)) (cl : option string -> string)
    (cc : ZoneRule -> Property -> outcome (list Violation.t)) :
  (forall rules p vs, cc rules p = Returns vs ->
     vs = [] \/ exists coverage max_cov, vs = [excess_lot_coverage coverage max_cov]) ->
  forall p vs,
    check_zoning_violations_with T cl cc p = Returns vs ->
    exists size coverage use,
      vs = size ++ coverage ++ use
      /\ (size = [] \/ exists area min_lot, size = [undersized_lot area min_lot])
      /\ (coverage = []
          \/ exists c max_cov, coverage = [excess_lot_coverage c max_cov])
      /\ (use = [] \/ exists rules land_use, use = [incompatible_use rules land_use]).
Proof.
  intros Hcc p vs. unfold check_zoning_violations_with.
  assert (Hnil : Returns (@nil Violation.t) = Returns vs ->
          exists size coverage use,
            vs = size ++ coverage ++ use
            /\ (size = [] \/ exists area min_lot, size = [undersized_lot area min_lot])
            /\ (coverage = []
                \/ exists c max_cov, coverage = [excess_lot_coverage c max_cov])
            /\ (use = []
                \/ exists rules land_use, use = [incompatible_use rules land_use])).
  { intros H. inversion H. exists [], [], []. repeat split; now left. }
  destruct (get (zoning p)) as [zone|]; [|exact Hnil].
  destruct (String.eqb zone ""); [exact Hnil|].
  destruct (lookup zone T) as [rules|]; [|exact Hnil].
  intros H.
  apply bind_returns in H. destruct H as [size [Hs H]].
  apply bind_returns in H. destruct H as [coverage [Hc H]].
  inversion H.
  exists size, coverage,
    (check_land_use rules (cl (get_default (land_use_desc p) ""))).
  repeat split.
  - eapply check_lot_size_shape; eassumption.
  - eapply Hcc; eassumption.
  - destruct (check_land_use_shape rules (cl (get_default (land_use_desc p) "")))
      as [E|E]; rewrite E; [now left | right; eauto].
Qed.

(** C10. Whatever the rule table and the record, the returned list holds
    at most one violation of each of the three types, holds no other
    type, and so has at most three elements. *)
Theorem at_most_one_violation_per_type :
  forall (T : list (string * ZoneRule)) (cl : option string -> string)
         (p : Property) (vs : list Violation.t),
    check_zoning_violations_with T cl check_lot_coverage p = Returns vs ->
    (List.length (of_type "undersized_lot" vs) <= 1)%nat
    /\ (List.length (of_type "excess_lot_coverage" vs) <= 1)%nat
    /\ (List.length (of_type "incompatible_use" vs) <= 1)%nat
    /\ Forall (fun v => In (Violation.type v)
                          ["undersized_lot"; "excess_lot_coverage"; "incompatible_use"])
              vs
    /\ (List.length vs <= 3)%nat.
Proof.
  intros T cl p vs H.
  apply (check_returns_shape T cl check_lot_coverage check_lot_coverage_shape) in H.
  destruct H as [size [coverage [use [-> [Hs [Hc Hu]]]]]].
  destruct Hs as [-> | [area [m ->]]];
    destruct Hc as [-> | [c [mc ->]]];
    destruct Hu as [-> | [rules [lu ->]]];
    cbn; repeat split; try lia;
    repeat (constructor; [cbn; tauto|]); constructor.
Qed.

(** C10 at a record of zone SRB that breaks all three rules. *)
Lemma at_most_one_violation_per_type_witness :
  let p := mkProperty (Val "0123-0045") (Val "1 Main St") Null (Val "SRB")
             (Val "Apartment bldg") (Val 250000%Q) (Val 100000%Q) (Val (1 # 10)%Q)
             (Val (4356 # 1)%Q) (Val (1100 # 1)%Q) (Val (251 # 10)%Q) in
  exists vs,
    Reanalyze.check_zoning_violations p = Returns vs
    /\ List.length vs = 3%nat
    /\ (List.length (of_type "undersized_lot" vs) <= 1)%nat
    /\ (List.length (of_type "excess_lot_coverage" vs) <= 1)%nat
    /\ (List.length (of_type "incompatible_use" vs) <= 1)%nat.
Proof.
  intros p.
  destruct (Reanalyze.check_zoning_violations p) as [vs|e] eqn:E;
    [|vm_compute in E; discriminate].
  exists vs.
  pose proof (at_most_one_violation_per_type RulesCorrected.ZONING_RULES
                RulesCorrected.classify_land_use p vs E) as [H1 [H2 [H3 [_ _]]]].
  repeat split; try assumption.
  vm_compute in E. inversion E. reflexivity.
Defined.

Lemma thresholds_of_lookup (T : list (string * ZoneRule)) (zone : string)
    (rules : ZoneRule) :
  forallb (fun kv => thresholds_nonzero (snd kv)) T = true ->
  lookup zone T = Some rules -> thresholds_nonzero rules = true.
Proof.
  intros Hall Hl. apply lookup_In in Hl.
  rewrite forallb_forall in Hall. exact (Hall _ Hl).
Qed.

(** In both rule tables every threshold that is set is non-zero. *)
Lemma corrected_thresholds_nonzero :
  forallb (fun kv => thresholds_nonzero (snd kv)) RulesCorrected.ZONING_RULES = true.
Proof. reflexivity. Qed.

Lemma original_thresholds_nonzero :
  forallb (fun kv => thresholds_nonzero (snd kv)) Rules.ZONING_RULES = true.
Proof. reflexivity. Qed.

Lemma corrected_zone_nonempty (zone : string) (rules : ZoneRule) :
  lookup zone RulesCorrected.ZONING_RULES = Some rules -> zone <> "".
Proof. intros H ->. discriminate H. Qed.

Lemma original_zone_nonempty (zone : string) (rules : ZoneRule) :
  lookup zone Rules.ZONING_RULES = Some rules -> zone <> "".
Proof. intros H ->. discriminate H. Qed.

Lemma check_lot_size_value (rules : ZoneRule) (p : Property) (min_lot : Z) (area : Q) :
  min_lot_size_sqft rules = Some min_lot -> truthy (Some min_lot) = true ->
  parcel_area_sqft p = Val area ->
  check_lot_size rules p =
  Returns (if Qlt_bool area (inject_Z min_lot)
           then [undersized_lot area min_lot] else []).
Proof.
  intros Hm Ht Ha. unfold check_lot_size. rewrite Hm, Ht, Ha. simpl.
  now destruct (Qlt_bool area (inject_Z min_lot)).
Qed.

Lemma check_lot_size_total (rules : ZoneRule) (p : Property) (area : Q) :
  parcel_area_sqft p = Val area ->
  exists vs, check_lot_size rules p = Returns vs.
Proof.
  intros Ha. unfold check_lot_size. rewrite Ha.
  destruct (min_lot_size_sqft rules) as [m|]; [|eauto].
  destruct (truthy (Some m)); [|eauto]. simpl.
  destruct (Qlt_bool area (inject_Z m)); eauto.
Qed.

Lemma check_lot_coverage_value (rules : ZoneRule) (p : Property) (max_cov : Z)
    (coverage : Q) :
  max_lot_coverage_pct rules = Some max_cov -> truthy (Some max_cov) = true ->
  lot_coverage_pct p = Val coverage ->
  check_lot_coverage rules p =
  Returns (if Qlt_bool 0 coverage && Qlt_bool (inject_Z max_cov) coverage
           then [excess_lot_coverage coverage max_cov] else []).
Proof.
  intros Hm Ht Hc. unfold check_lot_coverage. rewrite Hm, Ht, Hc. simpl.
  destruct (Qlt_bool 0 coverage); simpl; [|reflexivity].
  now destruct (Qlt_bool (inject_Z max_cov) coverage).
Qed.

Lemma check_lot_coverage_total (rules : ZoneRule) (p : Property) (coverage : Q) :
  lot_coverage_pct p = Val coverage ->
  exists vs, check_lot_coverage rules p = Returns vs.
Proof.
  intros Hc. unfold check_lot_coverage. rewrite Hc.
  destruct (max_lot_coverage_pct rules) as [m|]; [|eauto].
  destruct (truthy (Some m)); [|eauto]. simpl.
  destruct (Qlt_bool 0 coverage); simpl; [|eauto].
  destruct (Qlt_bool (inject_Z m) coverage); eauto.
Qed.

Lemma check_lot_coverage_subscript_total (rules : ZoneRule) (p : Property)
    (coverage : Q) :
  lot_coverage_pct p = Val coverage ->
  exists vs, check_lot_coverage_subscript rules p = Returns vs.
Proof.
  intros Hc. unfold check_lot_coverage_subscript. rewrite Hc.
  destruct (max_lot_coverage_pct rules) as [m|]; [|eauto].
  destruct (truthy (Some m)); [|eauto]. simpl.
  destruct (Qlt_bool 0 coverage); simpl; [|eauto].
  destruct (Qlt_bool (inject_Z m) coverage); eauto.
Qed.

(** On a record of the evaluator's domain the evaluator returns, and
    what it returns is the three checks side by side. *)
Lemma check_domain_returns (T : list (string * ZoneRule))
    (cl : option string -> string) (p : Property) (zone : string)
    (rules : ZoneRule) (area coverage : Q) :
  get (zoning p) = Some zone -> zone <> "" -> lookup zone T = Some rules ->
  parcel_area_sqft p = Val area -> lot_coverage_pct p = Val coverage ->
  exists size cov,
    check_lot_size rules p = Returns size
    /\ check_lot_coverage rules p = Returns cov
    /\ check_zoning_violations_with T cl check_lot_coverage p =
       Returns (size ++ cov
                ++ check_land_use rules (cl (get_default (land_use_desc p) ""))).
Proof.
  intros Hz Hne Hl Ha Hc.
  destruct (check_lot_size_total rules p area Ha) as [size Hs].
  destruct (check_lot_coverage_total rules p coverage Hc) as [cov Hcov].
  exists size, cov. repeat split; try assumption.
  rewrite (check_known_zone T cl check_lot_coverage p zone rules Hz Hne Hl).
  rewrite Hs, Hcov. reflexivity.
Qed.

Ltac by_shape Hs Hc rules land_use :=
  let E := fresh "E" in
  destruct (check_lot_size_shape _ _ _ Hs) as [-> | [? [? ->]]];
  destruct (check_lot_coverage_shape _ _ _ Hc) as [-> | [? [? ->]]];
  destruct (check_land_use_shape rules land_use) as [E | E]; rewrite E;
  reflexivity.

Lemma of_type_undersized (rules : ZoneRule) (p : Property) (land_use : string)
    (size cov : list Violation.t) :
  check_lot_size rules p = Returns size ->
  check_lot_coverage rules p = Returns cov ->
  of_type "undersized_lot" (size ++ cov ++ check_land_use rules land_use) = size.
Proof. intros Hs Hc. by_shape Hs Hc rules land_use. Qed.

Lemma of_type_excess (rules : ZoneRule) (p : Property) (land_use : string)
    (size cov : list Violation.t) :
  check_lot_size rules p = Returns size ->
  check_lot_coverage rules p = Returns cov ->
  of_type "excess_lot_coverage" (size ++ cov ++ check_land_use rules land_use) = cov.
Proof. intros Hs Hc. by_shape Hs Hc rules land_use. Qed.

Lemma of_type_incompatible (rules : ZoneRule) (p : Property) (land_use : string)
    (size cov : list Violation.t) :
  check_lot_size rules p = Returns size ->
  check_lot_coverage rules p = Returns cov ->
  of_type "incompatible_use" (size ++ cov ++ check_land_use rules land_use)
  = check_land_use rules land_use.
Proof. intros Hs Hc. by_shape Hs Hc rules land_use. Qed.

(** C3. In a zone whose rule sets min_lot_size_sqft, the evaluator
    returns exactly one undersized_lot violation, of severity major and
    with deficit = min_lot_size_sqft - parcel_area_sqft, when the parcel
    area is strictly below the minimum, and none when the area is equal
    to or above it. *)
Theorem undersized_lot_iff_below_minimum :
  forall (p : Property) (zone : string) (rules : ZoneRule) (min_lot : Z)
         (area coverage : Q),
    get (zoning p) = Some zone ->
    lookup zone RulesCorrected.ZONING_RULES = Some rules ->
    min_lot_size_sqft rules = Some min_lot ->
    parcel_area_sqft p = Val area ->
    lot_coverage_pct p = Val coverage ->
    exists vs,
      Reanalyze.check_zoning_violations p = Returns vs
      /\ ((area < inject_Z min_lot)%Q ->
          exists v,
            of_type "undersized_lot" vs = [v]
            /\ Violation.type v = "undersized_lot"
            /\ Violation.severity v = "major"
            /\ Violation.deficit v = Some (inject_Z min_lot - area)%Q)
      /\ ((inject_Z min_lot <= area)%Q -> of_type "undersized_lot" vs = []).
Proof.
  intros p zone rules min_lot area coverage Hz Hl Hm Ha Hc.
  pose proof (corrected_zone_nonempty zone rules Hl) as Hne.
  pose proof (thresholds_of_lookup _ _ _ corrected_thresholds_nonzero Hl) as Ht.
  unfold thresholds_nonzero in Ht. rewrite Hm in Ht.
  apply andb_true_iff in Ht. destruct Ht as [Ht _].
  destruct (check_domain_returns RulesCorrected.ZONING_RULES
              RulesCorrected.classify_land_use p zone rules area coverage
              Hz Hne Hl Ha Hc) as [size [cov [Hs [Hcov Hv]]]].
  eexists. split; [exact Hv|].
  rewrite (of_type_undersized rules p _ size cov Hs Hcov).
  rewrite (check_lot_size_value rules p min_lot area Hm Ht Ha) in Hs.
  inversion Hs as [Hsize]. split.
  - intros Hlt. apply Qlt_bool_iff in Hlt. rewrite Hlt.
    eexists. repeat split.
  - intros Hge. apply Qlt_bool_false_iff in Hge. now rewrite Hge.
Qed.

(** C3 at the boundary of zone SRB (minimum 15000 sqft): a parcel of
    14999 sqft has a deficit of 1, a parcel of exactly 15000 sqft has no
    undersized_lot violation. *)
Lemma undersized_lot_iff_below_minimum_witness :
  let parcel area :=
    mkProperty (Val "0123-0045") (Val "1 Main St") Null (Val "SRB")
      (Val "SINGLE FAM MDL-01") (Val 300000%Q) (Val 100000%Q) (Val (area / 43560)%Q)
      (Val area) (Val 0%Q) (Val 0%Q) in
  (exists vs v,
     Reanalyze.check_zoning_violations (parcel (14999 # 1)%Q) = Returns vs
     /\ of_type "undersized_lot" vs = [v]
     /\ Violation.deficit v = Some (inject_Z 15000 - (14999 # 1))%Q)
  /\ (exists vs,
        Reanalyze.check_zoning_violations (parcel (15000 # 1)%Q) = Returns vs
        /\ of_type "undersized_lot" vs = []).
Proof.
  intros parcel. split.
  - destruct (undersized_lot_iff_below_minimum (parcel (14999 # 1)%Q) "SRB"
                (mkRule "Single Residence B" (Some 15000%Z) (Some 100%Z) (Some 20%Z)
                   (Some 40%Z) (Some 30%Z) (Some 10%Z) (Some 30%Z)
                   ["single_family"; "accessory_dwelling"])
                15000%Z (14999 # 1)%Q 0%Q
                eq_refl eq_refl eq_refl eq_refl eq_refl) as [vs [Hv [Hlt _]]].
    assert (Hbelow : (14999 # 1 < inject_Z 15000)%Q) by reflexivity.
    destruct (Hlt Hbelow) as [v [H1 [_ [_ H3]]]].
    exists vs, v. auto.
  - destruct (undersized_lot_iff_below_minimum (parcel (15000 # 1)%Q) "SRB"
                (mkRule "Single Residence B" (Some 15000%Z) (Some 100%Z) (Some 20%Z)
                   (Some 40%Z) (Some 30%Z) (Some 10%Z) (Some 30%Z)
                   ["single_family"; "accessory_dwelling"])
                15000%Z (15000 # 1)%Q 0%Q
                eq_refl eq_refl eq_refl eq_refl eq_refl) as [vs [Hv [_ Hge]]].
    exists vs. split; [assumption|]. apply Hge. discriminate.
Defined.

(** C4. In a zone whose rule sets max_lot_coverage_pct, the evaluator
    returns exactly one excess_lot_coverage violation, of severity major
    and with excess_pct = lot_coverage_pct - max_lot_coverage_pct, when
    the coverage is strictly positive and strictly above the maximum,
    and none otherwise; in particular none when the coverage equals the
    maximum. *)
Theorem excess_lot_coverage_iff_above_maximum :
  forall (p : Property) (zone : string) (rules : ZoneRule) (max_cov : Z)
         (area coverage : Q),
    get (zoning p) = Some zone ->
    lookup zone RulesCorrected.ZONING_RULES = Some rules ->
    max_lot_coverage_pct rules = Some max_cov ->
    parcel_area_sqft p = Val area ->
    lot_coverage_pct p = Val coverage ->
    exists vs,
      Reanalyze.check_zoning_violations p = Returns vs
      /\ ((0 < coverage)%Q /\ (inject_Z max_cov < coverage)%Q ->
          exists v,
            of_type "excess_lot_coverage" vs = [v]
            /\ Violation.type v = "excess_lot_coverage"
            /\ Violation.severity v = "major"
            /\ Violation.excess_pct v = Some (coverage - inject_Z max_cov)%Q)
      /\ (~ ((0 < coverage)%Q /\ (inject_Z max_cov < coverage)%Q) ->
          of_type "excess_lot_coverage" vs = [])
      /\ ((coverage == inject_Z max_cov)%Q -> of_type "excess_lot_coverage" vs = []).
Proof.
  intros p zone rules max_cov area coverage Hz Hl Hm Ha Hc.
  pose proof (corrected_zone_nonempty zone rules Hl) as Hne.
  pose proof (thresholds_of_lookup _ _ _ corrected_thresholds_nonzero Hl) as Ht.
  unfold thresholds_nonzero in Ht. rewrite Hm in Ht.
  apply andb_true_iff in Ht. destruct Ht as [_ Ht].
  destruct (check_domain_returns RulesCorrected.ZONING_RULES
              RulesCorrected.classify_land_use p zone rules area coverage
              Hz Hne Hl Ha Hc) as [size [cov [Hs [Hcov Hv]]]].
  eexists. split; [exact Hv|].
  rewrite (of_type_excess rules p _ size cov Hs Hcov).
  rewrite (check_lot_coverage_value rules p max_cov coverage Hm Ht Hc) in Hcov.
  inversion Hcov as [Hcv].
  assert (Hno : ~ ((0 < coverage)%Q /\ (inject_Z max_cov < coverage)%Q) ->
                (if Qlt_bool 0 coverage && Qlt_bool (inject_Z max_cov) coverage
                 then [excess_lot_coverage coverage max_cov] else []) = []).
  { intros Hn.
    destruct (Qlt_bool 0 coverage) eqn:E1; [|reflexivity].
    destruct (Qlt_bool (inject_Z max_cov) coverage) eqn:E2; [|reflexivity].
    exfalso. apply Hn. split; now apply Qlt_bool_iff. }
  split; [|split].
  - intros [H0 Hgt]. apply Qlt_bool_iff in H0. apply Qlt_bool_iff in Hgt.
    rewrite H0, Hgt. eexists. repeat split.
  - exact Hno.
  - intros Heq. apply Hno. intros [_ Hgt]. rewrite Heq in Hgt.
    exact (Qlt_irrefl _ Hgt).
Qed.

(** C4 at the boundary of zone SRA (maximum 10 %): a coverage of 10.1 %
    exceeds it by 0.1, a coverage of exactly 10 % is no violation. *)
Lemma excess_lot_coverage_iff_above_maximum_witness :
  let parcel coverage :=
    mkProperty (Val "0123-0045") (Val "1 Main St") Null (Val "SRA")
      (Val "SINGLE FAM MDL-01") (Val 300000%Q) (Val 100000%Q) (Val 1%Q)
      (Val (43560 # 1)%Q) (Val (coverage * 43560 / 100)%Q) (Val coverage) in
  (exists vs v,
     Reanalyze.check_zoning_violations (parcel (101 # 10)%Q) = Returns vs
     /\ of_type "excess_lot_coverage" vs = [v]
     /\ Violation.excess_pct v = Some ((101 # 10) - inject_Z 10)%Q)
  /\ (exists vs,
        Reanalyze.check_zoning_violations (parcel (10 # 1)%Q) = Returns vs
        /\ of_type "excess_lot_coverage" vs = []).
Proof.
  intros parcel. split.
  - destruct (excess_lot_coverage_iff_above_maximum (parcel (101 # 10)%Q) "SRA"
                (mkRule "Single Residence A" (Some 43560%Z) (Some 150%Z) (Some 10%Z)
                   (Some 50%Z) (Some 30%Z) (Some 20%Z) (Some 40%Z)
                   ["single_family"; "accessory_dwelling"])
                10%Z (43560 # 1)%Q (101 # 10)%Q
                eq_refl eq_refl eq_refl eq_refl eq_refl) as [vs [Hv [Hgt _]]].
    assert (Habove : (0 < 101 # 10)%Q /\ (inject_Z 10 < 101 # 10)%Q)
      by (split; reflexivity).
    destruct (Hgt Habove) as [v [H1 [_ [_ H3]]]].
    exists vs, v. auto.
  - destruct (excess_lot_coverage_iff_above_maximum (parcel (10 # 1)%Q) "SRA"
                (mkRule "Single Residence A" (Some 43560%Z) (Some 150%Z) (Some 10%Z)
                   (Some 50%Z) (Some 30%Z) (Some 20%Z) (Some 40%Z)
                   ["single_family"; "accessory_dwelling"])
                10%Z (43560 # 1)%Q (10 # 1)%Q
                eq_refl eq_refl eq_refl eq_refl eq_refl) as [vs [Hv [_ [_ Heq]]]].
    exists vs. split; [assumption|]. apply Heq. reflexivity.
Defined.

Lemma check_land_use_value (rules : ZoneRule) (land_use : string) :
  check_land_use rules land_use =
  if negb (String.eqb land_use "unknown") && negb (String.eqb land_use "vacant")
     && negb (mem land_use (allowed_uses rules))
     && negb (Nat.eqb (List.length (allowed_uses rules)) 0)
  then [incompatible_use rules land_use] else [].
Proof.
  unfold check_land_use.
  destruct (allowed_uses rules) as [|u us] eqn:E.
  - simpl. now rewrite !andb_false_r.
  - change (negb (Nat.eqb (List.length (u :: us)) 0)) with true.
    rewrite andb_true_r.
    destruct (negb (land_use =? "unknown") && negb (land_use =? "vacant"));
      simpl; [|reflexivity].
    now destruct (mem land_use (u :: us)).
Qed.

(** C6. In a zone of the rule table, the evaluator returns exactly one
    incompatible_use violation, of severity critical and carrying the
    classified use and the zone's whole allowed_uses list, when the
    classified use is neither 'unknown' nor 'vacant', allowed_uses is
    not empty and the classified use is not among them; it returns none
    otherwise, in particular none for a use classified 'vacant' or
    'unknown'. *)
Theorem incompatible_use_iff_not_allowed :
  forall (p : Property) (zone : string) (rules : ZoneRule) (area coverage : Q),
    get (zoning p) = Some zone ->
    lookup zone RulesCorrected.ZONING_RULES = Some rules ->
    parcel_area_sqft p = Val area ->
    lot_coverage_pct p = Val coverage ->
    let land_use :=
      RulesCorrected.classify_land_use (get_default (land_use_desc p) "") in
    let incompatible :=
      land_use <> "unknown" /\ land_use <> "vacant"
      /\ allowed_uses rules <> [] /\ ~ In land_use (allowed_uses rules) in
    exists vs,
      Reanalyze.check_zoning_violations p = Returns vs
      /\ (incompatible ->
          exists v,
            of_type "incompatible_use" vs = [v]
            /\ Violation.type v = "incompatible_use"
            /\ Violation.severity v = "critical"
            /\ Violation.current_use v = Some land_use
            /\ Violation.allowed_uses v = Some (allowed_uses rules))
      /\ (~ incompatible -> of_type "incompatible_use" vs = [])
      /\ (land_use = "vacant" \/ land_use = "unknown" ->
          of_type "incompatible_use" vs = []).
Proof.
  intros p zone rules area coverage Hz Hl Ha Hc land_use incompatible.
  pose proof (corrected_zone_nonempty zone rules Hl) as Hne.
  destruct (check_domain_returns RulesCorrected.ZONING_RULES
              RulesCorrected.classify_land_use p zone rules area coverage
              Hz Hne Hl Ha Hc) as [size [cov [Hs [Hcov Hv]]]].
  eexists. split; [exact Hv|].
  rewrite (of_type_incompatible rules p _ size cov Hs Hcov).
  fold land_use. rewrite check_land_use_value.
  assert (Hno : ~ incompatible ->
                (if negb (land_use =? "unknown") && negb (land_use =? "vacant")
                    && negb (mem land_use (allowed_uses rules))
                    && negb (Nat.eqb (List.length (allowed_uses rules)) 0)
                 then [incompatible_use rules land_use] else []) = []).
  { intros Hn.
    destruct (land_use =? "unknown") eqn:E1; [reflexivity|].
    destruct (land_use =? "vacant") eqn:E2; [reflexivity|].
    destruct (mem land_use (allowed_uses rules)) eqn:E3; [reflexivity|].
    destruct (Nat.eqb (List.length (allowed_uses rules)) 0) eqn:E4; [reflexivity|].
    exfalso. apply Hn. unfold incompatible.
    apply String.eqb_neq in E1. apply String.eqb_neq in E2.
    repeat split; try assumption.
    - intros Hnil. rewrite Hnil in E4. discriminate.
    - intros Hin. apply mem_iff in Hin. congruence. }
  split; [|split].
  - intros [H1 [H2 [H3 H4]]].
    apply String.eqb_neq in H1. apply String.eqb_neq in H2. rewrite H1, H2.
    destruct (mem land_use (allowed_uses rules)) eqn:E3.
    + exfalso. apply H4. now apply mem_iff.
    + destruct (allowed_uses rules) as [|u us] eqn:E4; [congruence|].
      cbn. eexists. repeat split. cbn. now rewrite E4.
  - exact Hno.
  - intros Hex. apply Hno. intros [H1 [H2 _]]. destruct Hex; contradiction.
Qed.

(** C6 in zone R (allowed: single_family, accessory_dwelling): an
    apartment building is incompatible, a vacant lot is not. *)
Lemma incompatible_use_iff_not_allowed_witness :
  let parcel desc :=
    mkProperty (Val "0123-0045") (Val "1 Main St") Null (Val "R")
      (Val desc) (Val 300000%Q) (Val 100000%Q) (Val 5%Q)
      (Val (217800 # 1)%Q) (Val 0%Q) (Val 0%Q) in
  (exists vs v,
     Reanalyze.check_zoning_violations (parcel "Apartment bldg") = Returns vs
     /\ of_type "incompatible_use" vs = [v]
     /\ Violation.current_use v = Some "multi_family")
  /\ (exists vs,
        Reanalyze.check_zoning_violations (parcel "VACANT LAND") = Returns vs
        /\ of_type "incompatible_use" vs = []).
Proof.
  intros parcel. split.
  - destruct (incompatible_use_iff_not_allowed (parcel "Apartment bldg") "R"
                (mkRule "Residential" (Some 217800%Z) None (Some 5%Z) (Some 75%Z)
                   (Some 50%Z) (Some 20%Z) (Some 40%Z)
                   ["single_family"; "accessory_dwelling"])
                (217800 # 1)%Q 0%Q eq_refl eq_refl eq_refl eq_refl)
      as [vs [Hv [Hinc _]]].
    assert (Hcond : "multi_family" <> "unknown" /\ "multi_family" <> "vacant"
                    /\ ["single_family"; "accessory_dwelling"] <> []
                    /\ ~ In "multi_family" ["single_family"; "accessory_dwelling"]).
    { repeat split; try discriminate.
      simpl. intros [H | [H | []]]; discriminate. }
    destruct (Hinc Hcond) as [v [H1 [_ [_ [H4 _]]]]].
    exists vs, v. auto.
  - destruct (incompatible_use_iff_not_allowed (parcel "VACANT LAND") "R"
                (mkRule "Residential" (Some 217800%Z) None (Some 5%Z) (Some 75%Z)
                   (Some 50%Z) (Some 20%Z) (Some 40%Z)
                   ["single_family"; "accessory_dwelling"])
                (217800 # 1)%Q 0%Q eq_refl eq_refl eq_refl eq_refl)
      as [vs [Hv [_ [_ Hvac]]]].
    exists vs. split; [assumption|]. apply Hvac. left. reflexivity.
Defined.

(** C7. On every record of the evaluator's domain both versions of
    [check_zoning_violations] return a list and raise nothing; and on
    every record whatsoever whose zoning is absent, null, empty or not a
    key of the rule table they return the empty list. *)
Theorem check_zoning_violations_total :
  (forall p : Property,
     evaluator_domain p ->
     (exists vs, Reanalyze.check_zoning_violations p = Returns vs)
     /\ (exists vs, AnalyzeWithViolations.check_zoning_violations p = Returns vs))
  /\ (forall p : Property,
        get (zoning p) = None \/ get (zoning p) = Some ""
        \/ (exists zone, get (zoning p) = Some zone
                         /\ lookup zone RulesCorrected.ZONING_RULES = None) ->
        Reanalyze.check_zoning_violations p = Returns [])
  /\ (forall p : Property,
        get (zoning p) = None \/ get (zoning p) = Some ""
        \/ (exists zone, get (zoning p) = Some zone
                         /\ lookup zone Rules.ZONING_RULES = None) ->
        AnalyzeWithViolations.check_zoning_violations p = Returns []).
Proof.
  split; [|split].
  - intros p [[area Ha] [coverage Hc]].
    assert (Hgen : forall T cl cc,
              (forall rules, exists vs, cc rules p = Returns vs) ->
              exists vs, check_zoning_violations_with T cl cc p = Returns vs).
    { intros T cl cc Hcc. unfold check_zoning_violations_with.
      destruct (get (zoning p)) as [zone|]; [|eauto].
      destruct (String.eqb zone ""); [eauto|].
      destruct (lookup zone T) as [rules|]; [|eauto].
      destruct (check_lot_size_total rules p area Ha) as [size Hs].
      destruct (Hcc rules) as [cov Hcov].
      rewrite Hs, Hcov. simpl. eauto. }
    split; apply Hgen; intros rules.
    + exact (check_lot_coverage_total rules p coverage Hc).
    + exact (check_lot_coverage_subscript_total rules p coverage Hc).
  - intros p H. now apply check_unknown_zone.
  - intros p H. now apply check_unknown_zone.
Qed.

(** C7 at a conforming parcel of zone SRB and at a parcel of the unknown
    zone XYZ that carries no derived field at all. *)
Lemma check_zoning_violations_total_witness :
  (exists vs,
     Reanalyze.check_zoning_violations
       (mkProperty (Val "0123-0045") (Val "1 Main St") Null (Val "SRB")
          (Val "SINGLE FAM MDL-01") (Val 300000%Q) (Val 100000%Q) (Val (1 # 2)%Q)
          (Val (21780 # 1)%Q) (Val (2000 # 1)%Q) (Val (2000 # 2178)%Q)) = Returns vs)
  /\ Reanalyze.check_zoning_violations
       (mkProperty (Val "0999-0001") Null Null (Val "XYZ") Null (Val 1%Q) (Val 1%Q)
          (Val 1%Q) Absent Absent Absent) = Returns [].
Proof.
  destruct check_zoning_violations_total as [Hdom [Hunknown _]].
  split.
  - apply Hdom. split; eexists; reflexivity.
  - apply Hunknown. right. right. exists "XYZ". split; reflexivity.
Defined.

(** ** Dictionaries *)

Lemma lookup_update {V : Type} (default : V) (k : string) (f : V -> V)
    (d : list (string * V)) (z : string) :
  lookup z (update default k f d) =
  if String.eqb z k then Some (f (lookup_default default z d)) else lookup z d.
Proof.
  unfold lookup_default.
  induction d as [|[k' v] d IH]; simpl.
  - destruct (String.eqb z k); reflexivity.
  - destruct (String.eqb k k') eqn:Ek; simpl.
    + apply String.eqb_eq in Ek. subst k'.
      destruct (String.eqb z k); reflexivity.
    + rewrite IH. destruct (String.eqb z k) eqn:Ez.
      * apply String.eqb_eq in Ez. subst z. rewrite Ek. reflexivity.
      * reflexivity.
Qed.

Lemma lookup_default_update {V : Type} (default : V) (k : string) (f : V -> V)
    (d : list (string * V)) (z : string) :
  lookup_default default z (update default k f d) =
  if String.eqb z k then f (lookup_default default z d)
  else lookup_default default z d.
Proof.
  unfold lookup_default at 1. rewrite lookup_update.
  destruct (String.eqb z k); reflexivity.
Qed.

(** ** Violation aggregator *)

Lemma count_types_lookup (zone z : string) (vs : list Violation.t)
    (d : list (string * ZoneViolations.t)) (s : ZoneViolations.t) :
  lookup zone d = Some s ->
  lookup z (count_types zone vs d) =
  if String.eqb z zone
  then Some (fold_left (fun s v => add_violation_type (Violation.type v) s) vs s)
  else lookup z d.
Proof.
  unfold count_types. revert d s.
  induction vs as [|v vs IH]; intros d s Hl; simpl.
  - destruct (String.eqb z zone) eqn:E; [|reflexivity].
    apply String.eqb_eq in E. now subst.
  - rewrite (IH _ (add_violation_type (Violation.type v) s)).
    + destruct (String.eqb z zone) eqn:E; [reflexivity|].
      rewrite lookup_update, E. reflexivity.
    + rewrite lookup_update, String.eqb_refl.
      unfold lookup_default. now rewrite Hl.
Qed.

(** The loop body, on a record it keeps and that is in the domain,
    rewrites the entry of the record's zone and no other. *)
Lemma analyze_step_kept (check : Property -> outcome (list Violation.t)) (cap : nat)
    (st : Analysis.t) (p : Property) (zone : string) (vs : list Violation.t) :
  zone_of (Some p) = Some zone ->
  check p = Returns vs ->
  address p <> Absent -> parcel_id p <> Absent ->
  exists st',
    analyze_step check cap st (Some p) = Returns st'
    /\ forall z,
         lookup z (Analysis.violations_by_zone st') =
         if String.eqb z zone
         then Some (entry_after cap (get (address p)) (get (parcel_id p)) vs
                      (lookup_default ZoneViolations.empty zone
                         (Analysis.violations_by_zone st)))
         else lookup z (Analysis.violations_by_zone st).
Proof.
  intros Hz Hc Ha Hi. unfold analyze_step. rewrite Hz, Hc. cbn [bind].
  set (d0 := Analysis.violations_by_zone st).
  set (s0 := lookup_default ZoneViolations.empty zone d0).
  destruct vs as [|v vs].
  - eexists. split; [reflexivity|]. intros z. simpl.
    rewrite lookup_update. destruct (String.eqb z zone) eqn:E; [|reflexivity].
    apply String.eqb_eq in E. subst z. reflexivity.
  - set (d1 := update ZoneViolations.empty zone add_parcel d0).
    set (d2 := update ZoneViolations.empty zone add_violating_parcel d1).
    set (d3 := count_types zone (v :: vs) d2).
    set (s3 := fold_left (fun s v => add_violation_type (Violation.type v) s)
                 (v :: vs) (add_violating_parcel (add_parcel s0))).
    assert (H2 : lookup zone d2 = Some (add_violating_parcel (add_parcel s0))).
    { unfold d2, d1. rewrite lookup_update, String.eqb_refl.
      rewrite lookup_default_update, String.eqb_refl. reflexivity. }
    assert (H3 : forall z, lookup z d3 =
                           if String.eqb z zone then Some s3 else lookup z d0).
    { intros z. unfold d3. rewrite (count_types_lookup zone z _ d2 _ H2).
      destruct (String.eqb z zone) eqn:E; [reflexivity|].
      unfold d2, d1. now rewrite !lookup_update, E. }
    assert (H3d : lookup_default ZoneViolations.empty zone d3 = s3).
    { unfold lookup_default. now rewrite H3, String.eqb_refl. }
    unfold store_example. rewrite H3d. unfold entry_after. fold s0. fold s3.
    destruct (Nat.ltb (List.length (ZoneViolations.examples s3)) cap).
    + destruct (address p) as [| |a]; [contradiction| |];
        (destruct (parcel_id p) as [| |i]; [contradiction| |]);
        simpl; (eexists; split; [reflexivity|]); intros z; simpl;
        rewrite lookup_update, H3;
        (destruct (String.eqb z zone) eqn:E; [|reflexivity]);
        apply String.eqb_eq in E; subst z; rewrite H3d; reflexivity.
    + simpl. eexists. split; [reflexivity|]. intros z. simpl. apply H3.
Qed.

Lemma analyze_step_skipped (check : Property -> outcome (list Violation.t)) (cap : nat)
    (st : Analysis.t) (prop : option Property) :
  zone_of prop = None -> analyze_step check cap st prop = Returns st.
Proof.
  intros Hz. unfold analyze_step. destruct prop; [|reflexivity]. now rewrite Hz.
Qed.

Lemma fold_types_counts (vs : list Violation.t) (s : ZoneViolations.t) :
  let s' := fold_left (fun s v => add_violation_type (Violation.type v) s) vs s in
  ZoneViolations.total_parcels s' = ZoneViolations.total_parcels s
  /\ ZoneViolations.parcels_with_violations s'
     = ZoneViolations.parcels_with_violations s
  /\ ZoneViolations.examples s' = ZoneViolations.examples s
  /\ forall type,
       lookup_default 0%nat type (ZoneViolations.violations_by_type s')
       = (lookup_default 0%nat type (ZoneViolations.violations_by_type s)
          + List.length (of_type type vs))%nat.
Proof.
  revert s. induction vs as [|v vs IH]; intros s; simpl.
  - repeat split. intros type. lia.
  - destruct (IH (add_violation_type (Violation.type v) s)) as [H1 [H2 [H3 H4]]].
    repeat split; try assumption.
    intros type. rewrite H4. simpl. rewrite lookup_default_update.
    rewrite (String.eqb_sym type).
    destruct (String.eqb (Violation.type v) type); simpl; lia.
Qed.

(** The counts of the entry written by the loop body. *)
Lemma entry_after_counts (cap : nat) (a i : option string) (vs : list Violation.t)
    (s : ZoneViolations.t) :
  let s' := entry_after cap a i vs s in
  ZoneViolations.total_parcels s' = (ZoneViolations.total_parcels s + 1)%nat
  /\ ZoneViolations.parcels_with_violations s'
     = (ZoneViolations.parcels_with_violations s
        + if is_empty vs then 0 else 1)%nat
  /\ (forall type,
        lookup_default 0%nat type (ZoneViolations.violations_by_type s')
        = (lookup_default 0%nat type (ZoneViolations.violations_by_type s)
           + List.length (of_type type vs))%nat)
  /\ ((List.length (ZoneViolations.examples s) <= cap)%nat ->
      (List.length (ZoneViolations.examples s') <= cap)%nat).
Proof.
  unfold entry_after. destruct vs as [|v vs].
  - simpl. repeat split; intros; lia.
  - destruct (fold_types_counts (v :: vs) (add_violating_parcel (add_parcel s)))
      as [H1 [H2 [H3 H4]]].
    set (s3 := fold_left (fun s v => add_violation_type (Violation.type v) s)
                 (v :: vs) (add_violating_parcel (add_parcel s))) in *.
    cbv zeta in H1, H2, H3, H4.
    assert (Hcounts :
      ZoneViolations.total_parcels s3 = (ZoneViolations.total_parcels s + 1)%nat
      /\ ZoneViolations.parcels_with_violations s3
         = (ZoneViolations.parcels_with_violations s + 1)%nat
      /\ forall type,
           lookup_default 0%nat type (ZoneViolations.violations_by_type s3)
           = (lookup_default 0%nat type (ZoneViolations.violations_by_type s)
              + List.length (of_type type (v :: vs)))%nat).
    { rewrite H1, H2. simpl. repeat split. intros type. rewrite H4. reflexivity. }
    destruct Hcounts as [C1 [C2 C3]].
    destruct (Nat.ltb (List.length (ZoneViolations.examples s3)) cap) eqn:E.
    + cbn [add_example ZoneViolations.total_parcels
           ZoneViolations.parcels_with_violations ZoneViolations.violations_by_type
           ZoneViolations.examples is_empty].
      repeat split; try assumption.
      intros _. rewrite length_app. simpl. apply Nat.ltb_lt in E. lia.
    + cbn [is_empty]. repeat split; try assumption.
      intros Hle. rewrite H3. simpl. exact Hle.
Qed.

Lemma analyze_loop (check : Property -> outcome (list Violation.t)) (cap : nat)
    (props : list (option Property)) :
  Forall (aggregator_domain check) props ->
  forall st,
    exists st',
      for_each (analyze_step check cap) props st = Returns st'
      /\ loop_adds check cap props st st'.
Proof.
  induction 1 as [|prop props Hdom _ IH]; intros st.
  - exists st. split; [reflexivity|]. intros zone. simpl.
    unfold lookup_default, count_parcels, count_violating, count_of_type.
    destruct (lookup zone (Analysis.violations_by_zone st)); simpl.
    + repeat split; intros; lia.
    + split; reflexivity.
  - destruct (zone_of prop) as [z0|] eqn:Hz.
    + (* a record that is kept *)
      destruct prop as [p|]; [|discriminate].
      unfold aggregator_domain in Hdom. rewrite Hz in Hdom.
      destruct Hdom as [[vs Hc] [Ha Hi]].
      destruct (analyze_step_kept check cap st p z0 vs Hz Hc Ha Hi)
        as [st1 [Hstep Hl1]].
      destruct (IH st1) as [st' [Hloop Hadds]].
      exists st'. split; [cbn [for_each]; rewrite Hstep; exact Hloop|].
      intros zone. specialize (Hadds zone). cbv zeta in *.
      assert (Hfound : found check (Some p) = vs).
      { unfold found, violations_of. now rewrite Hc. }
      assert (Hin : in_zone zone (Some p) = String.eqb zone z0).
      { unfold in_zone. rewrite Hz. apply String.eqb_sym. }
      unfold count_parcels, count_violating, count_of_type in *.
      cbn [map list_sum]. rewrite Hin, Hfound.
      assert (HV : lookup_default ZoneViolations.empty zone
                     (Analysis.violations_by_zone st1)
                   = if String.eqb zone z0
                     then entry_after cap (get (address p)) (get (parcel_id p)) vs
                            (lookup_default ZoneViolations.empty z0
                               (Analysis.violations_by_zone st))
                     else lookup_default ZoneViolations.empty zone
                            (Analysis.violations_by_zone st)).
      { unfold lookup_default at 1. rewrite Hl1.
        destruct (String.eqb zone z0); reflexivity. }
      rewrite HV in Hadds. clear HV.
      destruct (String.eqb zone z0) eqn:E.
      * apply String.eqb_eq in E. subst zone.
        destruct (entry_after_counts cap (get (address p)) (get (parcel_id p)) vs
                    (lookup_default ZoneViolations.empty z0
                       (Analysis.violations_by_zone st)))
          as [E1 [E2 [E3 E4]]].
        cbv zeta in E1, E2, E3, E4.
        destruct (lookup z0 (Analysis.violations_by_zone st')) as [s'|].
        -- destruct Hadds as [A1 [A2 [A3 A4]]].
           rewrite E1 in A2. rewrite E2 in A3.
           split; [|split; [|split]].
           ++ intros Hle. apply A1. now apply E4.
           ++ rewrite A2. simpl. lia.
           ++ rewrite A3. destruct (is_empty vs); simpl; lia.
           ++ intros type. rewrite A4, E3. simpl. lia.
        -- destruct Hadds as [A1 _]. rewrite Hl1, String.eqb_refl in A1.
           discriminate.
      * destruct (lookup zone (Analysis.violations_by_zone st')) as [s'|].
        -- destruct Hadds as [A1 [A2 [A3 A4]]]. simpl.
           split; [|split; [|split]]; assumption.
        -- simpl. destruct Hadds as [A1 A2]. rewrite Hl1, E in A1.
           split; assumption.
    + (* a record that is skipped *)
      destruct (IH st) as [st' [Hloop Hadds]].
      exists st'. split.
      * cbn [for_each]. rewrite (analyze_step_skipped check cap st prop Hz).
        exact Hloop.
      * intros zone. specialize (Hadds zone). cbv zeta in *.
        assert (Hin : in_zone zone prop = false).
        { unfold in_zone. now rewrite Hz. }
        unfold count_parcels, count_violating, count_of_type in *.
        cbn [map list_sum]. rewrite Hin. simpl. exact Hadds.
Qed.

Lemma analyze_with_summarises (check : Property -> outcome (list Violation.t))
    (cap : nat) (props : list (option Property)) :
  Forall (aggregator_domain check) props ->
  exists res,
    analyze_with check cap props = Returns res /\ summarises check cap props res.
Proof.
  intros Hdom.
  destruct (analyze_loop check cap props Hdom (Analysis.mk [] []))
    as [res [Hres Hadds]].
  exists res. split; [exact Hres|].
  intros zone. specialize (Hadds zone). cbv zeta in Hadds. simpl in Hadds.
  destruct (lookup zone (Analysis.violations_by_zone res)) as [s|].
  - destruct Hadds as [A1 [A2 [A3 A4]]]. repeat split; try assumption.
    apply A1. simpl. lia.
  - apply Hadds.
Qed.

(** C8. On a collection of the aggregator's domain, [analyze_properties]
    keeps at most 5 examples per zone and [analyze_violations] at most
    10, while total_parcels, parcels_with_violations and
    violations_by_type of every zone are the counts over the whole
    collection; and the same loop run with any other cap returns the
    same counts, since the counts of the collection do not mention the
    cap. *)
Theorem example_cap_bounds_examples_not_counts :
  forall props : list (option Property),
    (Forall (aggregator_domain AnalyzeWithViolations.check_zoning_violations) props ->
     (exists res,
        analyze_properties props = Returns res
        /\ summarises AnalyzeWithViolations.check_zoning_violations 5 props res)
     /\ (forall cap, exists res,
           analyze_with AnalyzeWithViolations.check_zoning_violations cap props
           = Returns res
           /\ summarises AnalyzeWithViolations.check_zoning_violations cap props res))
    /\ (Forall (aggregator_domain Reanalyze.check_zoning_violations) props ->
        (exists res,
           analyze_violations props = Returns res
           /\ summarises Reanalyze.check_zoning_violations 10 props res)
        /\ (forall cap, exists res,
              analyze_with Reanalyze.check_zoning_violations cap props = Returns res
              /\ summarises Reanalyze.check_zoning_violations cap props res)).
Proof.
  intros props. split; intros Hdom; split;
    try (intros cap); now apply analyze_with_summarises.
Qed.

(** C8 on seven undersized parcels of zone SRB: [analyze_properties]
    counts all seven and keeps five examples. *)
Lemma example_cap_bounds_examples_not_counts_witness :
  let parcel :=
    Some (mkProperty (Val "0123-0045") (Val "1 Main St") Null (Val "SRB")
            (Val "SINGLE FAM MDL-01") (Val 300000%Q) (Val 100000%Q) (Val (1 # 10)%Q)
            (Val (4356 # 1)%Q) (Val 0%Q) (Val 0%Q)) in
  let props := repeat parcel 7 in
  exists res s,
    analyze_properties props = Returns res
    /\ summarises AnalyzeWithViolations.check_zoning_violations 5 props res
    /\ lookup "SRB" (Analysis.violations_by_zone res) = Some s
    /\ ZoneViolations.total_parcels s = 7%nat
    /\ ZoneViolations.parcels_with_violations s = 7%nat
    /\ List.length (ZoneViolations.examples s) = 5%nat.
Proof.
  intros parcel props.
  assert (Hdom : Forall (aggregator_domain AnalyzeWithViolations.check_zoning_violations)
                   props).
  { repeat constructor; try discriminate; eexists; vm_compute; reflexivity. }
  destruct (example_cap_bounds_examples_not_counts props) as [Hfive _].
  destruct (Hfive Hdom) as [[res [Hres Hsum]] _].
  assert (Hrun : exists s,
            lookup "SRB" (Analysis.violations_by_zone res) = Some s
            /\ ZoneViolations.total_parcels s = 7%nat
            /\ ZoneViolations.parcels_with_violations s = 7%nat
            /\ List.length (ZoneViolations.examples s) = 5%nat).
  { vm_compute in Hres. inversion Hres. eexists. repeat split. }
  destruct Hrun as [s Hs].
  exists res, s. auto.
Defined.

(** ** Rounding *)

Lemma round_half_even_error (x : Q) :
  (Qabs (inject_Z (round_half_even x) - x) <= 1 # 2)%Q.
Proof.
  unfold round_half_even.
  pose proof (Qfloor_le x) as Hlo.
  pose proof (Qlt_floor x) as Hhi.
  rewrite inject_Z_plus in Hhi.
  change (inject_Z 1) with 1%Q in Hhi.
  set (f := inject_Z (Qfloor x)) in *.
  destruct (Qlt_bool (x - f) (1 # 2)) eqn:E1.
  - apply Qlt_bool_iff in E1. fold f. apply Qabs_Qle_condition. split; lra.
  - apply Qlt_bool_false_iff in E1.
    destruct (Qlt_bool (1 # 2) (x - f)) eqn:E2.
    + rewrite inject_Z_plus. change (inject_Z 1) with 1%Q. fold f.
      apply Qabs_Qle_condition. split; lra.
    + apply Qlt_bool_false_iff in E2.
      destruct (Z.even (Qfloor x)).
      * fold f. apply Qabs_Qle_condition. split; lra.
      * rewrite inject_Z_plus. change (inject_Z 1) with 1%Q. fold f.
        apply Qabs_Qle_condition. split; lra.
Qed.

(** [round(q, 2)] is within half a hundredth of [q]. *)
Lemma round_2_error (q : Q) : (Qabs (round q 2 - q) <= 1 # 200)%Q.
Proof.
  unfold round. change (inject_Z (pow10 2)) with 100%Q.
  pose proof (round_half_even_error (q * 100)) as H.
  apply Qabs_Qle_condition in H. destruct H as [H1 H2].
  set (r := inject_Z (round_half_even (q * 100))) in *.
  apply Qabs_Qle_condition.
  assert (E : (r / 100 == r * (1 # 100))%Q) by (unfold Qdiv; reflexivity).
  rewrite E. split; lra.
Qed.

(** ** Zone metrics aggregator *)

Lemma if_positive_div_returns (a b : Q) :
  exists q, if_positive b (py_div a b) = Returns q.
Proof.
  unfold if_positive, py_div.
  destruct (Qlt_bool 0 b) eqn:E; [|eauto].
  apply Qlt_bool_iff in E.
  destruct (Qeq_bool b 0) eqn:E0; [|eauto].
  apply Qeq_bool_iff in E0. lra.
Qed.

Lemma if_positive_pct_returns (a b k : Q) :
  exists q, if_positive b (q <- py_div a b ;; Returns (q * k)%Q) = Returns q.
Proof.
  unfold if_positive, py_div.
  destruct (Qlt_bool 0 b) eqn:E; [|eauto].
  apply Qlt_bool_iff in E.
  destruct (Qeq_bool b 0) eqn:E0; [|simpl; eauto].
  apply Qeq_bool_iff in E0. lra.
Qed.








(** ** Binary floating point *)

Lemma pow2_pos (e : Z) : (0 < 2 ^ e)%Q.
Proof. apply Qpower_0_lt. reflexivity. Qed.

Lemma ilog2_le (x : Q) : ~ (x == 0)%Q -> (2 ^ ilog2 x <= Qabs x)%Q.
Proof.
  intros Hx. unfold ilog2.
  set (a := Z.log2 (Z.abs (Qnum x))). set (b := Z.log2 (Zpos (Qden x))).
  destruct (Qle_bool (2 ^ (a - b)) (Qabs x)) eqn:E.
  - now apply Qle_bool_iff.
  - assert (Hn : (0 < Z.abs (Qnum x))%Z).
    { destruct x as [n d]. unfold Qeq in Hx. simpl in *. lia. }
    assert (Ha : (2 ^ a <= Z.abs (Qnum x))%Z) by (apply Z.log2_spec; exact Hn).
    assert (Hb : (Zpos (Qden x) < 2 ^ (b + 1))%Z).
    { pose proof (Z.log2_spec (Zpos (Qden x)) eq_refl) as H. unfold b.
      replace (Z.log2 (Z.pos (Qden x)) + 1)%Z
        with (Z.succ (Z.log2 (Z.pos (Qden x)))) by lia.
      apply H. }
    assert (Ha0 : (0 <= a)%Z) by apply Z.log2_nonneg.
    assert (Hb0 : (0 <= b + 1)%Z).
    { pose proof (Z.log2_nonneg (Zpos (Qden x))). unfold b. lia. }
    replace (a - b - 1)%Z with (a + - (b + 1))%Z by lia.
    rewrite Qpower_plus by discriminate.
    rewrite Qpower_opp.
    change 2%Q with (inject_Z 2).
    rewrite <- !Zpower_Qpower by assumption.
    assert (Hp : (0 < 2 ^ (b + 1))%Z) by (apply Z.pow_pos_nonneg; lia).
    assert (Hq : (0 < 2 ^ a)%Z) by (apply Z.pow_pos_nonneg; lia).
    destruct x as [n d]. simpl in *.
    unfold Qabs.
    destruct (2 ^ (b + 1))%Z as [|p|p] eqn:Ep; try lia.
    unfold Qle, Qinv, Qmult, inject_Z. simpl. nia.
Qed.

(** One rounding is off by at most [unit_roundoff] times the exact
    value. *)
Lemma fl_error (x : Q) : (Qabs (fl x - x) <= unit_roundoff * Qabs x)%Q.
Proof.
  unfold fl. destruct (Qeq_bool x 0) eqn:E.
  - apply Qeq_bool_iff in E. rewrite E. vm_compute. discriminate.
  - assert (Hx : ~ (x == 0)%Q).
    { intros H. apply Qeq_bool_iff in H. congruence. }
    cbv zeta. rewrite Qred_correct.
    pose proof (ilog2_le x Hx) as Hl.
    set (e := (ilog2 x - 52)%Z).
    pose proof (pow2_pos e) as He.
    assert (Hsplit : (2 ^ ilog2 x == 2 ^ e * 2 ^ 52)%Q).
    { replace (ilog2 x) with (e + 52)%Z by (unfold e; lia).
      apply Qpower_plus. discriminate. }
    rewrite Hsplit in Hl.
    pose proof (round_half_even_error (x / 2 ^ e)) as Hr.
    set (m := inject_Z (round_half_even (x / 2 ^ e))) in *.
    assert (Hd : (m * 2 ^ e - x == (m - x / 2 ^ e) * 2 ^ e)%Q).
    { field. intros H. rewrite H in He. now apply Qlt_irrefl in He. }
    rewrite Hd, Qabs_Qmult, (Qabs_pos (2 ^ e)) by (now apply Qlt_le_weak).
    apply Qle_trans with ((1 # 2) * 2 ^ e)%Q.
    + apply Qmult_le_compat_r; [exact Hr | now apply Qlt_le_weak].
    + change (2 ^ 52)%Q with (4503599627370496 # 1)%Q in Hl.
      unfold unit_roundoff. lra.
Qed.

Lemma Qabs_le_diff (x y : Q) : (Qabs x <= Qabs (x - y) + Qabs y)%Q.
Proof.
  assert (E : (x == (x - y) + y)%Q) by ring.
  rewrite E at 1. apply Qabs_triangle.
Qed.

(** A float addition: the error and the size of the result. *)
Lemma add_error (x y : Q) :
  (Qabs (Float.add x y - (x + y)) <= unit_roundoff * (Qabs x + Qabs y))%Q
  /\ (Qabs (Float.add x y) <= (1 + unit_roundoff) * (Qabs x + Qabs y))%Q.
Proof.
  unfold Float.add.
  pose proof (fl_error (x + y)) as He.
  pose proof (Qabs_triangle x y) as Ht.
  pose proof (Qabs_le_diff (fl (x + y)) (x + y)) as Hd.
  unfold unit_roundoff in *. split; lra.
Qed.

(** [round(q, 2)] on a float: half a hundredth, and one rounding of the
    result. *)
Lemma float_round_2_error (q : Q) :
  (Qabs (Float.round q 2 - q)
   <= (1 + unit_roundoff) * (1 # 200) + unit_roundoff * Qabs q)%Q.
Proof.
  unfold Float.round.
  pose proof (fl_error (round q 2)) as He.
  pose proof (round_2_error q) as Hr.
  pose proof (Qabs_le_diff (round q 2) q) as Hd.
  assert (E : (fl (round q 2) - q == (fl (round q 2) - round q 2) + (round q 2 - q))%Q)
    by ring.
  rewrite E.
  pose proof (Qabs_triangle (fl (round q 2) - round q 2) (round q 2 - q)) as Ht.
  unfold unit_roundoff in *. lra.
Qed.

Lemma gamma_nonneg (n : nat) : (0 <= gamma n)%Q.
Proof.
  induction n as [|n IH]; simpl; [lra|]. unfold unit_roundoff. lra.
Qed.

Lemma gamma_le_succ (n : nat) : (gamma n <= gamma (S n))%Q.
Proof.
  pose proof (gamma_nonneg n). simpl. unfold unit_roundoff. lra.
Qed.

(** Below [2^52] operations the built-up relative error is at most twice
    the number of operations times the unit roundoff. *)
Lemma gamma_small (n : nat) :
  (Z.of_nat n <= 2 ^ 52)%Z ->
  (gamma n <= 2 * inject_Z (Z.of_nat n) * unit_roundoff)%Q.
Proof.
  induction n as [|n IH]; intros Hn.
  - vm_compute. discriminate.
  - rewrite Nat2Z.inj_succ in *. unfold Z.succ in *.
    rewrite inject_Z_plus. change (inject_Z 1) with 1%Q.
    assert (Hn' : (Z.of_nat n <= 2 ^ 52)%Z) by lia.
    specialize (IH Hn').
    assert (Hq : (inject_Z (Z.of_nat n) <= inject_Z (2 ^ 52 - 1))%Q).
    { rewrite <- Zle_Qle. lia. }
    change (inject_Z (2 ^ 52 - 1)) with (4503599627370495 # 1)%Q in Hq.
    cbn [gamma]. unfold unit_roundoff in *. lra.
Qed.

(** ** Zone metrics aggregator on floats *)

(** A sum over the zones after one entry has been rewritten. *)
Lemma Qsum_update (g : ZoneData.t -> Q) (zone : string)
    (f : ZoneData.t -> ZoneData.t) (zone_data : list (string * ZoneData.t)) :
  (g ZoneData.empty == 0)%Q ->
  (Qsum (map (fun kv => g (snd kv)) (update ZoneData.empty zone f zone_data))
   == Qsum (map (fun kv => g (snd kv)) zone_data)
      + g (f (lookup_default ZoneData.empty zone zone_data))
      - g (lookup_default ZoneData.empty zone zone_data))%Q.
Proof.
  intros H0. unfold lookup_default, Qsum.
  induction zone_data as [|[k data] zone_data IH]; simpl.
  - lra.
  - destruct (String.eqb zone k); simpl.
    + lra.
    + rewrite IH. lra.
Qed.

Lemma accumulated_abs_nonneg (zone_data : list (string * ZoneData.t)) :
  (0 <= accumulated_abs zone_data)%Q.
Proof.
  unfold accumulated_abs, Qsum.
  induction zone_data as [|[k data] zone_data IH]; simpl; [lra|].
  pose proof (Qabs_nonneg (ZoneData.total_acres data)). lra.
Qed.

Lemma lookup_default_abs_le (zone : string) (zone_data : list (string * ZoneData.t)) :
  (Qabs (ZoneData.total_acres (lookup_default ZoneData.empty zone zone_data))
   <= accumulated_abs zone_data)%Q.
Proof.
  unfold lookup_default, accumulated_abs, Qsum.
  induction zone_data as [|[k data] zone_data IH]; simpl.
  - vm_compute. discriminate.
  - pose proof (accumulated_abs_nonneg zone_data) as Hn.
    unfold accumulated_abs, Qsum in Hn.
    pose proof (Qabs_nonneg (ZoneData.total_acres data)).
    destruct (String.eqb zone k); simpl; lra.
Qed.

Lemma float_metrics_step_kept (zone_data : list (string * ZoneData.t)) (total : Q)
    (p : Property) (zone : string) (acres value : Q) :
  zone_of (Some p) = Some zone ->
  parcel_area_acres p = Val acres -> total_value p = Val value ->
  land_use_desc p <> Absent ->
  exists land_use,
    Float.metrics_step (zone_data, total) (Some p) =
    Returns
      (update ZoneData.empty zone
         (fun data =>
            ZoneData.mk (Float.add (ZoneData.total_acres data) acres)
              (Float.add (ZoneData.total_value data) value)
              (ZoneData.parcel_count data + 1)
              (update 0%nat land_use (fun n => (n + 1)%nat) (ZoneData.land_uses data)))
         zone_data,
       Float.add total acres).
Proof.
  intros Hz Ha Hv Hd. unfold Float.metrics_step. rewrite Hz, Ha, Hv.
  destruct (land_use_desc p) as [| |d]; [contradiction| |]; simpl; eauto.
Qed.

Lemma float_metrics_step_skipped (st : list (string * ZoneData.t) * Q)
    (prop : option Property) :
  zone_of prop = None -> Float.metrics_step st prop = Returns st.
Proof.
  intros Hz. unfold Float.metrics_step. destruct prop; [|reflexivity]. now rewrite Hz.
Qed.

(** One more record: the invariant of the float accumulation. *)
Lemma within_step (n : nat) (A S : Q) (zone_data : list (string * ZoneData.t))
    (total : Q) (zone : string) (acres value : Q) (land_use : string) :
  within n A S (zone_data, total) ->
  within (Datatypes.S n) (A + Qabs acres) (S + acres)
    (update ZoneData.empty zone
       (fun data =>
          ZoneData.mk (Float.add (ZoneData.total_acres data) acres)
            (Float.add (ZoneData.total_value data) value)
            (ZoneData.parcel_count data + 1)
            (update 0%nat land_use (fun n => (n + 1)%nat) (ZoneData.land_uses data)))
       zone_data,
     Float.add total acres).
Proof.
  unfold within. cbn [fst snd]. intros [HM [HD [HT HTS]]].
  set (f := fun data =>
          ZoneData.mk (Float.add (ZoneData.total_acres data) acres)
            (Float.add (ZoneData.total_value data) value)
            (ZoneData.parcel_count data + 1)
            (update 0%nat land_use (fun n => (n + 1)%nat) (ZoneData.land_uses data))).
  pose proof (Qsum_update ZoneData.total_acres zone f zone_data (Qeq_refl 0)) as HD'.
  pose proof (Qsum_update (fun d => Qabs (ZoneData.total_acres d)) zone f zone_data
                (Qeq_refl 0)) as HM'.
  fold (accumulated_acres zone_data) in HD'.
  fold (accumulated_acres (update ZoneData.empty zone f zone_data)) in HD'.
  fold (accumulated_abs zone_data) in HM'.
  fold (accumulated_abs (update ZoneData.empty zone f zone_data)) in HM'.
  pose proof (lookup_default_abs_le zone zone_data) as Hacc.
  set (d0 := lookup_default ZoneData.empty zone zone_data) in *.
  subst f. cbn beta in HD', HM'. cbn [ZoneData.total_acres] in HD', HM'.
  set (acc := ZoneData.total_acres d0) in *.
  destruct (add_error acc acres) as [Ea1 Ea2].
  destruct (add_error total acres) as [Et1 Et2].
  pose proof (gamma_nonneg n) as Hg.
  pose proof (Qabs_nonneg acres) as Ha0.
  pose proof (Qabs_nonneg acc) as Hacc0.
  assert (HR : (0 <= gamma n * Qabs acres)%Q) by (now apply Qmult_le_0_compat).
  cbn [gamma].
  set (M := accumulated_abs zone_data) in *.
  set (D := accumulated_acres zone_data) in *.
  set (M' := accumulated_abs (update _ _ _ _)) in *.
  set (D' := accumulated_acres (update _ _ _ _)) in *.
  set (acc' := Float.add acc acres) in *.
  set (total' := Float.add total acres) in *.
  assert (HM2 : (M' == M + Qabs acc' - Qabs acc)%Q) by exact HM'.
  clear HM'.
  apply Qabs_Qle_condition in HD, HTS, Ea1, Et1.
  unfold unit_roundoff in *.
  split; [lra|]. split; [apply Qabs_Qle_condition; split; lra|].
  split; [lra|]. apply Qabs_Qle_condition; split; lra.
Qed.

Lemma within_eq (n : nat) (A A' S S' : Q) (st : list (string * ZoneData.t) * Q) :
  (A == A')%Q -> (S == S')%Q -> within n A S st -> within n A' S' st.
Proof.
  unfold within. intros HA HS. now rewrite HA, HS.
Qed.

(** The accumulation loop on floats returns on the domain and keeps
    the invariant. *)
Lemma float_metrics_loop (props : list (option Property)) :
  Forall metrics_domain props ->
  forall st n A S,
    within n A S st ->
    exists st',
      for_each Float.metrics_step props st = Returns st'
      /\ within (n + List.length (filter kept props))
           (A + abs_acres props) (S + kept_acres props) st'.
Proof.
  induction 1 as [|prop props Hdom _ IH]; intros st n A S Hin.
  - exists st. split; [reflexivity|]. cbn [filter List.length].
    rewrite Nat.add_0_r. apply (within_eq n A _ S _ st); [| |exact Hin];
      unfold abs_acres, kept_acres, Qsum; simpl; lra.
  - destruct (zone_of prop) as [z0|] eqn:Hz.
    + destruct prop as [p|]; [|discriminate].
      unfold metrics_domain in Hdom. rewrite Hz in Hdom.
      destruct Hdom as [[acres Ha] [[value Hv] Hd]].
      destruct st as [zone_data total].
      destruct (float_metrics_step_kept zone_data total p z0 acres value Hz Ha Hv Hd)
        as [land_use Hstep].
      pose proof (within_step n A S zone_data total z0 acres value land_use Hin)
        as Hin1.
      destruct (IH _ _ _ _ Hin1) as [st' [Hloop Hin']].
      exists st'. split; [cbn [for_each]; rewrite Hstep; exact Hloop|].
      assert (Hacres : acres_of (Some p) = acres).
      { unfold acres_of. now rewrite Hz, Ha. }
      assert (Hkept : kept (Some p) = true).
      { unfold kept. now rewrite Hz. }
      cbn [filter]. rewrite Hkept. cbn [List.length].
      rewrite Nat.add_succ_r.
      apply (within_eq _ _ _ _ _ st' ) with (3 := Hin');
        unfold abs_acres, kept_acres, Qsum; cbn [map fold_right];
        rewrite Hacres; lra.
    + destruct (IH st n A S Hin) as [st' [Hloop Hin']].
      exists st'. split.
      * cbn [for_each]. rewrite (float_metrics_step_skipped _ prop Hz). exact Hloop.
      * assert (Hacres : acres_of prop = 0%Q).
        { unfold acres_of. destruct prop; [|reflexivity]. now rewrite Hz. }
        assert (Hkept : kept prop = false).
        { unfold kept. now rewrite Hz. }
        cbn [filter]. rewrite Hkept.
        apply (within_eq _ _ _ _ _ st') with (3 := Hin');
          unfold abs_acres, kept_acres, Qsum; cbn [map fold_right];
          rewrite Hacres; change (Qabs 0) with 0%Q; lra.
Qed.

Lemma if_positive_float_div_returns (a b : Q) :
  exists q, if_positive b (Float.div a b) = Returns q.
Proof.
  unfold if_positive, Float.div.
  destruct (Qlt_bool 0 b) eqn:E; [|eauto].
  apply Qlt_bool_iff in E.
  destruct (Qeq_bool b 0) eqn:E0; [|eauto].
  apply Qeq_bool_iff in E0. lra.
Qed.

Lemma if_positive_float_pct_returns (a b k : Q) :
  exists q, if_positive b (q <- Float.div a b ;; Returns (Float.mul q k)) = Returns q.
Proof.
  unfold if_positive, Float.div.
  destruct (Qlt_bool 0 b) eqn:E; [|eauto].
  apply Qlt_bool_iff in E.
  destruct (Qeq_bool b 0) eqn:E0; [|simpl; eauto].
  apply Qeq_bool_iff in E0. lra.
Qed.

(** The second loop never raises on floats either; it rounds the acres
    of the zone. *)
Lemma float_zone_result_returns (total_acres : Q) (data : ZoneData.t) :
  exists m,
    Float.zone_result total_acres data = Returns m
    /\ ZoneMetrics.total_acres m = Float.round (ZoneData.total_acres data) 2.
Proof.
  unfold Float.zone_result.
  destruct (if_positive_float_pct_returns (ZoneData.total_acres data) total_acres 100)
    as [pct Hp].
  destruct (if_positive_float_div_returns (ZoneData.total_value data)
              (ZoneData.total_acres data)) as [rd Hr].
  rewrite Hp, Hr. simpl. eexists. split; reflexivity.
Qed.

Lemma float_map_items_zone_result (total_acres : Q)
    (zone_data : list (string * ZoneData.t)) :
  exists zones,
    map_items (Float.zone_result total_acres) zone_data = Returns zones
    /\ map (fun kv => (fst kv, ZoneMetrics.total_acres (snd kv))) zones
       = map (fun kv => (fst kv, Float.round (ZoneData.total_acres (snd kv)) 2))
           zone_data.
Proof.
  induction zone_data as [|[k data] zone_data IH]; simpl.
  - exists []. split; reflexivity.
  - destruct (float_zone_result_returns total_acres data) as [m [Hm Ha]].
    destruct IH as [zones [Hz Hmap]].
    rewrite Hm, Hz. simpl. eexists. split; [reflexivity|].
    simpl. rewrite Ha, Hmap. reflexivity.
Qed.

(** The rounded accumulators against the accumulators. *)
Lemma float_rounded_sum_error (zone_data : list (string * ZoneData.t)) :
  (Qabs (Qsum (map (fun kv => Float.round (ZoneData.total_acres (snd kv)) 2) zone_data)
         - accumulated_acres zone_data)
   <= inject_Z (Z.of_nat (List.length zone_data))
      * ((1 + unit_roundoff) * (1 # 200))
      + unit_roundoff * accumulated_abs zone_data)%Q.
Proof.
  unfold accumulated_acres, accumulated_abs.
  induction zone_data as [|[k data] zone_data IH].
  - vm_compute. discriminate.
  - cbn [map Qsum fold_right List.length snd].
    fold (Qsum (map (fun kv => Float.round (ZoneData.total_acres (snd kv)) 2)
                  zone_data)).
    fold (Qsum (map (fun kv => ZoneData.total_acres (snd kv)) zone_data)).
    fold (Qsum (map (fun kv => Qabs (ZoneData.total_acres (snd kv))) zone_data)).
    rewrite Nat2Z.inj_succ. unfold Z.succ. rewrite inject_Z_plus.
    change (inject_Z 1) with 1%Q.
    pose proof (float_round_2_error (ZoneData.total_acres data)) as Hq.
    apply Qabs_Qle_condition in Hq. apply Qabs_Qle_condition in IH.
    unfold unit_roundoff in *.
    apply Qabs_Qle_condition. split; lra.
Qed.

Lemma abs_acres_nonneg (props : list (option Property)) : (0 <= abs_acres props)%Q.
Proof.
  unfold abs_acres, Qsum.
  induction props as [|prop props IH]; simpl; [lra|].
  pose proof (Qabs_nonneg (acres_of prop)). lra.
Qed.

(** On a collection of its domain the float aggregator returns; its
    state after the first loop is within the built-up rounding error of
    the exact acres kept, and each reported zone is the rounded
    accumulator. *)
Lemma float_calculate_metrics_returns (props : list (option Property)) :
  Forall metrics_domain props ->
  exists zone_data res,
    Float.accumulate_metrics props = Returns (zone_data, Metrics.total_acres res)
    /\ Float.calculate_metrics props = Returns res
    /\ within (List.length (filter kept props)) (abs_acres props) (kept_acres props)
         (zone_data, Metrics.total_acres res)
    /\ map (fun kv => (fst kv, ZoneMetrics.total_acres (snd kv))) (Metrics.zones res)
       = map (fun kv => (fst kv, Float.round (ZoneData.total_acres (snd kv)) 2))
           zone_data.
Proof.
  intros Hdom.
  assert (H0 : within 0 0 0 ([], 0%Q)).
  { unfold within. cbn [fst snd gamma]. repeat split; vm_compute; discriminate. }
  destruct (float_metrics_loop props Hdom _ _ _ _ H0) as [[zd total] [Hloop Hin]].
  destruct (float_map_items_zone_result total zd) as [zones [Hz Hmap]].
  exists zd, (Metrics.mk total zones (Float.most_dense zones)).
  unfold Float.calculate_metrics, Float.accumulate_metrics. rewrite Hloop.
  cbn [bind]. rewrite Hz. cbn [bind Metrics.total_acres Metrics.zones].
  split; [reflexivity|]. split; [reflexivity|]. split; [|exact Hmap].
  cbn [Nat.add] in Hin.
  apply (within_eq _ _ _ _ _ _) with (3 := Hin); lra.
Qed.

(** C2, as amended. On floats, the interpreter's arithmetic, the sum
    over the zones of the reported total_acres equals the aggregate
    total_acres only up to rounding.  Each reported per-zone value is
    round(accumulator, 2), the aggregate is the unrounded running sum,
    and both sums are float sums taken in different orders.  With [k]
    zones, [n] records kept and [A] the sum of the absolute acres of the
    records kept, the difference is at most
    [k * 0.005 * (1 + 2^-53) + 4 * (n + 1) * 2^-53 * A]. *)
Theorem acres_conserved_up_to_rounding :
  forall props : list (option Property),
    Forall metrics_domain props ->
    (Z.of_nat (S (List.length (filter kept props))) <= 2 ^ 52)%Z ->
    exists zone_data res,
      Float.accumulate_metrics props = Returns (zone_data, Metrics.total_acres res)
      /\ Float.calculate_metrics props = Returns res
      /\ map (fun kv => (fst kv, ZoneMetrics.total_acres (snd kv))) (Metrics.zones res)
         = map (fun kv => (fst kv, Float.round (ZoneData.total_acres (snd kv)) 2))
             zone_data
      /\ (Qabs (reported_acres res - Metrics.total_acres res)
          <= inject_Z (Z.of_nat (List.length (Metrics.zones res)))
             * ((1 + unit_roundoff) * (1 # 200))
             + 4 * inject_Z (Z.of_nat (S (List.length (filter kept props))))
               * unit_roundoff * abs_acres props)%Q.
Proof.
  intros props Hdom Hn.
  destruct (float_calculate_metrics_returns props Hdom)
    as [zd [res [Hacc [Hres [Hin Hmap]]]]].
  exists zd, res.
  split; [exact Hacc|]. split; [exact Hres|]. split; [exact Hmap|].
  assert (Hrep : map (fun kv => ZoneMetrics.total_acres (snd kv)) (Metrics.zones res)
                 = map (fun kv => Float.round (ZoneData.total_acres (snd kv)) 2) zd).
  { apply (f_equal (map snd)) in Hmap. rewrite !map_map in Hmap. exact Hmap. }
  assert (Hlen : List.length (Metrics.zones res) = List.length zd).
  { apply (f_equal (@List.length _)) in Hmap. now rewrite !length_map in Hmap. }
  unfold reported_acres. rewrite Hrep, Hlen.
  pose proof (float_rounded_sum_error zd) as Hround.
  set (n := List.length (filter kept props)) in *.
  set (A := abs_acres props) in *.
  unfold within in Hin. cbn [fst snd] in Hin.
  destruct Hin as [HM [HD [_ HT]]].
  pose proof (gamma_small (S n) Hn) as Hsmall.
  pose proof (gamma_le_succ n) as Hmono.
  pose proof (gamma_nonneg n) as Hg.
  pose proof (abs_acres_nonneg props) as HA. fold A in HA.
  assert (H1 : (gamma n * A <= gamma (S n) * A)%Q)
    by (now apply Qmult_le_compat_r).
  assert (H2 : (gamma (S n) * A
                <= 2 * inject_Z (Z.of_nat (S n)) * unit_roundoff * A)%Q)
    by (now apply Qmult_le_compat_r).
  assert (H3 : (gamma (S n) * A == (1 + unit_roundoff) * (gamma n * A)
                                    + unit_roundoff * A)%Q)
    by (cbn [gamma]; ring).
  set (N := inject_Z (Z.of_nat (S n))) in *.
  set (G := gamma (S n)) in *.
  set (R := Qsum (map (fun kv => Float.round (ZoneData.total_acres (snd kv)) 2) zd))
    in *.
  set (D := accumulated_acres zd) in *.
  set (M := accumulated_abs zd) in *.
  set (K := inject_Z (Z.of_nat (List.length zd))) in *.
  apply Qabs_Qle_condition in Hround, HD, HT.
  unfold unit_roundoff in *.
  apply Qabs_Qle_condition. split; lra.
Qed.

(** C2 as stated fails: one parcel of a sixteenth of an acre is reported
    as 0.06 acre in its zone and as 0.0625 acre in the aggregate. *)
Lemma conservation_counterexample :
  let props :=
    [Some (mkProperty (Val "0123-0045") (Val "1 Main St") Null (Val "SRB")
             (Val "SINGLE FAM MDL-01") (Val 300000%Q) (Val 100000%Q) (Val (1 # 16)%Q)
             (Val (43560 # 16)%Q) (Val 0%Q) (Val 0%Q))] in
  exists res,
    Float.calculate_metrics props = Returns res
    /\ Qeq_bool (reported_acres res) (fl (6 # 100)) = true
    /\ Qeq_bool (Metrics.total_acres res) (1 # 16) = true
    /\ Qeq_bool (reported_acres res) (Metrics.total_acres res) = false.
Proof.
  intros props. eexists. split; [vm_compute; reflexivity|].
  repeat split; vm_compute; reflexivity.
Qed.

(** C2, as amended, on parcels of 0.1, 0.2 and 0.3 acre, the first in
    zone GRA and the others in zone SRB. *)
Lemma acres_conserved_up_to_rounding_witness :
  let parcel zone acres :=
    Some (mkProperty (Val "0123-0045") (Val "1 Main St") Null (Val zone)
            (Val "SINGLE FAM MDL-01") (Val 300000%Q) (Val 100000%Q) (Val (fl acres))
            (Val (fl (fl acres * 43560))) (Val 0%Q) (Val 0%Q)) in
  let props := [parcel "GRA" (1 # 10)%Q; parcel "SRB" (2 # 10)%Q;
                parcel "SRB" (3 # 10)%Q] in
  Forall metrics_domain props
  /\ (Z.of_nat (S (List.length (filter kept props))) <= 2 ^ 52)%Z
  /\ exists zone_data res,
       Float.accumulate_metrics props = Returns (zone_data, Metrics.total_acres res)
       /\ Float.calculate_metrics props = Returns res
       /\ map (fun kv => (fst kv, ZoneMetrics.total_acres (snd kv))) (Metrics.zones res)
          = map (fun kv => (fst kv, Float.round (ZoneData.total_acres (snd kv)) 2))
              zone_data
       /\ (Qabs (reported_acres res - Metrics.total_acres res)
           <= inject_Z (Z.of_nat (List.length (Metrics.zones res)))
              * ((1 + unit_roundoff) * (1 # 200))
              + 4 * inject_Z (Z.of_nat (S (List.length (filter kept props))))
                * unit_roundoff * abs_acres props)%Q.
Proof.
  intros parcel props.
  assert (Hdom : Forall metrics_domain props).
  { repeat constructor; try discriminate; eexists; reflexivity. }
  assert (Hn : (Z.of_nat (S (List.length (filter kept props))) <= 2 ^ 52)%Z).
  { vm_compute. discriminate. }
  split; [exact Hdom|]. split; [exact Hn|].
  exact (acres_conserved_up_to_rounding props Hdom Hn).
Defined.

(** The rounding of the floats is felt even where no decimal is cut:
    with 0.1 acre in one zone and 0.2 and 0.3 acre in another, the zones
    report 0.1 and 0.5 while the aggregate is 0.6000000000000001; and
    half a hundredth per zone does not bound the difference, since one
    parcel of 0.125 acre is reported as the float 0.12, which lies more
    than 0.005 below it. *)
Lemma float_sums_disagree_beyond_decimal_rounding :
  let parcel zone acres :=
    Some (mkProperty (Val "0123-0045") (Val "1 Main St") Null (Val zone)
            (Val "SINGLE FAM MDL-01") (Val 300000%Q) (Val 100000%Q) (Val (fl acres))
            (Val (fl (fl acres * 43560))) (Val 0%Q) (Val 0%Q)) in
  (exists res,
     Float.calculate_metrics
       [parcel "GRA" (1 # 10)%Q; parcel "SRB" (2 # 10)%Q; parcel "SRB" (3 # 10)%Q]
     = Returns res
     /\ map (fun kv => (fst kv, ZoneMetrics.total_acres (snd kv))) (Metrics.zones res)
        = [("GRA", fl (1 # 10)); ("SRB", (1 # 2)%Q)]
     /\ Metrics.total_acres res = (1351079888211149 # 2251799813685248)%Q
     /\ Qlt_bool (reported_acres res) (Metrics.total_acres res) = true)
  /\ (exists res,
        Float.calculate_metrics [parcel "SRB" (1 # 8)%Q] = Returns res
        /\ Metrics.total_acres res = (1 # 8)%Q
        /\ map (fun kv => (fst kv, ZoneMetrics.total_acres (snd kv))) (Metrics.zones res)
           = [("SRB", fl (12 # 100))]
        /\ Qlt_bool (1 # 200) (Metrics.total_acres res - reported_acres res) = true).
Proof.
  intros parcel. split.
  - destruct (Float.calculate_metrics _) as [res|e] eqn:E;
      vm_compute in E; [|discriminate].
    injection E as <-. eexists. split; [reflexivity|].
    repeat split; vm_compute; reflexivity.
  - destruct (Float.calculate_metrics _) as [res|e] eqn:E;
      vm_compute in E; [|discriminate].
    injection E as <-. eexists. split; [reflexivity|].
    repeat split; vm_compute; reflexivity.
Qed.







(** ** Comparative layer *)

(** A guarded ratio is 0 when its denominator is not positive. *)
Lemma if_positive_zero (b : Q) (e : outcome Q) :
  (b <= 0)%Q -> if_positive b e = Returns 0%Q.
Proof.
  intros Hb. unfold if_positive. apply Qlt_bool_false_iff in Hb. now rewrite Hb.
Qed.

Lemma zone_result_zero_ratios (total_acres : Q) (data : ZoneData.t) :
  (total_acres <= 0)%Q -> (ZoneData.total_acres data <= 0)%Q ->
  exists m,
    zone_result total_acres data = Returns m
    /\ ZoneMetrics.percent_of_land m = round 0 2
    /\ ZoneMetrics.revenue_density m = round 0 2.
Proof.
  intros Ht Ha. unfold zone_result.
  rewrite (if_positive_zero _ _ Ht), (if_positive_zero _ _ Ha). simpl.
  eexists. repeat split.
Qed.

Lemma group_ratios_zero (stats : GroupStats.t) :
  (GroupStats.total_acres stats <= 0)%Q -> GroupStats.total_parcels stats = 0%nat ->
  group_revenue_density stats = Returns 0%Q
  /\ group_violation_rate stats = Returns 0%Q
  /\ group_parcels_per_acre stats = Returns 0%Q.
Proof.
  intros Ha Hp.
  unfold group_revenue_density, group_violation_rate, group_parcels_per_acre.
  rewrite Hp. repeat split; apply if_positive_zero; try assumption;
    try discriminate.
Qed.

Lemma fiscal_ratio_zero (revenue_per_parcel cost : Q) :
  (cost <= 0)%Q -> fiscal_ratio revenue_per_parcel cost = Returns 0%Q.
Proof. apply if_positive_zero. Qed.

Lemma if_positive_div_value (a b : Q) :
  exists q,
    if_positive b (py_div a b) = Returns q
    /\ ((b <= 0)%Q -> q = 0%Q) /\ ((0 < b)%Q -> q = (a / b)%Q).
Proof.
  unfold if_positive, py_div.
  destruct (Qlt_bool 0 b) eqn:E.
  - apply Qlt_bool_iff in E.
    destruct (Qeq_bool b 0) eqn:E0.
    + apply Qeq_bool_iff in E0. lra.
    + eexists. split; [reflexivity|]. split; [intros; lra | reflexivity].
  - apply Qlt_bool_false_iff in E.
    eexists. split; [reflexivity|]. split; [reflexivity | intros; lra].
Qed.

(** The factor of the total-property-value line divides by
    [value_ratio] without a guard: whenever one of the two groups has no
    value, the comparison raises. *)
Lemma value_factor_unguarded (metrics : Metrics.t) (violations_analysis : Analysis.t) :
  let sf_stats := group_stats metrics violations_analysis single_family_zones in
  let mf_stats := group_stats metrics violations_analysis multi_family_zones in
  (GroupStats.total_value mf_stats <= 0)%Q \/ (GroupStats.total_value sf_stats == 0)%Q ->
  generate_residential_comparison metrics violations_analysis
  = Raises ZeroDivisionError.
Proof.
  intros sf_stats mf_stats Hzero. unfold generate_residential_comparison.
  fold sf_stats. fold mf_stats.
  destruct (if_positive_div_value (GroupStats.total_value sf_stats)
              (GroupStats.total_value mf_stats)) as [value_ratio [Hvr [Hle Hgt]]].
  rewrite Hvr. clear Hvr.
  assert (Hv : (value_ratio == 0)%Q).
  { destruct (Qlt_le_dec 0 (GroupStats.total_value mf_stats)) as [Hpos | Hnonpos].
    - rewrite (Hgt Hpos). destruct Hzero as [Hz | Hz]; [lra|].
      rewrite Hz. unfold Qdiv. lra.
    - rewrite (Hle Hnonpos). reflexivity. }
  clear Hle Hgt.
  unfold group_revenue_density, group_violation_rate, group_parcels_per_acre.
  repeat match goal with
  | |- context [if_positive ?b (py_div ?a ?b)] =>
      let q := fresh "q" in let H := fresh "H" in
      destruct (if_positive_div_returns a b) as [q H]; rewrite H; clear H; cbn [bind]
  | |- context [if_positive ?b (bind (py_div ?a ?b) (fun q => Returns (q * ?k)%Q))] =>
      let q := fresh "q" in let H := fresh "H" in
      destruct (if_positive_pct_returns a b k) as [q H]; rewrite H; clear H;
      cbn [bind]
  end.
  assert (H1 : Qlt_bool 1 value_ratio = false)
    by (apply Qlt_bool_false_iff; lra).
  assert (H0 : Qeq_bool value_ratio 0 = true) by (now apply Qeq_bool_iff).
  rewrite H1. unfold py_div. rewrite H0. reflexivity.
Qed.

(** C9. The comparative report run on the aggregates of an empty
    collection: both groups are empty, [value_ratio] falls back to 0 and
    the unguarded [1/value_ratio] raises ZeroDivisionError. *)
Theorem residential_comparison_divides_by_zero :
  exists metrics violations_analysis,
    calculate_zone_metrics [] = Returns metrics
    /\ analyze_violations [] = Returns violations_analysis
    /\ generate_residential_comparison metrics violations_analysis
       = Raises ZeroDivisionError.
Proof.
  do 2 eexists. split; [reflexivity|]. split; [reflexivity|].
  apply value_factor_unguarded. left. discriminate.
Qed.

(** The same on a collection that the analysis can meet: parcels in a
    multi-family zone only, none in R, SRA or SRB. *)
Lemma residential_comparison_raises_without_single_family :
  let props :=
    [Some (mkProperty (Val "0123-0045") (Val "1 Main St") Null (Val "GRA")
             (Val "TWO FAM MDL-01") (Val 400000%Q) (Val 150000%Q) (Val (1 # 4)%Q)
             (Val (10890 # 1)%Q) (Val 0%Q) (Val 0%Q))] in
  exists metrics violations_analysis,
    calculate_zone_metrics props = Returns metrics
    /\ analyze_violations props = Returns violations_analysis
    /\ generate_residential_comparison metrics violations_analysis
       = Raises ZeroDivisionError.
Proof.
  intros props. do 2 eexists.
  split; [vm_compute; reflexivity|]. split; [vm_compute; reflexivity|].
  apply value_factor_unguarded. right. vm_compute. reflexivity.
Qed.

(** * Further properties of the code *)

(** ** Violation evaluator: shape of the result *)

Lemma check_lot_size_cases (rules : ZoneRule) (p : Property) (vs : list Violation.t) :
  check_lot_size rules p = Returns vs ->
  vs = []
  \/ exists area min_lot,
       vs = [undersized_lot area min_lot] /\ (area < inject_Z min_lot)%Q.
Proof.
  unfold check_lot_size.
  destruct (min_lot_size_sqft rules) as [m|]; [|intros H; inversion H; now left].
  destruct (truthy (Some m)); [|intros H; inversion H; now left].
  destruct (parcel_area_sqft p) as [| |a]; simpl; try discriminate.
  destruct (Qlt_bool a (inject_Z m)) eqn:E; intros H; inversion H; [|now left].
  right. exists a, m. split; [reflexivity | now apply Qlt_bool_iff].
Qed.

Lemma check_lot_coverage_cases
    (cc : ZoneRule -> Property -> outcome (list Violation.t))
    (rules : ZoneRule) (p : Property) (vs : list Violation.t) :
  coverage_check_of_source cc ->
  cc rules p = Returns vs ->
  vs = []
  \/ exists coverage max_cov,
       vs = [excess_lot_coverage coverage max_cov]
       /\ (inject_Z max_cov < coverage)%Q.
Proof.
  intros [-> | ->].
  - unfold check_lot_coverage.
    destruct (max_lot_coverage_pct rules) as [m|]; [|intros H; inversion H; now left].
    destruct (truthy (Some m)); [|intros H; inversion H; now left].
    destruct (lot_coverage_pct p) as [| |c]; simpl; try discriminate.
    + cbn. intros H; inversion H; now left.
    + destruct (Qlt_bool 0 c); simpl; [|intros H; inversion H; now left].
      destruct (Qlt_bool (inject_Z m) c) eqn:E; intros H; inversion H; [|now left].
      right. exists c, m. split; [reflexivity | now apply Qlt_bool_iff].
  - unfold check_lot_coverage_subscript.
    destruct (max_lot_coverage_pct rules) as [m|]; [|intros H; inversion H; now left].
    destruct (truthy (Some m)); [|intros H; inversion H; now left].
    destruct (lot_coverage_pct p) as [| |c]; simpl; try discriminate.
    destruct (Qlt_bool 0 c); simpl; [|intros H; inversion H; now left].
    destruct (Qlt_bool (inject_Z m) c) eqn:E; intros H; inversion H; [|now left].
    right. exists c, m. split; [reflexivity | now apply Qlt_bool_iff].
Qed.

Lemma check_land_use_cases (rules : ZoneRule) (land_use : string) :
  check_land_use rules land_use = []
  \/ (check_land_use rules land_use = [incompatible_use rules land_use]
      /\ allowed_uses rules <> [] /\ ~ In land_use (allowed_uses rules)
      /\ land_use <> "unknown" /\ land_use <> "vacant").
Proof.
  unfold check_land_use.
  destruct (allowed_uses rules) as [|u us] eqn:Eu; [now left|].
  destruct (String.eqb land_use "unknown") eqn:E1; [now left|].
  destruct (String.eqb land_use "vacant") eqn:E2; [now left|].
  destruct (mem land_use (u :: us)) eqn:E3; [now left|].
  right. simpl. split; [reflexivity|].
  apply String.eqb_neq in E1. apply String.eqb_neq in E2.
  repeat split; try assumption; try discriminate.
  intros Hin.
  assert (Hmem : mem land_use (u :: us) = true) by (apply mem_iff; exact Hin).
  congruence.
Qed.

(** Whatever is returned is the three checks side by side, each with
    the condition under which it fired. *)
Lemma check_returns_cases (T : list (string * ZoneRule)) (cl : option string -> string)
    (cc : ZoneRule -> Property -> outcome (list Violation.t)) :
  coverage_check_of_source cc ->
  forall p vs,
    check_zoning_violations_with T cl cc p = Returns vs ->
    exists size coverage use,
      vs = size ++ coverage ++ use
      /\ (size = []
          \/ exists area min_lot,
               size = [undersized_lot area min_lot] /\ (area < inject_Z min_lot)%Q)
      /\ (coverage = []
          \/ exists c max_cov,
               coverage = [excess_lot_coverage c max_cov] /\ (inject_Z max_cov < c)%Q)
      /\ (use = []
          \/ exists rules land_use,
               use = [incompatible_use rules land_use]
               /\ allowed_uses rules <> [] /\ ~ In land_use (allowed_uses rules)
               /\ land_use <> "unknown" /\ land_use <> "vacant").
Proof.
  intros Hcc p vs. unfold check_zoning_violations_with.
  assert (Hnil : Returns (@nil Violation.t) = Returns vs ->
          exists size coverage use,
            vs = size ++ coverage ++ use
            /\ (size = []
                \/ exists area min_lot,
                     size = [undersized_lot area min_lot]
                     /\ (area < inject_Z min_lot)%Q)
            /\ (coverage = []
                \/ exists c max_cov,
                     coverage = [excess_lot_coverage c max_cov]
                     /\ (inject_Z max_cov < c)%Q)
            /\ (use = []
                \/ exists rules land_use,
                     use = [incompatible_use rules land_use]
                     /\ allowed_uses rules <> [] /\ ~ In land_use (allowed_uses rules)
                     /\ land_use <> "unknown" /\ land_use <> "vacant")).
  { intros H. inversion H. exists [], [], []. repeat split; now left. }
  destruct (get (zoning p)) as [zone|]; [|exact Hnil].
  destruct (String.eqb zone ""); [exact Hnil|].
  destruct (lookup zone T) as [rules|]; [|exact Hnil].
  intros H.
  apply bind_returns in H. destruct H as [size [Hs H]].
  apply bind_returns in H. destruct H as [coverage [Hc H]].
  inversion H.
  exists size, coverage,
    (check_land_use rules (cl (get_default (land_use_desc p) ""))).
  split; [reflexivity|]. split; [|split].
  - eapply check_lot_size_cases; eassumption.
  - eapply check_lot_coverage_cases; eassumption.
  - destruct (check_land_use_cases rules (cl (get_default (land_use_desc p) "")))
      as [E | [E Hcond]]; rewrite E; [now left | right; eauto].
Qed.

Lemma undersized_lot_well_formed (area : Q) (min_lot : Z) :
  (area < inject_Z min_lot)%Q -> well_formed (undersized_lot area min_lot).
Proof.
  intros Hlt. left. cbn. repeat split. eexists. split; [reflexivity | lra].
Qed.

Lemma excess_lot_coverage_well_formed (coverage : Q) (max_cov : Z) :
  (inject_Z max_cov < coverage)%Q -> well_formed (excess_lot_coverage coverage max_cov).
Proof.
  intros Hlt. right. left. cbn. repeat split. eexists. split; [reflexivity | lra].
Qed.

Lemma incompatible_use_well_formed (rules : ZoneRule) (land_use : string) :
  allowed_uses rules <> [] -> ~ In land_use (allowed_uses rules) ->
  land_use <> "unknown" -> land_use <> "vacant" ->
  well_formed (incompatible_use rules land_use).
Proof.
  intros H1 H2 H3 H4. right. right. cbn. repeat split.
  exists land_use, (allowed_uses rules). repeat split; assumption.
Qed.

(** X1. Every violation that either version of the evaluator returns,
    over any rule table, has the severity that goes with its type
    (major for undersized_lot and excess_lot_coverage, critical for
    incompatible_use), carries the payload keys of its type only, and
    its payload is a real breach: deficit > 0, excess_pct > 0, and a
    current_use that is neither 'unknown' nor 'vacant' nor among the
    non-empty allowed_uses. *)
Theorem returned_violations_well_formed :
  forall (T : list (string * ZoneRule)) (cl : option string -> string)
         (cc : ZoneRule -> Property -> outcome (list Violation.t))
         (p : Property) (vs : list Violation.t),
    coverage_check_of_source cc ->
    check_zoning_violations_with T cl cc p = Returns vs ->
    Forall well_formed vs.
Proof.
  intros T cl cc p vs Hcc H.
  destruct (check_returns_cases T cl cc Hcc p vs H)
    as [size [coverage [use [-> [Hs [Hc Hu]]]]]].
  apply Forall_app; split; [|apply Forall_app; split].
  - destruct Hs as [-> | [a [m [-> Hlt]]]]; [apply Forall_nil|].
    apply Forall_cons; [|apply Forall_nil].
    now apply undersized_lot_well_formed.
  - destruct Hc as [-> | [c [m [-> Hlt]]]]; [apply Forall_nil|].
    apply Forall_cons; [|apply Forall_nil].
    now apply excess_lot_coverage_well_formed.
  - destruct Hu as [-> | [r [lu [-> [H1 [H2 [H3 H4]]]]]]]; [apply Forall_nil|].
    apply Forall_cons; [|apply Forall_nil].
    now apply incompatible_use_well_formed.
Qed.

(** X1 at a parcel of zone SRB that breaks all three rules. *)
Lemma returned_violations_well_formed_witness :
  let p := mkProperty (Val "0123-0045") (Val "1 Main St") Null (Val "SRB")
             (Val "Apartment bldg") (Val 250000%Q) (Val 100000%Q) (Val (1 # 10)%Q)
             (Val (4356 # 1)%Q) (Val (1100 # 1)%Q) (Val (251 # 10)%Q) in
  exists vs,
    Reanalyze.check_zoning_violations p = Returns vs
    /\ List.length vs = 3%nat
    /\ Forall well_formed vs.
Proof.
  intros p.
  destruct (Reanalyze.check_zoning_violations p) as [vs|e] eqn:E;
    [|vm_compute in E; discriminate].
  exists vs. split; [reflexivity|]. split.
  - vm_compute in E. inversion E. reflexivity.
  - apply (returned_violations_well_formed RulesCorrected.ZONING_RULES
             RulesCorrected.classify_land_use check_lot_coverage p vs).
    + left. reflexivity.
    + exact E.
Defined.

(** X2. The violations come in the order of the checks: the types of a
    returned list are a subsequence of undersized_lot,
    excess_lot_coverage, incompatible_use. *)
Theorem returned_violations_in_check_order :
  forall (T : list (string * ZoneRule)) (cl : option string -> string)
         (cc : ZoneRule -> Property -> outcome (list Violation.t))
         (p : Property) (vs : list Violation.t),
    coverage_check_of_source cc ->
    check_zoning_violations_with T cl cc p = Returns vs ->
    In (map Violation.type vs)
       [ [];
         ["undersized_lot"]; ["excess_lot_coverage"]; ["incompatible_use"];
         ["undersized_lot"; "excess_lot_coverage"];
         ["undersized_lot"; "incompatible_use"];
         ["excess_lot_coverage"; "incompatible_use"];
         ["undersized_lot"; "excess_lot_coverage"; "incompatible_use"] ].
Proof.
  intros T cl cc p vs Hcc H.
  destruct (check_returns_cases T cl cc Hcc p vs H)
    as [size [coverage [use [-> [Hs [Hc Hu]]]]]].
  destruct Hs as [-> | [a [m [-> _]]]];
    destruct Hc as [-> | [c [mc [-> _]]]];
    destruct Hu as [-> | [r [lu [-> _]]]]; cbn; tauto.
Qed.

(** X2 at a parcel of zone GRA that is too small and of a use that the
    zone does not allow: size first, use second. *)
Lemma returned_violations_in_check_order_witness :
  let p := mkProperty (Val "0123-0045") (Val "1 Main St") Null (Val "GRA")
             (Val "RETAIL STORE") (Val 250000%Q) (Val 100000%Q) (Val (1 # 10)%Q)
             (Val (4356 # 1)%Q) (Val (1100 # 1)%Q) (Val (251 # 10)%Q) in
  exists vs,
    AnalyzeWithViolations.check_zoning_violations p = Returns vs
    /\ map Violation.type vs = ["undersized_lot"; "incompatible_use"]
    /\ In (map Violation.type vs)
          [ [];
            ["undersized_lot"]; ["excess_lot_coverage"]; ["incompatible_use"];
            ["undersized_lot"; "excess_lot_coverage"];
            ["undersized_lot"; "incompatible_use"];
            ["excess_lot_coverage"; "incompatible_use"];
            ["undersized_lot"; "excess_lot_coverage"; "incompatible_use"] ].
Proof.
  intros p.
  destruct (AnalyzeWithViolations.check_zoning_violations p) as [vs|e] eqn:E;
    [|vm_compute in E; discriminate].
  exists vs. split; [reflexivity|]. split.
  - vm_compute in E. inversion E. reflexivity.
  - apply (returned_violations_in_check_order Rules.ZONING_RULES
             Rules.classify_land_use check_lot_coverage_subscript p vs).
    + right. reflexivity.
    + exact E.
Defined.

(** ** Violation evaluator: the keys it reads *)

Lemma check_lot_size_absent (rules : ZoneRule) (p : Property) :
  truthy (min_lot_size_sqft rules) = true ->
  (parcel_area_sqft p = Absent ->
   check_lot_size rules p = Raises (KeyError "parcel_area_sqft"))
  /\ (parcel_area_sqft p = Null -> check_lot_size rules p = Raises TypeError).
Proof.
  intros Ht. unfold check_lot_size.
  destruct (min_lot_size_sqft rules) as [m|]; [|discriminate].
  rewrite Ht. split; intros ->; reflexivity.
Qed.

Lemma min_lot_set_except_municipal (T : list (string * ZoneRule)) (zone : string)
    (rules : ZoneRule) :
  forallb (fun kv => String.eqb (fst kv) "M" || truthy (min_lot_size_sqft (snd kv))) T
  = true ->
  lookup zone T = Some rules -> zone <> "M" ->
  truthy (min_lot_size_sqft rules) = true.
Proof.
  intros Hall Hl Hne. apply lookup_In in Hl.
  rewrite forallb_forall in Hall. specialize (Hall _ Hl). simpl in Hall.
  apply String.eqb_neq in Hne. now rewrite Hne in Hall.
Qed.

Lemma max_coverage_set_except_municipal (T : list (string * ZoneRule)) (zone : string)
    (rules : ZoneRule) :
  forallb (fun kv => String.eqb (fst kv) "M"
                     || truthy (max_lot_coverage_pct (snd kv))) T = true ->
  lookup zone T = Some rules -> zone <> "M" ->
  truthy (max_lot_coverage_pct rules) = true.
Proof.
  intros Hall Hl Hne. apply lookup_In in Hl.
  rewrite forallb_forall in Hall. specialize (Hall _ Hl). simpl in Hall.
  apply String.eqb_neq in Hne. now rewrite Hne in Hall.
Qed.

(** X3. A record without the derived key 'parcel_area_sqft' (such as the
    records of analyze_portsmouth_zoning.py) makes both versions of the
    evaluator raise KeyError in every zone of their rule table except
    the Municipal zone M; with the key bound to None they raise
    TypeError. *)
Theorem missing_parcel_area_raises :
  (forall (p : Property) (zone : string) (rules : ZoneRule),
     get (zoning p) = Some zone ->
     lookup zone RulesCorrected.ZONING_RULES = Some rules -> zone <> "M" ->
     (parcel_area_sqft p = Absent ->
      Reanalyze.check_zoning_violations p = Raises (KeyError "parcel_area_sqft"))
     /\ (parcel_area_sqft p = Null ->
         Reanalyze.check_zoning_violations p = Raises TypeError))
  /\ (forall (p : Property) (zone : string) (rules : ZoneRule),
        get (zoning p) = Some zone ->
        lookup zone Rules.ZONING_RULES = Some rules -> zone <> "M" ->
        (parcel_area_sqft p = Absent ->
         AnalyzeWithViolations.check_zoning_violations p
         = Raises (KeyError "parcel_area_sqft"))
        /\ (parcel_area_sqft p = Null ->
            AnalyzeWithViolations.check_zoning_violations p = Raises TypeError)).
Proof.
  split; intros p zone rules Hz Hl Hne.
  - pose proof (corrected_zone_nonempty zone rules Hl) as Hnonempty.
    pose proof (min_lot_set_except_municipal RulesCorrected.ZONING_RULES zone rules
                  eq_refl Hl Hne) as Ht.
    destruct (check_lot_size_absent rules p Ht) as [Habs Hnull].
    unfold Reanalyze.check_zoning_violations.
    rewrite (check_known_zone _ _ _ p zone rules Hz Hnonempty Hl).
    split; intros H; [rewrite (Habs H) | rewrite (Hnull H)]; reflexivity.
  - pose proof (original_zone_nonempty zone rules Hl) as Hnonempty.
    pose proof (min_lot_set_except_municipal Rules.ZONING_RULES zone rules
                  eq_refl Hl Hne) as Ht.
    destruct (check_lot_size_absent rules p Ht) as [Habs Hnull].
    unfold AnalyzeWithViolations.check_zoning_violations.
    rewrite (check_known_zone _ _ _ p zone rules Hz Hnonempty Hl).
    split; intros H; [rewrite (Habs H) | rewrite (Hnull H)]; reflexivity.
Qed.

(** X3 at a record as analyze_portsmouth_zoning.py builds it, in zone
    GRB. *)
Lemma missing_parcel_area_raises_witness :
  let p := mkProperty (Val "0123-0045") (Val "1 Main St") (Val "DOE JANE") (Val "GRB")
             (Val "TWO FAM MDL-01") (Val 400000%Q) (Val 150000%Q) (Val (1 # 4)%Q)
             Absent Absent Absent in
  Reanalyze.check_zoning_violations p = Raises (KeyError "parcel_area_sqft").
Proof.
  intros p.
  destruct missing_parcel_area_raises as [Hcorrected _].
  assert (Hne : "GRB" <> "M") by discriminate.
  exact (proj1 (Hcorrected p "GRB"
                  (mkRule "General Residence B" (Some 5000%Z) (Some 80%Z) (Some 30%Z)
                     (Some 25%Z) (Some 5%Z) (Some 10%Z) (Some 25%Z)
                     ["single_family"; "two_family"; "multi_family";
                      "accessory_dwelling"])
                  eq_refl eq_refl Hne) eq_refl).
Defined.

(** X4. The two versions differ on a record without 'lot_coverage_pct':
    reanalyze_with_corrected_rules.py reads it with a default and treats
    the record exactly as one whose coverage is 0, while
    analyze_with_violations.py subscripts it and raises KeyError in
    every zone of its table but M (once the size check has passed). *)
Theorem missing_coverage_default_or_error :
  forall p : Property,
    lot_coverage_pct p = Absent ->
    Reanalyze.check_zoning_violations p
    = Reanalyze.check_zoning_violations (with_coverage p (Val 0%Q))
    /\ (forall (zone : string) (rules : ZoneRule) (area : Q),
          get (zoning p) = Some zone ->
          lookup zone Rules.ZONING_RULES = Some rules -> zone <> "M" ->
          parcel_area_sqft p = Val area ->
          AnalyzeWithViolations.check_zoning_violations p
          = Raises (KeyError "lot_coverage_pct")).
Proof.
  intros p Hc. split.
  - unfold Reanalyze.check_zoning_violations, check_zoning_violations_with.
    change (zoning (with_coverage p (Val 0%Q))) with (zoning p).
    change (land_use_desc (with_coverage p (Val 0%Q))) with (land_use_desc p).
    destruct (get (zoning p)) as [zone|]; [|reflexivity].
    destruct (String.eqb zone ""); [reflexivity|].
    destruct (lookup zone RulesCorrected.ZONING_RULES) as [rules|]; [|reflexivity].
    assert (Hsize : check_lot_size rules (with_coverage p (Val 0%Q))
                    = check_lot_size rules p) by reflexivity.
    assert (Hcov : check_lot_coverage rules (with_coverage p (Val 0%Q))
                   = check_lot_coverage rules p).
    { unfold check_lot_coverage.
      change (lot_coverage_pct (with_coverage p (Val 0%Q))) with (@Val Q 0%Q).
      rewrite Hc.
      destruct (max_lot_coverage_pct rules) as [m|]; [|reflexivity].
      destruct (truthy (Some m)); reflexivity. }
    now rewrite Hsize, Hcov.
  - intros zone rules area Hz Hl Hne Ha.
    pose proof (original_zone_nonempty zone rules Hl) as Hnonempty.
    pose proof (max_coverage_set_except_municipal Rules.ZONING_RULES zone rules
                  eq_refl Hl Hne) as Ht.
    unfold AnalyzeWithViolations.check_zoning_violations.
    rewrite (check_known_zone _ _ _ p zone rules Hz Hnonempty Hl).
    destruct (check_lot_size_total rules p area Ha) as [size Hs]. rewrite Hs.
    cbn [bind]. unfold check_lot_coverage_subscript.
    destruct (max_lot_coverage_pct rules) as [m|]; [|discriminate].
    rewrite Ht, Hc. reflexivity.
Qed.

(** X4 at a conforming single-family parcel of zone SRA that carries no
    coverage key. *)
Lemma missing_coverage_default_or_error_witness :
  let p := mkProperty (Val "0123-0045") (Val "1 Main St") Null (Val "SRA")
             (Val "SINGLE FAM MDL-01") (Val 300000%Q) (Val 100000%Q) (Val 2%Q)
             (Val (87120 # 1)%Q) Absent Absent in
  Reanalyze.check_zoning_violations p = Returns []
  /\ Reanalyze.check_zoning_violations (with_coverage p (Val 0%Q)) = Returns []
  /\ AnalyzeWithViolations.check_zoning_violations p
     = Raises (KeyError "lot_coverage_pct").
Proof.
  intros p.
  destruct (missing_coverage_default_or_error p eq_refl) as [Hsame Herr].
  split; [reflexivity|]. split; [rewrite <- Hsame; reflexivity|].
  apply (Herr "SRA"
           (mkRule "Single Residence A" (Some 15000%Z) (Some 125%Z) (Some 20%Z)
              (Some 40%Z) (Some 35%Z) (Some 15%Z) (Some 25%Z)
              ["single_family"; "accessory_dwelling"])
           (87120 # 1)%Q); try reflexivity.
  discriminate.
Defined.

(** X5. In a zone whose rule sets neither a minimum lot size nor a
    maximum coverage (the Municipal zone M of both tables) the evaluator
    reads no numeric key: on any record, even one without them, it
    returns, and what it returns is the outcome of the land-use check
    alone. *)
Theorem zone_without_thresholds_reads_no_number :
  forall (T : list (string * ZoneRule)) (cl : option string -> string)
         (cc : ZoneRule -> Property -> outcome (list Violation.t))
         (p : Property) (zone : string) (rules : ZoneRule),
    coverage_check_of_source cc ->
    get (zoning p) = Some zone -> zone <> "" -> lookup zone T = Some rules ->
    truthy (min_lot_size_sqft rules) = false ->
    truthy (max_lot_coverage_pct rules) = false ->
    check_zoning_violations_with T cl cc p
    = Returns (check_land_use rules (cl (get_default (land_use_desc p) ""))).
Proof.
  intros T cl cc p zone rules Hcc Hz Hne Hl Hmin Hmax.
  rewrite (check_known_zone T cl cc p zone rules Hz Hne Hl).
  assert (Hs : check_lot_size rules p = Returns []).
  { unfold check_lot_size.
    destruct (min_lot_size_sqft rules) as [m|]; [now rewrite Hmin | reflexivity]. }
  assert (Hc : cc rules p = Returns []).
  { destruct Hcc as [-> | ->];
      [unfold check_lot_coverage | unfold check_lot_coverage_subscript];
      (destruct (max_lot_coverage_pct rules) as [m|];
       [now rewrite Hmax | reflexivity]). }
  rewrite Hs, Hc. reflexivity.
Qed.

(** X5 at a school in zone M whose record has no derived key. *)
Lemma zone_without_thresholds_reads_no_number_witness :
  let p := mkProperty (Val "0500-0001") (Val "50 School St") Null (Val "M")
             (Val "MUNICIPAL SCHOOL") (Val 900000%Q) (Val 400000%Q) (Val 3%Q)
             Absent Absent Absent in
  Reanalyze.check_zoning_violations p = Returns [].
Proof.
  intros p.
  assert (Hcc : coverage_check_of_source check_lot_coverage) by (left; reflexivity).
  assert (Hne : "M" <> "") by discriminate.
  exact (zone_without_thresholds_reads_no_number RulesCorrected.ZONING_RULES
           RulesCorrected.classify_land_use check_lot_coverage p "M"
           (mkRule "Municipal" None None None None None None None
              ["municipal"; "public"])
           Hcc eq_refl Hne eq_refl eq_refl eq_refl).
Defined.

(** ** Land-use classifier: case and range *)

Lemma upper_ascii_idempotent (c : ascii) : upper_ascii (upper_ascii c) = upper_ascii c.
Proof. destruct c as [[] [] [] [] [] [] [] []]; reflexivity. Qed.

Lemma upper_idempotent (s : string) : upper (upper s) = upper s.
Proof.
  induction s as [|c s IH]; simpl; [reflexivity|].
  now rewrite upper_ascii_idempotent, IH.
Qed.

Lemma classify_by_upper (table : list (string * string)) (desc : string) :
  classify_land_use_with table (Some desc) =
  match upper desc with
  | EmptyString => "unknown"
  | _ => classify_scan table (upper desc)
  end.
Proof. destruct desc; reflexivity. Qed.

Lemma classify_scan_range (table : list (string * string)) (u : string) :
  In (classify_scan table u) ("other" :: map snd table).
Proof.
  induction table as [|[k v] table IH]; simpl; [now left|].
  destruct (contains k u); [right; now left|].
  destruct IH as [IH | IH]; [now left | right; now right].
Qed.

(** X6. The classifier ignores the case of ASCII letters (two
    descriptions with the same uppercase form get the same category, so
    a description and its uppercase form do), and its answer is always
    one of twelve categories: 'unknown', 'other' or a value of
    LAND_USE_CLASSIFICATIONS.  Uses such as 'accessory_dwelling',
    'manufacturing' or 'marine', which rule tables allow, are never its
    answer. *)
Theorem classify_land_use_case_and_range :
  (forall d1 d2 : string,
     upper d1 = upper d2 ->
     RulesCorrected.classify_land_use (Some d1)
     = RulesCorrected.classify_land_use (Some d2))
  /\ (forall d : string,
        RulesCorrected.classify_land_use (Some (upper d))
        = RulesCorrected.classify_land_use (Some d))
  /\ (forall d : option string,
        In (RulesCorrected.classify_land_use d)
           ["unknown"; "other"; "single_family"; "two_family"; "multi_family";
            "commercial"; "retail"; "office"; "industrial"; "municipal"; "vacant";
            "mixed_use"]).
Proof.
  unfold RulesCorrected.classify_land_use.
  assert (Hsame : forall d1 d2 : string,
            upper d1 = upper d2 ->
            classify_land_use_with RulesCorrected.LAND_USE_CLASSIFICATIONS (Some d1)
            = classify_land_use_with RulesCorrected.LAND_USE_CLASSIFICATIONS (Some d2)).
  { intros d1 d2 H. rewrite !classify_by_upper. now rewrite H. }
  split; [exact Hsame|]. split.
  - intros d. apply Hsame. apply upper_idempotent.
  - intros [d|]; [|now left].
    rewrite classify_by_upper.
    destruct (upper d) eqn:E; [now left|].
    pose proof (classify_scan_range RulesCorrected.LAND_USE_CLASSIFICATIONS
                  (String a s)) as H.
    apply mem_iff.
    assert (Hall : forallb
                     (fun v => mem v ["unknown"; "other"; "single_family"; "two_family";
                                      "multi_family"; "commercial"; "retail"; "office";
                                      "industrial"; "municipal"; "vacant"; "mixed_use"])
                     ("other" :: map snd RulesCorrected.LAND_USE_CLASSIFICATIONS)
                   = true) by reflexivity.
    rewrite forallb_forall in Hall. exact (Hall _ H).
Qed.

(** X6 on a description in mixed case. *)
Lemma classify_land_use_case_and_range_witness :
  RulesCorrected.classify_land_use (Some "Two Fam mdl-01")
  = RulesCorrected.classify_land_use (Some "TWO FAM MDL-01")
  /\ RulesCorrected.classify_land_use (Some "Two Fam mdl-01") = "two_family".
Proof.
  destruct classify_land_use_case_and_range as [Hsame _].
  split; [apply Hsame|]; reflexivity.
Defined.

(** In every zone of both tables some use is allowed and 'other' is
    not. *)
Lemma other_never_allowed (T : list (string * ZoneRule)) (zone : string)
    (rules : ZoneRule) :
  forallb (fun kv => negb (mem "other" (allowed_uses (snd kv)))
                     && negb (Nat.eqb (List.length (allowed_uses (snd kv))) 0)) T
  = true ->
  lookup zone T = Some rules ->
  mem "other" (allowed_uses rules) = false
  /\ Nat.eqb (List.length (allowed_uses rules)) 0 = false.
Proof.
  intros Hall Hl. apply lookup_In in Hl.
  rewrite forallb_forall in Hall. specialize (Hall _ Hl). simpl in Hall.
  apply andb_true_iff in Hall. destruct Hall as [H1 H2].
  apply negb_true_iff in H1. apply negb_true_iff in H2. now split.
Qed.

(** X7. A record whose description matches no key of the classification
    table (classified 'other') is reported as an incompatible_use in
    every zone of the rule table, whatever the zone allows: 'other' is
    in no allowed_uses list. *)
Theorem unclassified_use_is_incompatible_everywhere :
  forall (p : Property) (zone : string) (rules : ZoneRule) (area coverage : Q),
    get (zoning p) = Some zone ->
    lookup zone RulesCorrected.ZONING_RULES = Some rules ->
    parcel_area_sqft p = Val area ->
    lot_coverage_pct p = Val coverage ->
    RulesCorrected.classify_land_use (get_default (land_use_desc p) "") = "other" ->
    exists vs,
      Reanalyze.check_zoning_violations p = Returns vs
      /\ of_type "incompatible_use" vs = [incompatible_use rules "other"].
Proof.
  intros p zone rules area coverage Hz Hl Ha Hc Hother.
  pose proof (corrected_zone_nonempty zone rules Hl) as Hne.
  destruct (check_domain_returns RulesCorrected.ZONING_RULES
              RulesCorrected.classify_land_use p zone rules area coverage
              Hz Hne Hl Ha Hc) as [size [cov [Hs [Hcov Hv]]]].
  eexists. split; [exact Hv|].
  rewrite (of_type_incompatible rules p _ size cov Hs Hcov).
  rewrite Hother, check_land_use_value.
  destruct (other_never_allowed RulesCorrected.ZONING_RULES zone rules eq_refl Hl)
    as [H1 H2].
  rewrite H1, H2. reflexivity.
Qed.

(** X7 at a church on a conforming lot of zone GRA. *)
Lemma unclassified_use_is_incompatible_everywhere_witness :
  exists vs v,
    Reanalyze.check_zoning_violations
      (mkProperty (Val "0123-0045") (Val "1 Main St") Null (Val "GRA")
         (Val "CHURCH") (Val 800000%Q) (Val 300000%Q) (Val 1%Q)
         (Val (43560 # 1)%Q) (Val (4000 # 1)%Q) (Val (4000 # 43560 * 100)%Q))
    = Returns vs
    /\ of_type "incompatible_use" vs = [v]
    /\ Violation.current_use v = Some "other".
Proof.
  destruct (unclassified_use_is_incompatible_everywhere
              (mkProperty (Val "0123-0045") (Val "1 Main St") Null (Val "GRA")
                 (Val "CHURCH") (Val 800000%Q) (Val 300000%Q) (Val 1%Q)
                 (Val (43560 # 1)%Q) (Val (4000 # 1)%Q)
                 (Val (4000 # 43560 * 100)%Q))
              "GRA"
              (mkRule "General Residence A" (Some 7500%Z) (Some 100%Z) (Some 25%Z)
                 (Some 30%Z) (Some 15%Z) (Some 10%Z) (Some 20%Z)
                 ["single_family"; "two_family"; "multi_family"; "accessory_dwelling"])
              (43560 # 1)%Q (4000 # 43560 * 100)%Q
              eq_refl eq_refl eq_refl eq_refl eq_refl) as [vs [Hv Ht]].
  exists vs, (incompatible_use
                (mkRule "General Residence A" (Some 7500%Z) (Some 100%Z) (Some 25%Z)
                   (Some 30%Z) (Some 15%Z) (Some 10%Z) (Some 20%Z)
                   ["single_family"; "two_family"; "multi_family";
                    "accessory_dwelling"])
                "other").
  repeat split; assumption.
Defined.

(** ** Violation aggregator: lists and totals *)

Lemma sum_over_zones_update (count : ZoneViolations.t -> nat) (delta : nat)
    (f : ZoneViolations.t -> ZoneViolations.t) (zone : string)
    (by_zone : list (string * ZoneViolations.t)) :
  count ZoneViolations.empty = 0%nat ->
  (forall s, count (f s) = (count s + delta)%nat) ->
  sum_over_zones count (update ZoneViolations.empty zone f by_zone)
  = (sum_over_zones count by_zone + delta)%nat.
Proof.
  intros H0 Hf. unfold sum_over_zones.
  induction by_zone as [|[k s] by_zone IH]; simpl.
  - rewrite Hf, H0. lia.
  - destruct (String.eqb zone k); simpl.
    + rewrite Hf. lia.
    + rewrite IH. lia.
Qed.

Lemma sum_over_zones_count_types (count : ZoneViolations.t -> nat) (zone : string)
    (vs : list Violation.t) (by_zone : list (string * ZoneViolations.t)) :
  count ZoneViolations.empty = 0%nat ->
  (forall type s, count (add_violation_type type s) = count s) ->
  sum_over_zones count (count_types zone vs by_zone) = sum_over_zones count by_zone.
Proof.
  intros H0 Hf. unfold count_types. revert by_zone.
  induction vs as [|v vs IH]; intros by_zone; simpl; [reflexivity|].
  rewrite IH.
  rewrite (sum_over_zones_update count 0 _ zone by_zone H0).
  - lia.
  - intros s. rewrite Hf. lia.
Qed.

(** What one run of the loop body adds to the flat list and to the
    totals over the zones. *)
Lemma analyze_step_totals (check : Property -> outcome (list Violation.t)) (cap : nat)
    (st st' : Analysis.t) (p : Property) (zone : string) :
  zone_of (Some p) = Some zone ->
  analyze_step check cap st (Some p) = Returns st' ->
  exists vs,
    check p = Returns vs
    /\ Analysis.all_violations st'
       = Analysis.all_violations st ++ (if is_empty vs then [] else [(p, vs)])
    /\ sum_over_zones ZoneViolations.total_parcels (Analysis.violations_by_zone st')
       = (sum_over_zones ZoneViolations.total_parcels (Analysis.violations_by_zone st)
          + 1)%nat
    /\ sum_over_zones ZoneViolations.parcels_with_violations
         (Analysis.violations_by_zone st')
       = (sum_over_zones ZoneViolations.parcels_with_violations
            (Analysis.violations_by_zone st)
          + if is_empty vs then 0 else 1)%nat.
Proof.
  intros Hz. unfold analyze_step. rewrite Hz.
  destruct (check p) as [vs|e]; [|discriminate]. cbn [bind].
  assert (Hparcel : forall count delta,
            count ZoneViolations.empty = 0%nat ->
            (forall s, count (add_parcel s) = (count s + delta)%nat) ->
            sum_over_zones count
              (update ZoneViolations.empty zone add_parcel
                 (Analysis.violations_by_zone st))
            = (sum_over_zones count (Analysis.violations_by_zone st) + delta)%nat).
  { intros count delta H0 Hf. now apply sum_over_zones_update. }
  destruct vs as [|v vs].
  - intros H. inversion H. exists []. cbn [is_empty Analysis.all_violations
                                            Analysis.violations_by_zone].
    split; [reflexivity|]. split; [now rewrite app_nil_r|]. split.
    + apply Hparcel; [reflexivity | intros s; reflexivity].
    + rewrite (Hparcel ZoneViolations.parcels_with_violations 0%nat);
        [lia | reflexivity | intros s; simpl; lia].
  - set (d1 := update ZoneViolations.empty zone add_parcel
                 (Analysis.violations_by_zone st)) in *.
    set (d2 := update ZoneViolations.empty zone add_violating_parcel d1).
    set (d3 := count_types zone (v :: vs) d2).
    assert (Htotal : sum_over_zones ZoneViolations.total_parcels d3
                     = (sum_over_zones ZoneViolations.total_parcels
                          (Analysis.violations_by_zone st) + 1)%nat).
    { unfold d3. rewrite sum_over_zones_count_types;
        [|reflexivity | intros; reflexivity].
      unfold d2. rewrite (sum_over_zones_update _ 0%nat);
        [|reflexivity | intros s; simpl; lia].
      rewrite (Hparcel ZoneViolations.total_parcels 1%nat);
        [lia | reflexivity | intros s; reflexivity]. }
    assert (Hviol : sum_over_zones ZoneViolations.parcels_with_violations d3
                    = (sum_over_zones ZoneViolations.parcels_with_violations
                         (Analysis.violations_by_zone st) + 1)%nat).
    { unfold d3. rewrite sum_over_zones_count_types;
        [|reflexivity | intros; reflexivity].
      unfold d2. rewrite (sum_over_zones_update _ 1%nat);
        [|reflexivity | intros s; reflexivity].
      rewrite (Hparcel ZoneViolations.parcels_with_violations 0%nat);
        [lia | reflexivity | intros s; simpl; lia]. }
    unfold store_example.
    destruct (Nat.ltb _ cap).
    + destruct (address p) as [| |a]; try discriminate;
        (destruct (parcel_id p) as [| |i]; try discriminate);
        cbn [subscript bind]; intros H; inversion H; exists (v :: vs);
        cbn [is_empty Analysis.all_violations Analysis.violations_by_zone];
        (split; [reflexivity|]); (split; [reflexivity|]);
        rewrite !(sum_over_zones_update _ 0%nat);
        try reflexivity; try (intros s; simpl; lia);
        rewrite Htotal, Hviol; split; lia.
    + cbn [bind]. intros H. inversion H. exists (v :: vs).
      cbn [is_empty Analysis.all_violations Analysis.violations_by_zone].
      split; [reflexivity|]. split; [reflexivity|]. split; assumption.
Qed.

Lemma analyze_loop_totals (check : Property -> outcome (list Violation.t)) (cap : nat)
    (props : list (option Property)) :
  forall st st',
    for_each (analyze_step check cap) props st = Returns st' ->
    Analysis.all_violations st' = Analysis.all_violations st ++ violating check props
    /\ sum_over_zones ZoneViolations.total_parcels (Analysis.violations_by_zone st')
       = (sum_over_zones ZoneViolations.total_parcels (Analysis.violations_by_zone st)
          + List.length (filter kept props))%nat
    /\ sum_over_zones ZoneViolations.parcels_with_violations
         (Analysis.violations_by_zone st')
       = (sum_over_zones ZoneViolations.parcels_with_violations
            (Analysis.violations_by_zone st)
          + List.length (violating check props))%nat.
Proof.
  induction props as [|prop props IH]; intros st st' H.
  - inversion H. simpl. rewrite app_nil_r. repeat split; lia.
  - cbn [for_each] in H. apply bind_returns in H. destruct H as [st1 [Hstep Hrest]].
    destruct (IH st1 st' Hrest) as [Hall [Htot Hviol]].
    destruct (zone_of prop) as [zone|] eqn:Hz.
    + destruct prop as [p|]; [|discriminate].
      destruct (analyze_step_totals check cap st st1 p zone Hz Hstep)
        as [vs [Hc [Ha1 [Ht1 Hv1]]]].
      assert (Hhead : violating check (Some p :: props)
                      = (if is_empty vs then [] else [(p, vs)])
                        ++ violating check props).
      { unfold violating. cbn [flat_map]. unfold kept, violations_of.
        rewrite Hz, Hc. cbn [andb]. now destruct vs. }
      assert (Hkept : List.length (filter kept (Some p :: props))
                      = S (List.length (filter kept props))).
      { cbn [filter]. unfold kept at 1. rewrite Hz. reflexivity. }
      rewrite Hhead, Hkept, length_app, Hall, Htot, Hviol, Ha1, Ht1, Hv1.
      rewrite <- app_assoc. split; [reflexivity|]. split; [lia|].
      destruct vs; simpl; lia.
    + rewrite (analyze_step_skipped check cap st prop Hz) in Hstep.
      inversion Hstep. subst st1.
      assert (Hhead : violating check (prop :: props) = violating check props).
      { unfold violating. cbn [flat_map]. unfold kept. rewrite Hz.
        now destruct prop. }
      assert (Hkept : filter kept (prop :: props) = filter kept props).
      { cbn [filter]. unfold kept at 1. now rewrite Hz. }
      rewrite Hhead, Hkept. repeat split; assumption.
Qed.

(** X8. On a collection of the aggregator's domain, all_violations
    lists exactly the records that are kept and have at least one
    violation, in the order of the collection, each with the list the
    evaluator returned for it; the example cap plays no part in it. *)
Theorem all_violations_lists_violating_records :
  forall (check : Property -> outcome (list Violation.t)) (cap : nat)
         (props : list (option Property)),
    Forall (aggregator_domain check) props ->
    exists res,
      analyze_with check cap props = Returns res
      /\ Analysis.all_violations res = violating check props.
Proof.
  intros check cap props Hdom.
  destruct (analyze_with_summarises check cap props Hdom) as [res [Hres _]].
  exists res. split; [exact Hres|].
  destruct (analyze_loop_totals check cap props _ _ Hres) as [Hall _].
  exact Hall.
Qed.

(** X9. The totals of the aggregator's result: the total_parcels of all
    zones add up to the number of records kept, and the
    parcels_with_violations of all zones add up to the length of
    all_violations, so that the report line "Total Violations Found",
    which prints that length, counts violating parcels and not
    violations. *)
Theorem totals_over_zones :
  forall (check : Property -> outcome (list Violation.t)) (cap : nat)
         (props : list (option Property)),
    Forall (aggregator_domain check) props ->
    exists res,
      analyze_with check cap props = Returns res
      /\ sum_over_zones ZoneViolations.total_parcels (Analysis.violations_by_zone res)
         = List.length (filter kept props)
      /\ sum_over_zones ZoneViolations.parcels_with_violations
           (Analysis.violations_by_zone res)
         = List.length (Analysis.all_violations res).
Proof.
  intros check cap props Hdom.
  destruct (analyze_with_summarises check cap props Hdom) as [res [Hres _]].
  exists res. split; [exact Hres|].
  destruct (analyze_loop_totals check cap props _ _ Hres) as [Hall [Htot Hviol]].
  rewrite Htot, Hviol, Hall. simpl. split; reflexivity.
Qed.

(** X8 on a collection that mixes an empty record, an undersized parcel
    and a conforming one. *)
Lemma all_violations_lists_violating_records_witness :
  let parcel area :=
    Some (mkProperty (Val "0123-0045") (Val "1 Main St") Null (Val "SRB")
            (Val "SINGLE FAM MDL-01") (Val 300000%Q) (Val 100000%Q) (Val (1 # 10)%Q)
            (Val area) (Val 0%Q) (Val 0%Q)) in
  let props := [None; parcel (4356 # 1)%Q; parcel (20000 # 1)%Q] in
  Forall (aggregator_domain Reanalyze.check_zoning_violations) props
  /\ exists res,
       analyze_with Reanalyze.check_zoning_violations 10 props = Returns res
       /\ Analysis.all_violations res
          = violating Reanalyze.check_zoning_violations props.
Proof.
  intros parcel props.
  assert (Hdom : Forall (aggregator_domain Reanalyze.check_zoning_violations) props).
  { repeat constructor; try discriminate; eexists; vm_compute; reflexivity. }
  split; [exact Hdom|].
  exact (all_violations_lists_violating_records
           Reanalyze.check_zoning_violations 10 props Hdom).
Defined.

(** X9 on a collection over two zones with an empty record. *)
Lemma totals_over_zones_witness :
  let parcel zone area :=
    Some (mkProperty (Val "0123-0045") (Val "1 Main St") Null (Val zone)
            (Val "SINGLE FAM MDL-01") (Val 300000%Q) (Val 100000%Q) (Val (1 # 10)%Q)
            (Val area) (Val 0%Q) (Val 0%Q)) in
  let props := [parcel "SRB" (4356 # 1)%Q; None; parcel "GRA" (4356 # 1)%Q;
                parcel "SRB" (20000 # 1)%Q] in
  Forall (aggregator_domain Reanalyze.check_zoning_violations) props
  /\ exists res,
       analyze_with Reanalyze.check_zoning_violations 10 props = Returns res
       /\ sum_over_zones ZoneViolations.total_parcels (Analysis.violations_by_zone res)
          = List.length (filter kept props)
       /\ sum_over_zones ZoneViolations.parcels_with_violations
            (Analysis.violations_by_zone res)
          = List.length (Analysis.all_violations res).
Proof.
  intros parcel props.
  assert (Hdom : Forall (aggregator_domain Reanalyze.check_zoning_violations) props).
  { repeat constructor; try discriminate; eexists; vm_compute; reflexivity. }
  split; [exact Hdom|].
  exact (totals_over_zones Reanalyze.check_zoning_violations 10 props Hdom).
Defined.

(** The examples of the entry written by the loop body. *)
Lemma entry_after_examples (cap : nat) (a i : option string) (vs : list Violation.t)
    (s : ZoneViolations.t) :
  ZoneViolations.examples (entry_after cap a i vs s)
  = if is_empty vs then ZoneViolations.examples s
    else if Nat.ltb (List.length (ZoneViolations.examples s)) cap
         then ZoneViolations.examples s ++ [Example.mk a i vs]
         else ZoneViolations.examples s.
Proof.
  unfold entry_after. destruct vs as [|v vs]; [reflexivity|].
  destruct (fold_types_counts (v :: vs) (add_violating_parcel (add_parcel s)))
    as [_ [_ [H3 _]]].
  cbv zeta in H3. cbn [is_empty]. rewrite H3.
  cbn [add_violating_parcel add_parcel ZoneViolations.examples].
  destruct (Nat.ltb (List.length (ZoneViolations.examples s)) cap).
  - cbn [add_example ZoneViolations.examples]. now rewrite H3.
  - exact H3.
Qed.

Lemma firstn_full_app {A : Type} (n : nat) (l rest : list A) :
  List.length l = n -> firstn n (l ++ rest) = l.
Proof.
  intros H. rewrite firstn_app, H, Nat.sub_diag, firstn_O, app_nil_r.
  rewrite <- H. apply firstn_all.
Qed.

Lemma analyze_loop_examples (check : Property -> outcome (list Violation.t))
    (cap : nat) (props : list (option Property)) :
  Forall (aggregator_domain check) props ->
  forall st st',
    for_each (analyze_step check cap) props st = Returns st' ->
    forall zone,
      (List.length
         (ZoneViolations.examples
            (lookup_default ZoneViolations.empty zone (Analysis.violations_by_zone st)))
       <= cap)%nat ->
      ZoneViolations.examples
        (lookup_default ZoneViolations.empty zone (Analysis.violations_by_zone st'))
      = firstn cap
          (ZoneViolations.examples
             (lookup_default ZoneViolations.empty zone (Analysis.violations_by_zone st))
           ++ zone_examples check zone props).
Proof.
  induction 1 as [|prop props Hdom _ IH]; intros st st' Hrun zone Hle.
  - inversion Hrun. subst st'. simpl. rewrite app_nil_r.
    symmetry. now apply firstn_all2.
  - cbn [for_each] in Hrun. apply bind_returns in Hrun.
    destruct Hrun as [st1 [Hstep Hrest]].
    destruct (zone_of prop) as [z0|] eqn:Hz.
    + destruct prop as [p|]; [|discriminate].
      unfold aggregator_domain in Hdom. rewrite Hz in Hdom.
      destruct Hdom as [[vs Hc] [Ha Hi]].
      destruct (analyze_step_kept check cap st p z0 vs Hz Hc Ha Hi)
        as [st1' [Hstep' Hl1]].
      rewrite Hstep in Hstep'. inversion Hstep'. subst st1'. clear Hstep'.
      assert (Hin : in_zone zone (Some p) = String.eqb zone z0).
      { unfold in_zone. rewrite Hz. apply String.eqb_sym. }
      assert (Hhead : zone_examples check zone (Some p :: props)
                      = (if String.eqb zone z0 && negb (is_empty vs)
                         then [Example.mk (get (address p)) (get (parcel_id p)) vs]
                         else [])
                        ++ zone_examples check zone props).
      { unfold zone_examples. cbn [flat_map]. rewrite Hin.
        unfold violations_of. rewrite Hc. reflexivity. }
      assert (HV : lookup_default ZoneViolations.empty zone
                     (Analysis.violations_by_zone st1)
                   = if String.eqb zone z0
                     then entry_after cap (get (address p)) (get (parcel_id p)) vs
                            (lookup_default ZoneViolations.empty z0
                               (Analysis.violations_by_zone st))
                     else lookup_default ZoneViolations.empty zone
                            (Analysis.violations_by_zone st)).
      { unfold lookup_default at 1. rewrite Hl1.
        destruct (String.eqb zone z0); reflexivity. }
      rewrite Hhead.
      destruct (String.eqb zone z0) eqn:E.
      * apply String.eqb_eq in E. subst zone.
        set (s0 := lookup_default ZoneViolations.empty z0
                     (Analysis.violations_by_zone st)) in *.
        destruct (entry_after_counts cap (get (address p)) (get (parcel_id p)) vs s0)
          as [_ [_ [_ E4]]].
        cbv zeta in E4.
        rewrite (IH st1 st' Hrest z0); rewrite HV; [|now apply E4].
        rewrite entry_after_examples.
        destruct vs as [|v vs]; cbn [is_empty negb andb]; [reflexivity|].
        destruct (Nat.ltb (List.length (ZoneViolations.examples s0)) cap) eqn:El.
        -- now rewrite <- app_assoc.
        -- apply Nat.ltb_ge in El.
           assert (Hlen : List.length (ZoneViolations.examples s0) = cap) by lia.
           now rewrite !firstn_full_app.
      * rewrite (IH st1 st' Hrest zone); rewrite HV; [reflexivity | exact Hle].
    + rewrite (analyze_step_skipped check cap st prop Hz) in Hstep.
      inversion Hstep. subst st1.
      assert (Hhead : zone_examples check zone (prop :: props)
                      = zone_examples check zone props).
      { unfold zone_examples. cbn [flat_map]. unfold in_zone. rewrite Hz.
        now destruct prop. }
      rewrite Hhead. now apply IH.
Qed.

(** X10. On a collection of the aggregator's domain, the examples of a
    zone are the first [cap] violating records of that zone, in the
    order of the collection, each with its address, its parcel_id and
    the whole list of its violations; later violating records of the
    zone are counted but leave no example. *)
Theorem examples_are_first_violating_records :
  forall (check : Property -> outcome (list Violation.t)) (cap : nat)
         (props : list (option Property)),
    Forall (aggregator_domain check) props ->
    exists res,
      analyze_with check cap props = Returns res
      /\ forall zone,
           ZoneViolations.examples
             (lookup_default ZoneViolations.empty zone
                (Analysis.violations_by_zone res))
           = firstn cap (zone_examples check zone props).
Proof.
  intros check cap props Hdom.
  destruct (analyze_with_summarises check cap props Hdom) as [res [Hres _]].
  exists res. split; [exact Hres|].
  intros zone.
  rewrite (analyze_loop_examples check cap props Hdom _ _ Hres zone).
  - reflexivity.
  - simpl. lia.
Qed.

(** X10 on three undersized parcels of zone SRB and a cap of two: the
    third leaves no example. *)
Lemma examples_are_first_violating_records_witness :
  let parcel id :=
    Some (mkProperty (Val id) (Val "1 Main St") Null (Val "SRB")
            (Val "SINGLE FAM MDL-01") (Val 300000%Q) (Val 100000%Q) (Val (1 # 10)%Q)
            (Val (4356 # 1)%Q) (Val 0%Q) (Val 0%Q)) in
  let props := [parcel "0001"; parcel "0002"; parcel "0003"] in
  Forall (aggregator_domain Reanalyze.check_zoning_violations) props
  /\ exists res,
       analyze_with Reanalyze.check_zoning_violations 2 props = Returns res
       /\ forall zone,
            ZoneViolations.examples
              (lookup_default ZoneViolations.empty zone
                 (Analysis.violations_by_zone res))
            = firstn 2 (zone_examples Reanalyze.check_zoning_violations zone props).
Proof.
  intros parcel props.
  assert (Hdom : Forall (aggregator_domain Reanalyze.check_zoning_violations) props).
  { repeat constructor; try discriminate; eexists; vm_compute; reflexivity. }
  split; [exact Hdom|].
  exact (examples_are_first_violating_records
           Reanalyze.check_zoning_violations 2 props Hdom).
Defined.

(** No record of a zone outside the rule table is a violating one. *)
Lemma unknown_zone_found_nothing (T : list (string * ZoneRule))
    (cl : option string -> string)
    (cc : ZoneRule -> Property -> outcome (list Violation.t))
    (zone : string) (prop : option Property) :
  lookup zone T = None -> in_zone zone prop = true ->
  found (check_zoning_violations_with T cl cc) prop = [].
Proof.
  intros Hl Hin. destruct prop as [p|]; [|reflexivity].
  unfold in_zone, zone_of in Hin.
  destruct (get (zoning p)) as [z|] eqn:Hz; [|discriminate].
  destruct (String.eqb z "") eqn:Ee; [discriminate|].
  apply String.eqb_eq in Hin. subst z.
  unfold found, violations_of.
  rewrite (check_unknown_zone T cl cc p); [reflexivity|].
  right. right. exists zone. split; assumption.
Qed.

(** A zone that no record of the collection carries gets no entry. *)
Lemma analyze_loop_no_entry (check : Property -> outcome (list Violation.t))
    (cap : nat) (zone : string) (props : list (option Property)) :
  (forall prop, In prop props -> in_zone zone prop = false) ->
  forall st st',
    for_each (analyze_step check cap) props st = Returns st' ->
    lookup zone (Analysis.violations_by_zone st) = None ->
    lookup zone (Analysis.violations_by_zone st') = None.
Proof.
  induction props as [|prop props IH]; intros Hno st st' Hrun Hst.
  - inversion Hrun. now subst.
  - cbn [for_each] in Hrun. apply bind_returns in Hrun.
    destruct Hrun as [st1 [Hstep Hrest]].
    apply (IH (fun q Hq => Hno q (or_intror Hq)) st1 st' Hrest).
    pose proof (Hno prop (or_introl eq_refl)) as Hp.
    destruct (zone_of prop) as [z0|] eqn:Hz.
    + destruct prop as [p|]; [|discriminate].
      unfold in_zone in Hp. rewrite Hz in Hp.
      assert (Hz0 : String.eqb zone z0 = false)
        by (now rewrite String.eqb_sym).
      revert Hstep. unfold analyze_step. rewrite Hz.
      destruct (check p) as [vs|e]; [|discriminate]. cbn [bind].
      destruct vs as [|v vs].
      * intros H. inversion H. simpl. now rewrite lookup_update, Hz0.
      * assert (H3 : lookup zone
                       (count_types z0 (v :: vs)
                          (update ZoneViolations.empty z0 add_violating_parcel
                             (update ZoneViolations.empty z0 add_parcel
                                (Analysis.violations_by_zone st)))) = None).
        { unfold count_types.
          set (d := update ZoneViolations.empty z0 add_violating_parcel _).
          assert (Hd : lookup zone d = None).
          { unfold d. now rewrite !lookup_update, Hz0. }
          clearbody d. revert d Hd.
          generalize (v :: vs) as l.
          induction l as [|w l IHl]; intros d Hd; simpl; [exact Hd|].
          apply IHl. now rewrite lookup_update, Hz0. }
        unfold store_example.
        destruct (Nat.ltb _ cap).
        -- destruct (address p) as [| |a]; try discriminate;
             (destruct (parcel_id p) as [| |i]; try discriminate);
             cbn [subscript bind]; intros H; inversion H; simpl;
             now rewrite lookup_update, Hz0.
        -- cbn [bind]. intros H. inversion H. simpl. exact H3.
    + rewrite (analyze_step_skipped check cap st prop Hz) in Hstep.
      inversion Hstep. now subst.
Qed.

Lemma count_parcels_zero (zone : string) (props : list (option Property)) :
  count_parcels zone props = 0%nat ->
  forall prop, In prop props -> in_zone zone prop = false.
Proof.
  unfold count_parcels.
  induction props as [|prop props IH]; intros Hc q Hq; [contradiction|].
  destruct Hq as [Hq|Hq].
  - subst q. cbn [map list_sum] in Hc.
    destruct (in_zone zone prop); [discriminate | reflexivity].
  - apply IH; [|exact Hq]. cbn [map list_sum] in Hc.
    destruct (in_zone zone prop); [discriminate | exact Hc].
Qed.

Lemma list_sum_zero {A : Type} (f : A -> nat) (l : list A) :
  (forall x, f x = 0%nat) -> list_sum (map f l) = 0%nat.
Proof.
  intros H. induction l as [|x l IH]; simpl; [reflexivity|]. now rewrite H, IH.
Qed.

Lemma flat_map_nil {A B : Type} (f : A -> list B) (l : list A) :
  (forall x, f x = []) -> flat_map f l = [].
Proof.
  intros H. induction l as [|x l IH]; simpl; [reflexivity|]. now rewrite H, IH.
Qed.

(** X11. A zone code that is not a key of the rule table still gets an
    entry in violations_by_zone as soon as one record carries it: the
    entry counts the records in total_parcels, and its
    parcels_with_violations is 0, every count of violations_by_type is 0
    and it has no example. *)
Theorem unknown_zone_listed_without_violations :
  forall (props : list (option Property)) (zone : string),
    Forall (aggregator_domain Reanalyze.check_zoning_violations) props ->
    lookup zone RulesCorrected.ZONING_RULES = None ->
    exists res,
      analyze_violations props = Returns res
      /\ match lookup zone (Analysis.violations_by_zone res) with
         | Some s =>
             ZoneViolations.total_parcels s = count_parcels zone props
             /\ (1 <= ZoneViolations.total_parcels s)%nat
             /\ ZoneViolations.parcels_with_violations s = 0%nat
             /\ (forall type,
                   lookup_default 0%nat type (ZoneViolations.violations_by_type s)
                   = 0%nat)
             /\ ZoneViolations.examples s = []
         | None => count_parcels zone props = 0%nat
         end.
Proof.
  intros props zone Hdom Hl.
  destruct (analyze_with_summarises Reanalyze.check_zoning_violations 10 props Hdom)
    as [res [Hres Hsum]].
  exists res. split; [exact Hres|].
  pose proof (analyze_loop_examples _ 10 props Hdom _ _ Hres zone) as Hex.
  specialize (Hsum zone).
  assert (Hnone : forall prop, in_zone zone prop = true ->
                    found Reanalyze.check_zoning_violations prop = []).
  { intros prop. now apply unknown_zone_found_nothing. }
  assert (Hviol : count_violating Reanalyze.check_zoning_violations zone props
                  = 0%nat).
  { unfold count_violating. apply list_sum_zero. intros prop.
    destruct (in_zone zone prop) eqn:E; [|reflexivity].
    now rewrite (Hnone prop E). }
  assert (Htype : forall type,
            count_of_type Reanalyze.check_zoning_violations zone type props = 0%nat).
  { intros type. unfold count_of_type. apply list_sum_zero. intros prop.
    destruct (in_zone zone prop) eqn:E; [|reflexivity].
    now rewrite (Hnone prop E). }
  assert (Hzex : zone_examples Reanalyze.check_zoning_violations zone props = []).
  { unfold zone_examples. apply flat_map_nil. intros [p|]; [|reflexivity].
    destruct (in_zone zone (Some p)) eqn:E; [|reflexivity].
    pose proof (Hnone (Some p) E) as Hf. unfold found in Hf. now rewrite Hf. }
  unfold lookup_default in Hex.
  destruct (lookup zone (Analysis.violations_by_zone res)) as [s|] eqn:Hs.
  - destruct Hsum as [_ [S1 [S2 S3]]].
    split; [exact S1|]. split.
    + rewrite S1.
      destruct (count_parcels zone props) eqn:Hc; [|lia].
      exfalso.
      unfold analyze_violations, analyze_with in Hres.
      rewrite (analyze_loop_no_entry _ 10 zone props
                 (count_parcels_zero zone props Hc) _ _ Hres eq_refl) in Hs.
      discriminate.
    + split; [now rewrite S2|]. split.
      * intros type. now rewrite S3.
      * rewrite Hex; [|simpl; lia]. simpl. rewrite Hzex. reflexivity.
  - exact Hsum.
Qed.

(** X11 on a collection with two parcels of the unlisted zone XYZ. *)
Lemma unknown_zone_listed_without_violations_witness :
  let parcel zone :=
    Some (mkProperty (Val "0123-0045") (Val "1 Main St") Null (Val zone)
            (Val "SINGLE FAM MDL-01") (Val 300000%Q) (Val 100000%Q) (Val (1 # 10)%Q)
            (Val (4356 # 1)%Q) (Val 0%Q) (Val 0%Q)) in
  let props := [parcel "XYZ"; parcel "SRB"; parcel "XYZ"] in
  Forall (aggregator_domain Reanalyze.check_zoning_violations) props
  /\ lookup "XYZ" RulesCorrected.ZONING_RULES = None
  /\ exists res,
       analyze_violations props = Returns res
       /\ match lookup "XYZ" (Analysis.violations_by_zone res) with
          | Some s =>
              ZoneViolations.total_parcels s = count_parcels "XYZ" props
              /\ (1 <= ZoneViolations.total_parcels s)%nat
              /\ ZoneViolations.parcels_with_violations s = 0%nat
              /\ (forall type,
                    lookup_default 0%nat type (ZoneViolations.violations_by_type s)
                    = 0%nat)
              /\ ZoneViolations.examples s = []
          | None => count_parcels "XYZ" props = 0%nat
          end.
Proof.
  intros parcel props.
  assert (Hdom : Forall (aggregator_domain Reanalyze.check_zoning_violations) props).
  { repeat constructor; try discriminate; eexists; vm_compute; reflexivity. }
  split; [exact Hdom|]. split; [reflexivity|].
  exact (unknown_zone_listed_without_violations props "XYZ" Hdom eq_refl).
Defined.

(** ** Zone metrics aggregator on floats: entries and counts *)

Lemma update_Forall {V : Type} (P : V -> Prop) (default : V) (k : string)
    (f : V -> V) (d : list (string * V)) :
  (forall v, P (f v)) ->
  Forall (fun kv => P (snd kv)) d ->
  Forall (fun kv => P (snd kv)) (update default k f d).
Proof.
  intros Hf. induction d as [|[k' v] d IH]; intros Hd; simpl.
  - constructor; [apply Hf | constructor].
  - inversion Hd as [|x l Hx Hl]; subst.
    destruct (String.eqb k k').
    + constructor; [apply Hf | exact Hl].
    + constructor; [exact Hx | now apply IH].
Qed.

(** The float accumulation loop counts the records of every zone, and
    opens an entry only for a record. *)
Lemma float_metrics_loop_counts (props : list (option Property)) :
  Forall metrics_domain props ->
  forall st st',
    for_each Float.metrics_step props st = Returns st' ->
    (Forall (fun kv => (1 <= ZoneData.parcel_count (snd kv))%nat) (fst st) ->
     Forall (fun kv => (1 <= ZoneData.parcel_count (snd kv))%nat) (fst st'))
    /\ forall zone,
         match lookup zone (fst st') with
         | Some data' =>
             ZoneData.parcel_count data'
             = (ZoneData.parcel_count (lookup_default ZoneData.empty zone (fst st))
                + count_parcels zone props)%nat
         | None => lookup zone (fst st) = None /\ count_parcels zone props = 0%nat
         end.
Proof.
  induction 1 as [|prop props Hdom _ IH]; intros st st' Hrun.
  - inversion Hrun. subst st'. split; [auto|].
    intros zone. unfold lookup_default, count_parcels. simpl.
    destruct (lookup zone (fst st)); [lia | split; reflexivity].
  - cbn [for_each] in Hrun. apply bind_returns in Hrun.
    destruct Hrun as [st1 [Hstep Hrest]].
    destruct (IH st1 st' Hrest) as [Hpos Hc].
    destruct (zone_of prop) as [z0|] eqn:Hz.
    + destruct prop as [p|]; [|discriminate].
      unfold metrics_domain in Hdom. rewrite Hz in Hdom.
      destruct Hdom as [[acres Ha] [[value Hv] Hd]].
      destruct st as [zone_data total].
      destruct (float_metrics_step_kept zone_data total p z0 acres value Hz Ha Hv Hd)
        as [land_use Hstep'].
      rewrite Hstep' in Hstep. inversion Hstep. subst st1. clear Hstep.
      cbn [fst] in *. split.
      * intros H0. apply Hpos.
        apply (update_Forall (fun d => (1 <= ZoneData.parcel_count d)%nat));
          [|exact H0].
        intros v. cbn [ZoneData.parcel_count]. lia.
      * intros zone. specialize (Hc zone).
        assert (Hin : in_zone zone (Some p) = String.eqb zone z0).
        { unfold in_zone. rewrite Hz. apply String.eqb_sym. }
        unfold count_parcels in *. cbn [map list_sum]. rewrite Hin.
        rewrite lookup_default_update in Hc.
        destruct (lookup zone (fst st')) as [data'|].
        -- rewrite Hc. destruct (String.eqb zone z0); simpl; lia.
        -- destruct Hc as [Hnone Hzero]. rewrite lookup_update in Hnone.
           destruct (String.eqb zone z0); [discriminate|]. split; assumption.
    + rewrite (float_metrics_step_skipped _ prop Hz) in Hstep.
      inversion Hstep. subst st1. split; [exact Hpos|].
      intros zone. specialize (Hc zone).
      assert (Hin : in_zone zone prop = false).
      { unfold in_zone. now rewrite Hz. }
      unfold count_parcels in *. cbn [map list_sum]. rewrite Hin. exact Hc.
Qed.

Lemma float_map_items_counts (total_acres : Q)
    (zone_data : list (string * ZoneData.t)) (zones : list (string * ZoneMetrics.t)) :
  map_items (Float.zone_result total_acres) zone_data = Returns zones ->
  forall zone,
    match lookup zone zone_data with
    | Some data =>
        exists m, lookup zone zones = Some m
                  /\ ZoneMetrics.parcel_count m = ZoneData.parcel_count data
    | None => lookup zone zones = None
    end.
Proof.
  revert zones.
  induction zone_data as [|[k data] zone_data IH]; intros zones Hz zone.
  - inversion Hz. reflexivity.
  - cbn [map_items] in Hz. apply bind_returns in Hz. destruct Hz as [m [Hm Hz]].
    apply bind_returns in Hz. destruct Hz as [rest [Hrest Hz]].
    inversion Hz. subst zones. simpl.
    destruct (String.eqb zone k).
    + exists m. split; [reflexivity|].
      unfold Float.zone_result in Hm.
      apply bind_returns in Hm. destruct Hm as [pct [_ Hm]].
      apply bind_returns in Hm. destruct Hm as [rd [_ Hm]].
      inversion Hm. reflexivity.
    + apply (IH rest Hrest).
Qed.

(** X12. On floats as in exact arithmetic, the zone metrics aggregator
    never consults the rule table: a zone code has an entry exactly when
    a record that is kept carries it, the entry's parcel_count is the
    number of those records, and the aggregate total_acres is the sum of
    the acres kept up to the rounding of the additions, at most
    [2 * n * 2^-53 * A] for [n] records kept of absolute acres [A]. *)
Theorem float_metrics_count_every_kept_record :
  forall props : list (option Property),
    Forall metrics_domain props ->
    (Z.of_nat (List.length (filter kept props)) <= 2 ^ 52)%Z ->
    exists res,
      Float.calculate_metrics props = Returns res
      /\ (forall zone,
            match lookup zone (Metrics.zones res) with
            | Some m =>
                ZoneMetrics.parcel_count m = count_parcels zone props
                /\ (1 <= count_parcels zone props)%nat
            | None => count_parcels zone props = 0%nat
            end)
      /\ (Qabs (Metrics.total_acres res - kept_acres props)
          <= 2 * inject_Z (Z.of_nat (List.length (filter kept props)))
             * unit_roundoff * abs_acres props)%Q.
Proof.
  intros props Hdom Hn.
  destruct (float_calculate_metrics_returns props Hdom)
    as [zd [res [Hacc [Hres [Hin _]]]]].
  exists res. split; [exact Hres|].
  unfold Float.accumulate_metrics in Hacc.
  destruct (float_metrics_loop_counts props Hdom _ _ Hacc) as [Hpos Hc].
  cbn [fst] in Hpos, Hc. specialize (Hpos (Forall_nil _)).
  split.
  - intros zone. specialize (Hc zone).
    unfold Float.calculate_metrics, Float.accumulate_metrics in Hres.
    rewrite Hacc in Hres. cbn [bind] in Hres.
    apply bind_returns in Hres. destruct Hres as [zones [Hz Hres]].
    inversion Hres as [Hr]. cbn [Metrics.zones].
    pose proof (float_map_items_counts _ _ _ Hz zone) as Hm.
    destruct (lookup zone zd) as [data|] eqn:Hl.
    + destruct Hm as [m [Hm Hcount]]. rewrite Hm, Hcount.
      assert (H1 : (1 <= ZoneData.parcel_count data)%nat).
      { rewrite Forall_forall in Hpos. exact (Hpos _ (lookup_In _ _ _ Hl)). }
      simpl in Hc. split; lia.
    + rewrite Hm. apply Hc.
  - unfold within in Hin. cbn [fst snd] in Hin.
    destruct Hin as [_ [_ [_ HT]]].
    pose proof (gamma_small _ Hn) as Hsmall.
    pose proof (abs_acres_nonneg props) as HA.
    apply Qle_trans with (1 := HT).
    now apply Qmult_le_compat_r.
Qed.

(** X12 on a collection with a parcel of the unlisted zone XYZ. *)
Lemma float_metrics_count_every_kept_record_witness :
  let parcel zone acres :=
    Some (mkProperty (Val "0123-0045") (Val "1 Main St") Null (Val zone)
            (Val "SINGLE FAM MDL-01") (Val 300000%Q) (Val 100000%Q) (Val (fl acres))
            (Val (fl (fl acres * 43560))) (Val 0%Q) (Val 0%Q)) in
  let props := [parcel "XYZ" (1 # 10)%Q; None; parcel "SRB" (2 # 10)%Q;
                parcel "SRB" (3 # 10)%Q] in
  Forall metrics_domain props
  /\ (Z.of_nat (List.length (filter kept props)) <= 2 ^ 52)%Z
  /\ exists res,
       Float.calculate_metrics props = Returns res
       /\ (forall zone,
             match lookup zone (Metrics.zones res) with
             | Some m =>
                 ZoneMetrics.parcel_count m = count_parcels zone props
                 /\ (1 <= count_parcels zone props)%nat
             | None => count_parcels zone props = 0%nat
             end)
       /\ (Qabs (Metrics.total_acres res - kept_acres props)
           <= 2 * inject_Z (Z.of_nat (List.length (filter kept props)))
              * unit_roundoff * abs_acres props)%Q.
Proof.
  intros parcel props.
  assert (Hdom : Forall metrics_domain props).
  { repeat constructor; try discriminate; eexists; reflexivity. }
  assert (Hn : (Z.of_nat (List.length (filter kept props)) <= 2 ^ 52)%Z).
  { vm_compute. discriminate. }
  split; [exact Hdom|]. split; [exact Hn|].
  exact (float_metrics_count_every_kept_record props Hdom Hn).
Defined.
